(** * ITS_LIVE datacube generation: a shallow embedding of [itscube.py]

    The development follows the Python class [ITSCube]:
    granule deduplication ([skip_duplicate_granules]), per-granule
    normalisation ([preprocess_dataset]), the layer accumulator
    ([add_layer], [clear_vars], [clear]), the cube assembler
    ([combine_layers]) and the sequential and parallel orchestrators
    ([create], [create_parallel]) with their variants for local granules
    ([create_from_local_no_api], [create_from_local_parallel_no_api]).

    Python exceptions are values of [exn] carried by the [result] monad.
    Library calls whose behaviour is not part of the repository
    ([datetime.strptime], [datetime.strftime], [int] on strings, opening a
    granule) are parameters, as are the class attributes set from the
    command line ([CELL_SIZE], [NUM_GRANULES_TO_WRITE]) and the six names
    that [itscube.py] reads from [itscube_types.py] although the latter does
    not define them; every general theorem holds for all of them.  The Zarr
    store is the log of the [to_zarr] calls made on it.

    The file has two parts: the definitions (the embedding, a concrete
    environment for the examples, and the predicates of the statements),
    then the proofs. *)

From Stdlib Require Import ZArith Ascii String.
From stdpp Require Import gmap strings list fin_maps pretty.

Open Scope string_scope.
Open Scope list_scope.
Open Scope Z_scope.

(** ** Exceptions and the result monad *)

Inductive exn :=
| RuntimeError (msg : string)
| AttributeError (name : string)
| KeyError (name : string)
| IndexError
| ValueError
| TypeError
| ZeroDivisionError.

Inductive result (A : Type) :=
| OK (a : A)
| Raise (e : exn).
Arguments OK {A} a.
Arguments Raise {A} e.

#[global] Instance result_ret : MRet result := fun A a => OK a.
#[global] Instance result_bind : MBind result := fun A B f r =>
  match r with
  | OK a => f a
  | Raise e => Raise e
  end.

Definition of_option {A} (e : exn) (o : option A) : result A :=
  match o with
  | Some a => OK a
  | None => Raise e
  end.

Definition is_OK {A} (r : result A) : bool :=
  match r with
  | OK _ => true
  | Raise _ => false
  end.

Definition result_map {A B} (f : A -> B) (r : result A) : result B :=
  match r with
  | OK a => OK (f a)
  | Raise e => Raise e
  end.

(** ** Strings: [str.split] and [os.path.basename] *)

Fixpoint split (sep : ascii) (s : string) : list string :=
  match s with
  | EmptyString => [EmptyString]
  | String c s' =>
      if Ascii.eqb c sep then EmptyString :: split sep s'
      else match split sep s' with
           | [] => [String c EmptyString]
           | t :: ts => String c t :: ts
           end
  end.

Definition basename (p : string) : string := List.last (split "/" p) p.

(** ** Granule deduplication *)

(** [ITSCube.DATE_FORMAT] *)
Definition DATE_FORMAT : string := "%Y%m%d".

(** The six values returned by [get_tokens_from_filename]; dates are
    [datetime] objects, represented by their position on the time line. *)
Record tokens := {
  url_acq_1 : Z;
  url_proc_1 : Z;
  path_row_1 : string;
  url_acq_2 : Z;
  url_proc_2 : Z;
  path_row_2 : string
}.

(** [keep_urls]: a Python dict, iterated in insertion order by [values()]. *)
Abbreviation keep_dict := (list (string * list string)).

Fixpoint dict_get (k : string) (d : keep_dict) : option (list string) :=
  match d with
  | [] => None
  | (k', v) :: d' => if decide (k = k') then Some v else dict_get k d'
  end.

(** Assignment to the list stored under an existing key (in-place update,
    the key keeps its position). *)
Fixpoint dict_set (k : string) (v : list string) (d : keep_dict) : keep_dict :=
  match d with
  | [] => []
  | (k', v') :: d' =>
      if decide (k = k') then (k', v) :: d' else (k', v') :: dict_set k v d'
  end.

Definition dict_values (d : keep_dict) : list string := List.concat (d.*2).

Section Dedup.

(** [datetime.strptime(value, format)]; [None] stands for [ValueError]. *)
Variable strptime : string -> string -> option Z.
(** [datetime.strftime(format)] *)
Variable strftime : Z -> string -> string.

Definition get_tokens_from_filename (filename : string) : result tokens :=
  let url_tokens := split "_" (basename filename) in
  t3 ← of_option IndexError (url_tokens !! 3%nat);
  url_acq_date_1 ← of_option ValueError (strptime t3 DATE_FORMAT);
  t4 ← of_option IndexError (url_tokens !! 4%nat);
  url_proc_date_1 ← of_option ValueError (strptime t4 DATE_FORMAT);
  url_path_row_1 ← of_option IndexError (url_tokens !! 2%nat);
  t11 ← of_option IndexError (url_tokens !! 11%nat);
  url_acq_date_2 ← of_option ValueError (strptime t11 DATE_FORMAT);
  t12 ← of_option IndexError (url_tokens !! 12%nat);
  url_proc_date_2 ← of_option ValueError (strptime t12 DATE_FORMAT);
  url_path_row_2 ← of_option IndexError (url_tokens !! 10%nat);
  OK {| url_acq_1 := url_acq_date_1; url_proc_1 := url_proc_date_1;
        path_row_1 := url_path_row_1;
        url_acq_2 := url_acq_date_2; url_proc_2 := url_proc_date_2;
        path_row_2 := url_path_row_2 |}.

(** The physical-pair key. *)
Definition granule_id (t : tokens) : string :=
  String.concat "_"
    [strftime (url_acq_1 t) DATE_FORMAT; path_row_1 t;
     strftime (url_acq_2 t) DATE_FORMAT; path_row_2 t].

(** First inner loop (lines 258-270): is there an already kept URL with
    both processing dates identical?  The loop stops at the first one. *)
Fixpoint find_identical (t : tokens) (kept : list string) : result bool :=
  match kept with
  | [] => OK false
  | found_url :: rest =>
      f ← get_tokens_from_filename found_url;
      if bool_decide (url_proc_1 t = url_proc_1 f) && bool_decide (url_proc_2 t = url_proc_2 f)
      then OK true
      else find_identical t rest
  end.

(** The test of lines 283-293 deciding that [found] gives way to the
    incoming URL. *)
Definition replaces (t f : tokens) : bool :=
  if bool_decide (url_proc_1 f ≤ url_proc_1 t) && bool_decide (url_proc_2 f ≤ url_proc_2 t)
  then true
  else bool_decide (url_proc_1 f < url_proc_1 t).

(** Second inner loop (lines 277-293): [remove_urls]. *)
Fixpoint collect_remove_urls (t : tokens) (kept : list string) : result (list string) :=
  match kept with
  | [] => OK []
  | found_url :: rest =>
      f ← get_tokens_from_filename found_url;
      remove_urls ← collect_remove_urls t rest;
      OK (if replaces t f then found_url :: remove_urls else remove_urls)
  end.

(** One iteration of the loop over [found_urls]; the state is
    [(keep_urls, skipped_double_granules)]. *)
Definition dedup_step (st : keep_dict * list string) (each_url : string)
  : result (keep_dict * list string) :=
  let '(keep_urls, skipped) := st in
  t ← get_tokens_from_filename each_url;
  let gid := granule_id t in
  match dict_get gid keep_urls with
  | Some kept =>
      keep_found_url ← find_identical t kept;
      if keep_found_url : bool then
        OK (dict_set gid (kept ++ [each_url]) keep_urls, skipped)
      else
        remove_urls ← collect_remove_urls t kept;
        if bool_decide (remove_urls ≠ []) then
          OK (dict_set gid
                (filter (λ each, each ∉ remove_urls) kept ++ [each_url])
                keep_urls,
              skipped ++ remove_urls)
        else
          OK (keep_urls, skipped ++ [each_url])
  | None =>
      OK (keep_urls ++ [(gid, [each_url])], skipped)
  end.

Fixpoint dedup_loop (st : keep_dict * list string) (found_urls : list string)
  : result (keep_dict * list string) :=
  match found_urls with
  | [] => OK st
  | each_url :: rest => st' ← dedup_step st each_url; dedup_loop st' rest
  end.

(** [skip_duplicate_granules]: the returned list of granules together
    with the value left in [self.skipped_double_granules]. *)
Definition skip_duplicate_granules (found_urls : list string)
  : result (list string * list string) :=
  st ← dedup_loop ([], []) found_urls;
  OK (dict_values st.1, st.2).

End Dedup.

(** ** Values, arrays and granule datasets *)

(** Attribute values and the entries of one-dimensional variables.  Numbers
    are exact; the assembler only moves them, it performs no arithmetic on
    them.  [VArr] is a numeric sequence (a numpy array or list), [VDate] a
    [datetime] as microseconds on the time line, [VNone] Python's [None]. *)
Inductive value :=
| VNum (n : Z)
| VStr (s : string)
| VDate (d : Z)
| VArr (l : list Z)
| VNone.

#[global] Instance value_eq_dec : EqDecision value.
Proof. solve_decision. Defined.

(** A cell of a two-dimensional variable; [None] is NaN. *)
Abbreviation cell := (option Z) (only parsing).
(** Rows follow the [y] axis, columns the [x] axis. *)
Abbreviation array2 := (list (list cell)).

(** [xr.DataArray] of a granule: its dimensions, data and attributes. *)
Record DataArray := {
  da_dims : list string;
  da_values : array2;
  da_attrs : gmap string value
}.

(** [xr.Dataset] of a granule.  Membership ([name in ds]), attribute access
    ([ds.name]) and indexing ([ds[name]]) are all read as lookups among the
    variables. *)
Record Dataset := {
  ds_x : list Z;
  ds_y : list Z;
  ds_vars : gmap string DataArray;
  ds_attrs : gmap string value
}.

(** [Coords] *)
Module Coords.
Definition MID_DATE : string := "mid_date".
Definition X : string := "x".
Definition Y : string := "y".
End Coords.

(** [DataVars]: the constants of [itscube_types.py] used by the assembler. *)
Module DataVars.
Definition MISSING_VALUE_ATTR : string := "missing_value".
Definition FILL_VALUE_ATTR : string := "_FillValue".
Definition GRID_MAPPING : string := "grid_mapping".
Definition GRID_MAPPING_NAME : string := "grid_mapping_name".
Definition STABLE_COUNT : string := "stable_count".
Definition STABLE_COUNT_SLOW : string := "stable_count_slow".
Definition STABLE_COUNT_MASK : string := "stable_count_mask".
Definition FLAG_STABLE_SHIFT : string := "flag_stable_shift".
Definition STABLE_SHIFT : string := "stable_shift".
Definition STABLE_SHIFT_SLOW : string := "stable_shift_slow".
Definition STABLE_SHIFT_MASK : string := "stable_shift_mask".
Definition UNITS : string := "units".
Definition V : string := "v".
Definition MAP_SCALE_CORRECTED : string := "map_scale_corrected".
Definition VX : string := "vx".
Definition STABLE_RMSE : string := "stable_rmse".
Definition ERROR_DESCRIPTION : string := "description".
Definition ERROR : string := "error".
Definition ERROR_MASK : string := "error_mask".
Definition ERROR_MODELED : string := "error_modeled".
Definition ERROR_SLOW : string := "error_slow".
Definition VY : string := "vy".
Definition CHIP_SIZE_HEIGHT : string := "chip_size_height".
Definition CHIP_SIZE_WIDTH : string := "chip_size_width".
Definition INTERP_MASK : string := "interp_mask".
Definition V_ERROR : string := "v_error".
Definition VA : string := "va".
Definition VP : string := "vp".
Definition VP_ERROR : string := "vp_error".
Definition VR : string := "vr".
Definition VXP : string := "vxp".
Definition VYP : string := "vyp".
Definition URL : string := "original_url_path".
Definition POLAR_STEREOGRAPHIC : string := "Polar_Stereographic".
Definition UTM_PROJECTION : string := "UTM_Projection".
Definition MAPPING : string := "mapping".
Definition MISSING_BYTE : value := VNum 0.
Definition MISSING_VALUE : value := VNum (-32767).

Module ImgPairInfo.
Definition NAME : string := "img_pair_info".
Definition DATE_UNITS : string := "days since 1970-01-01".
Definition MISSION_IMG1 : string := "mission_img1".
Definition SENSOR_IMG1 : string := "sensor_img1".
Definition SATELLITE_IMG1 : string := "satellite_img1".
Definition ACQUISITION_IMG1 : string := "acquisition_img1".
Definition MISSION_IMG2 : string := "mission_img2".
Definition SENSOR_IMG2 : string := "sensor_img2".
Definition SATELLITE_IMG2 : string := "satellite_img2".
Definition ACQUISITION_IMG2 : string := "acquisition_img2".
Definition DATE_DT : string := "date_dt".
Definition DATE_CENTER : string := "date_center".
Definition ROI_VALID_PERCENTAGE : string := "roi_valid_percentage".
Definition AUTORIFT_SOFTWARE_VERSION : string := "autoRIFT_software_version".

Definition ALL : list string :=
  [MISSION_IMG1; SENSOR_IMG1; SATELLITE_IMG1;
   MISSION_IMG2; SENSOR_IMG2; SATELLITE_IMG2;
   DATE_DT; DATE_CENTER; ROI_VALID_PERCENTAGE; AUTORIFT_SOFTWARE_VERSION].

(** [CONVERT_TO_DATE], restricted to the names of [ALL] and total on them. *)
Definition CONVERT_TO_DATE (name : string) : bool :=
  bool_decide (name = DATE_CENTER).
End ImgPairInfo.
End DataVars.

(** ** Exceptions raised by lookups *)

(** [ds.name] *)
Definition ds_getattr (d : Dataset) (name : string) : result DataArray :=
  of_option (AttributeError name) (ds_vars d !! name).

(** [ds[name]] *)
Definition ds_getitem (d : Dataset) (name : string) : result DataArray :=
  of_option (KeyError name) (ds_vars d !! name).

(** [var.attrs[name]] *)
Definition attrs_getitem (a : gmap string value) (name : string) : result value :=
  of_option (KeyError name) (a !! name).

(** [var.name] on a data array: an attribute read through attribute
    access. *)
Definition da_getattr (a : DataArray) (name : string) : result value :=
  of_option (AttributeError name) (da_attrs a !! name).

(** [ds.drop_vars(name)]: the variable must exist. *)
Definition drop_vars (name : string) (d : Dataset) : result Dataset :=
  match ds_vars d !! name with
  | Some _ => OK {| ds_x := ds_x d; ds_y := ds_y d;
                    ds_vars := delete name (ds_vars d);
                    ds_attrs := ds_attrs d |}
  | None => Raise ValueError
  end.

(** [ds.drop_vars(name) if name in ds else ds] *)
Definition drop_vars_if_present (name : string) (d : Dataset) : Dataset :=
  {| ds_x := ds_x d; ds_y := ds_y d;
     ds_vars := delete name (ds_vars d);
     ds_attrs := ds_attrs d |}.

(** A list comprehension whose body may raise: elements are evaluated in
    order and the first exception ends the evaluation. *)
Fixpoint for_each {A B} (f : A -> result B) (l : list A) : result (list B) :=
  match l with
  | [] => OK []
  | a :: l' => b ← f a; bs ← for_each f l'; OK (b :: bs)
  end.

(** ** The cube object *)

(** A variable of the combined dataset [self.layers]: three-dimensional
    [(mid_date, y, x)], one-dimensional [(mid_date)], or dimensionless (the
    projection descriptor, which only carries attributes).  Attributes of
    combined variables are written but never read by the code and are not
    tracked. *)
Inductive LayerVar :=
| Cube (slices : list array2)
| Series (data : list value)
| Scalar (attrs : gmap string value).

(** Length along the record axis, for the variables that have one. *)
Definition record_len (v : LayerVar) : option nat :=
  match v with
  | Cube slices => Some (length slices)
  | Series data => Some (length data)
  | Scalar _ => None
  end.

(** The dataset attributes of [self.layers] that depend on the run. *)
Record CubeAttrs := {
  attr_projection : string;
  attr_skipped_empty_data : list string;
  attr_skipped_duplicate_middle_date : list string;
  attr_skipped_wrong_projection : gmap Z (list string);
  attr_other : gmap string value
}.

Record LayersDataset := {
  data_vars : gmap string LayerVar;
  coord_mid_date : list (option Z);
  coord_x : list Z;
  coord_y : list Z;
  cube_attrs : CubeAttrs
}.

(** [self.layers]: [None], the empty dict [{}], or a dataset. *)
Inductive Layers :=
| LayersNone
| LayersEmptyDict
| LayersDataset_ (d : LayersDataset).

(** The fields of an [ITSCube] object.  [x_min .. y_max] are [self.x.min],
    [self.x.max], [self.y.min], [self.y.max]. *)
Record ITSCube := {
  projection : string;
  x_min : Z; x_max : Z;
  y_min : Z; y_max : Z;
  grid_x : list Z;
  grid_y : list Z;
  ds : list Dataset;
  dates : list (option Z);
  urls : list string;
  num_urls_from_api : option nat;
  skipped_proj_granules : gmap Z (list string);
  skipped_empty_granules : list string;
  skipped_double_granules : list string;
  layers : Layers
}.

(** Field updates. *)
Definition set_accumulator (self : ITSCube) (ds' : list Dataset) (dates' : list (option Z))
           (urls' : list string) (layers' : Layers) : ITSCube :=
  {| projection := projection self;
     x_min := x_min self; x_max := x_max self;
     y_min := y_min self; y_max := y_max self;
     grid_x := grid_x self; grid_y := grid_y self;
     ds := ds'; dates := dates'; urls := urls';
     num_urls_from_api := num_urls_from_api self;
     skipped_proj_granules := skipped_proj_granules self;
     skipped_empty_granules := skipped_empty_granules self;
     skipped_double_granules := skipped_double_granules self;
     layers := layers' |}.

Definition set_run_logs (self : ITSCube) (n : option nat) (proj : gmap Z (list string))
           (empty double : list string) : ITSCube :=
  {| projection := projection self;
     x_min := x_min self; x_max := x_max self;
     y_min := y_min self; y_max := y_max self;
     grid_x := grid_x self; grid_y := grid_y self;
     ds := ds self; dates := dates self; urls := urls self;
     num_urls_from_api := n;
     skipped_proj_granules := proj;
     skipped_empty_granules := empty;
     skipped_double_granules := double;
     layers := layers self |}.

(** [clear_vars] *)
Definition clear_vars (self : ITSCube) : ITSCube :=
  set_accumulator self [] [] [] LayersNone.

(** [clear] *)
Definition clear (self : ITSCube) : ITSCube :=
  set_run_logs (clear_vars self) None ∅ [] [].

(** The tuple returned by [preprocess_dataset]; the fields carry the names
    of the parameters of [add_layer]. *)
Record layer_result := {
  is_empty : bool;
  layer_projection : Z;
  mid_date : option Z;
  url : string;
  data : option Dataset
}.

(** [add_layer] *)
Definition add_layer (self : ITSCube) (r : layer_result) : ITSCube :=
  match data r with
  | Some d =>
      set_accumulator self (ds self ++ [d]) (dates self ++ [mid_date r])
                      (urls self ++ [url r]) (layers self)
  | None =>
      if is_empty r then
        set_run_logs self (num_urls_from_api self) (skipped_proj_granules self)
                     (skipped_empty_granules self ++ [url r])
                     (skipped_double_granules self)
      else
        set_run_logs self (num_urls_from_api self)
                     (<[layer_projection r :=
                          default [] (skipped_proj_granules self !! layer_projection r)
                          ++ [url r]]> (skipped_proj_granules self))
                     (skipped_empty_granules self)
                     (skipped_double_granules self)
  end.

(** ** Granule normalisation *)

(** [int(value)] on an attribute value; the reading of strings is the
    library's. *)
Definition py_int (int_of_str : string -> option Z) (v : value) : result Z :=
  match v with
  | VNum n => OK n
  | VStr s => of_option ValueError (int_of_str s)
  | VArr [n] => OK n
  | _ => Raise TypeError
  end.

(** The inclusion masks of lines 789-790. *)
Definition in_bounds (lo hi : Z) (c : Z) : bool := (lo <=? c) && (c <=? hi).

(** Rows or columns selected by a mask. *)
Fixpoint select {A} (mask : list bool) (l : list A) : list A :=
  match mask, l with
  | m :: mask', a :: l' => if m then a :: select mask' l' else select mask' l'
  | _, _ => []
  end.

(** [ds.where(mask_lon & mask_lat, drop=True)]: the rows and columns
    outside the mask are dropped from the coordinates and from every
    variable dimensioned by [(y, x)]. *)
Definition crop_array (mask_lat mask_lon : list bool) (a : DataArray) : DataArray :=
  if bool_decide (da_dims a = [Coords.Y; Coords.X]) then
    {| da_dims := da_dims a;
       da_values := select mask_lon <$> select mask_lat (da_values a);
       da_attrs := da_attrs a |}
  else a.

Definition where_drop (mask_lat mask_lon : list bool) (d : Dataset) : Dataset :=
  {| ds_x := select mask_lon (ds_x d);
     ds_y := select mask_lat (ds_y d);
     ds_vars := crop_array mask_lat mask_lon <$> ds_vars d;
     ds_attrs := ds_attrs d |}.

(** [np.any(a.notnull())] *)
Definition any_notnull (a : array2) : bool :=
  existsb (existsb (fun c : cell => bool_decide (is_Some c))) a.

Section Normalizer.

Variable strptime : string -> string -> option Z.
Variable int_of_str : string -> option Z.
(** [ITSCube.CELL_SIZE] *)
Variable CELL_SIZE : Z.

Definition unsupported_projection (ds_url : string) : exn :=
  RuntimeError ("Unsupported projection is detected for " +:+ ds_url).

Definition unexpected_cell_size (ds_url : string) : exn :=
  RuntimeError ("Unexpected grid cell size is detected for " +:+ ds_url).

Definition preprocess_dataset (self : ITSCube) (d : Dataset) (ds_url : string)
  : result layer_result :=
  (* Detect projection *)
  ds_projection ←
    (if bool_decide (is_Some (ds_vars d !! DataVars.MAPPING)) then
       mapping ← ds_getattr d DataVars.MAPPING;
       da_getattr mapping "spatial_epsg"
     else Raise (unsupported_projection ds_url));
  epsg ← py_int int_of_str ds_projection;
  if bool_decide (pretty epsg = projection self) then
    img_pair_info ← ds_getattr d DataVars.ImgPairInfo.NAME;
    date_center ← da_getattr img_pair_info "date_center";
    date_center_str ← (match date_center with VStr s => OK s | _ => Raise TypeError end);
    center ← of_option ValueError (strptime date_center_str "%Y%m%d");
    date_dt ← da_getattr img_pair_info "date_dt";
    dt_ms ← py_int int_of_str date_dt;
    let mid := center + 1000 * dt_ms in
    let mask_lon := in_bounds (x_min self) (x_max self) <$> ds_x d in
    let mask_lat := in_bounds (y_min self) (y_max self) <$> ds_y d in
    if bool_decide (length (filter (fun b => b = true) mask_lon) = 0%nat
                    \/ length (filter (fun b => b = true) mask_lat) = 0%nat) then
      (* One or both masks resulted in no coverage *)
      OK {| is_empty := true; layer_projection := epsg; mid_date := None;
            url := ds_url; data := None |}
    else
      let mask_data := where_drop mask_lat mask_lon d in
      v ← ds_getattr mask_data DataVars.V;
      if any_notnull (da_values v) then
        x0 ← of_option IndexError (ds_x mask_data !! 0%nat);
        x1 ← of_option IndexError (ds_x mask_data !! 1%nat);
        if bool_decide (Z.abs (x0 - x1) ≠ CELL_SIZE) then
          Raise (unexpected_cell_size ds_url)
        else
          OK {| is_empty := false; layer_projection := epsg; mid_date := Some mid;
                url := ds_url; data := Some mask_data |}
      else
        OK {| is_empty := true; layer_projection := epsg; mid_date := None;
              url := ds_url; data := None |}
  else
    OK {| is_empty := false; layer_projection := epsg; mid_date := None;
          url := ds_url; data := None |}.

End Normalizer.

(** ** The cube assembler *)

(** [hasattr(type(value), '__len__') and len(value) == 1]: one-element
    sequences are replaced by their element (a one-character string by
    itself). *)
Definition unwrap_singleton (v : value) : value :=
  match v with
  | VArr [n] => VNum n
  | _ => v
  end.

Definition conversion_error (var_name attr_name ds_url : string) : exn :=
  RuntimeError ("Error converting to date format for " +:+ var_name +:+ "."
                +:+ attr_name +:+ " in " +:+ ds_url).

Definition attr_expected (var_name attr_name ds_url : string) : exn :=
  RuntimeError (attr_name +:+ " is expected within " +:+ var_name +:+ " for " +:+ ds_url).

(** The model of the persistent store: the sequence of [to_zarr] calls made
    on it, oldest first.  The first constructor is the store-creating call
    (with its encoding table), the second the call with [append_dim]. *)
Inductive store_op :=
| ToZarrCreate (layers : LayersDataset) (encoding : gmap string (gmap string value))
| ToZarrAppend (layers : LayersDataset).

Definition written_layers (op : store_op) : LayersDataset :=
  match op with
  | ToZarrCreate l _ => l
  | ToZarrAppend l => l
  end.

(** The kind of a [to_zarr] call. *)
Inductive call_kind := Creating | Appending.

Definition kind (op : store_op) : call_kind :=
  match op with
  | ToZarrCreate _ _ => Creating
  | ToZarrAppend _ => Appending
  end.

(** [len(set(values)) > 1] *)
Definition multiple_values (values : list value) : bool :=
  bool_decide (1 < length (remove_dups values))%nat.

(** [np.ma.masked_equal(a.values, no_value).count()]: the number of cells
    different from [no_value]. *)
Definition count_not_equal (no_value : Z) (a : array2) : nat :=
  length (filter (fun c : cell => c ≠ Some no_value) (List.concat a)).

(** [ITSCube.CHIP_SIZE_HEIGHT_NO_VALUE] *)
Definition CHIP_SIZE_HEIGHT_NO_VALUE : Z := 65535.

(** The state threaded through [combine_layers]: the granule datasets
    [self.ds] (variables are dropped from them as they are consumed), the
    variables of [self.layers], the list [new_v_vars] and the dataset
    attributes set on [self.layers] along the way. *)
Record work := {
  w_ds : list Dataset;
  w_layers : gmap string LayerVar;
  w_new_v_vars : list string;
  w_attrs : gmap string value
}.

Section Assembler.

Variable strptime : string -> string -> option Z.

(** Constants that [itscube.py] reads from [DataVars] and
    [DataVars.ImgPairInfo] but that [itscube_types.py] does not define. *)
Variable AUTORIFT_SOFTWARE_VERSION : string.
Variable AUTORIFT_PARAMETER_FILE : string.
Variable ACQUISITION_DATE_IMG1 : string.
Variable ACQUISITION_DATE_IMG2 : string.
Variable TIME_STANDARD_IMG1 : string.
Variable TIME_STANDARD_IMG2 : string.

(** The date conversion of lines 703-721; a [ValueError] of [strptime] is
    turned into a [RuntimeError]. *)
Definition convert_to_date (ds_url var_name attr_name : string) (v : value) : result value :=
  match v with
  | VStr s =>
      let tokens := split "T" s in
      if bool_decide (length tokens = 3%nat) then
        let t0 := default "" (tokens !! 0%nat) in
        let t1 := default "" (tokens !! 1%nat) in
        let s' := t0 +:+ "T" +:+ substring 0 2 t1 +:+ ":" +:+ substring 2 2 t1
                     +:+ ":" +:+ substring 4 2 t1 in
        d ← of_option (conversion_error var_name attr_name ds_url)
                      (strptime s' "%Y%m%dT%H:%M:%S");
        OK (VDate d)
      else if bool_decide (String.length s = 8%nat) then
        d ← of_option (conversion_error var_name attr_name ds_url)
                      (strptime (substring 0 8 s) "%Y%m%d");
        OK (VDate d)
      else if bool_decide (8 < String.length s)%nat then
        d ← of_option (conversion_error var_name attr_name ds_url)
                      (strptime s "%Y%m%dT%H:%M:%S");
        OK (VDate d)
      else OK v
  | _ => Raise (AttributeError "split")
  end.

(** [get_data_var_attr] *)
Definition get_data_var_attr (d : Dataset) (ds_url var_name attr_name : string)
           (missing_value : option value) (to_date : bool) : result value :=
  match ds_vars d !! var_name ≫= fun a => da_attrs a !! attr_name with
  | Some v =>
      let v := unwrap_singleton v in
      if to_date then convert_to_date ds_url var_name attr_name v else OK v
  | None =>
      match missing_value with
      | None => Raise (attr_expected var_name attr_name ds_url)
      | Some m => OK m
      end
  end.

(** [xr.concat(arrays, mid_date_coord)]: one slice per record, in order;
    the number of arrays must be the length of the index. *)
Definition concat (mid_date_coord : list (option Z)) (arrays : list DataArray)
  : result LayerVar :=
  if bool_decide (length arrays = length mid_date_coord)
  then OK (Cube (da_values <$> arrays))
  else Raise ValueError.

(** [xr.DataArray(data=..., coords=[mid_date_coord], dims=[mid_date])] *)
Definition series (mid_date_coord : list (option Z)) (data : list value)
  : result LayerVar :=
  if bool_decide (length data = length mid_date_coord)
  then OK (Series data)
  else Raise ValueError.

Section WithSelf.

Variable self : ITSCube.

(** [get_data_var]: the variable of the granule, or a NaN-filled array on
    the grid of the cube. *)
Definition get_data_var (d : Dataset) (var_name : string) : DataArray :=
  match ds_vars d !! var_name with
  | Some a => a
  | None =>
      {| da_dims := [Coords.Y; Coords.X];
         da_values := replicate (length (grid_y self))
                                (replicate (length (grid_x self)) None);
         da_attrs := ∅ |}
  end.

(** [zip(self.ds, self.urls)]; [self.urls] is not changed by the
    assembler. *)
Definition ds_urls (w : work) : list (Dataset * string) := zip (w_ds w) (urls self).

Definition mid_date_coord : list (option Z) := dates self.

Definition set_layer (name : string) (v : LayerVar) (w : work) : work :=
  {| w_ds := w_ds w; w_layers := <[name := v]> (w_layers w);
     w_new_v_vars := w_new_v_vars w; w_attrs := w_attrs w |}.

Definition set_ds (l : list Dataset) (w : work) : work :=
  {| w_ds := l; w_layers := w_layers w; w_new_v_vars := w_new_v_vars w;
     w_attrs := w_attrs w |}.

Definition extend_new_v_vars (names : list string) (w : work) : work :=
  {| w_ds := w_ds w; w_layers := w_layers w;
     w_new_v_vars := w_new_v_vars w ++ names; w_attrs := w_attrs w |}.

Definition set_attr (name : string) (v : value) (w : work) : work :=
  {| w_ds := w_ds w; w_layers := w_layers w; w_new_v_vars := w_new_v_vars w;
     w_attrs := <[name := v]> (w_attrs w) |}.

(** A one-dimensional variable gathered from an attribute of [var_name]. *)
Definition attr_series (w : work) (var_name attr_name : string)
           (missing_value : option value) (to_date : bool) : result LayerVar :=
  data ← for_each (fun p : Dataset * string =>
                     get_data_var_attr p.1 p.2 var_name attr_name missing_value to_date)
                  (ds_urls w);
  series mid_date_coord data.

(** The keys of [_attrs] in [process_v_attributes]. *)
Definition _attrs_keys : list string :=
  ["vx_error"; "vy_error"; "va_error"; "vr_error"; "vxp_error"; "vyp_error";
   "error_mask"; "error_slow"; "error_modeled"].

(** [self.ds[0]] *)
Definition first_ds (w : work) : result Dataset := of_option IndexError (w_ds w !! 0%nat).

(** [var_name in self.ds[0] and attr_name in self.ds[0][var_name].attrs] *)
Definition first_has_attr (w : work) (var_name attr_name : string) : result bool :=
  d0 ← first_ds w;
  OK (bool_decide (is_Some (ds_vars d0 !! var_name ≫= fun a => da_attrs a !! attr_name))).

(** One iteration of the loop over [_v_comp_attrs] (lines 873-929). *)
Definition error_variable (var_name each_prefix : string) (w : work) : result work :=
  let error_name := var_name +:+ "_" +:+ each_prefix in
  error_data ←
    (if bool_decide (var_name ∈ [DataVars.VX; DataVars.VY]) then
       for_each (fun p : Dataset * string =>
                   a ← ds_getitem p.1 var_name;
                   if bool_decide (is_Some (da_attrs a !! error_name)) then
                     get_data_var_attr p.1 p.2 var_name error_name
                                       (Some DataVars.MISSING_VALUE) false
                   else
                     get_data_var_attr p.1 p.2 var_name DataVars.STABLE_RMSE
                                       (Some DataVars.MISSING_VALUE) false)
                (ds_urls w)
     else
       for_each (fun p : Dataset * string =>
                   get_data_var_attr p.1 p.2 var_name error_name
                                     (Some DataVars.MISSING_VALUE) false)
                (ds_urls w));
  let error_name_desc := error_name +:+ "_" +:+ DataVars.ERROR_DESCRIPTION in
  has_desc ← first_has_attr w var_name error_name_desc;
  _ ← (if has_desc : bool then OK ()
       else if bool_decide (each_prefix ∈ _attrs_keys) then OK ()
       else if bool_decide (error_name ∈ _attrs_keys) then OK ()
       else Raise (RuntimeError ("Unknown description for " +:+ error_name
                                 +:+ " of " +:+ var_name)));
  v ← series mid_date_coord error_data;
  OK (set_layer error_name v w).

(** The three "capture it only once" blocks (lines 933-991). *)
Definition capture_once (var_name attr_name : string) (w : work) : result work :=
  if bool_decide (w_layers w !! attr_name = None) then
    has ← first_has_attr w var_name attr_name;
    if has : bool then
      v ← attr_series w var_name attr_name None false;
      OK (set_layer attr_name v w)
    else OK w
  else OK w.

(** Lines 997-1009. *)
Definition capture_flag_stable_shift (var_name : string) (w : work) : result work :=
  if bool_decide (w_layers w !! DataVars.FLAG_STABLE_SHIFT = None) then
    d0 ← first_ds w;
    if bool_decide (is_Some (ds_vars d0 !! var_name)) then
      v ← attr_series w var_name DataVars.FLAG_STABLE_SHIFT (Some (VNum 0)) false;
      OK (set_layer DataVars.FLAG_STABLE_SHIFT v w)
    else OK w
  else OK w.

(** The three shift variables (lines 1019-1076). *)
Definition shift_variable (var_name shift : string) (w : work) : result work :=
  let shift_var_name := var_name +:+ "_" +:+ shift in
  v ← attr_series w var_name shift (Some DataVars.MISSING_VALUE) false;
  OK (set_layer shift_var_name v w).

(** [process_v_attributes]: the new variables it adds to [self.layers] and
    the names it returns. *)
Definition process_v_attributes (var_name : string) (w : work)
  : result (work * list string) :=
  _ ← of_option (KeyError var_name) (w_layers w !! var_name);
  w ← error_variable var_name DataVars.ERROR w;
  w ← error_variable var_name DataVars.ERROR_MASK w;
  w ← error_variable var_name DataVars.ERROR_MODELED w;
  w ← error_variable var_name DataVars.ERROR_SLOW w;
  w ← capture_once var_name DataVars.STABLE_COUNT w;
  w ← capture_once var_name DataVars.STABLE_COUNT_SLOW w;
  w ← capture_once var_name DataVars.STABLE_COUNT_MASK w;
  w ← capture_flag_stable_shift var_name w;
  w ← shift_variable var_name DataVars.STABLE_SHIFT w;
  w ← shift_variable var_name DataVars.STABLE_SHIFT_SLOW w;
  w ← shift_variable var_name DataVars.STABLE_SHIFT_MASK w;
  OK (w, [var_name +:+ "_" +:+ DataVars.ERROR;
          var_name +:+ "_" +:+ DataVars.ERROR_MASK;
          var_name +:+ "_" +:+ DataVars.ERROR_MODELED;
          var_name +:+ "_" +:+ DataVars.ERROR_SLOW;
          var_name +:+ "_" +:+ DataVars.STABLE_SHIFT;
          var_name +:+ "_" +:+ DataVars.STABLE_SHIFT_SLOW;
          var_name +:+ "_" +:+ DataVars.STABLE_SHIFT_MASK]).

(** Lines 1207-1230: the projection descriptor, written with the first
    batch only. *)
Definition set_projection (w : work) : result work :=
  d0 ← first_ds w;
  proj_data ←
    (if bool_decide (is_Some (ds_vars d0 !! DataVars.POLAR_STEREOGRAPHIC))
     then OK DataVars.POLAR_STEREOGRAPHIC
     else if bool_decide (is_Some (ds_vars d0 !! DataVars.UTM_PROJECTION))
     then OK DataVars.UTM_PROJECTION
     else if bool_decide (is_Some (ds_vars d0 !! DataVars.MAPPING))
     then OK DataVars.MAPPING
     else Raise (RuntimeError "Missing one of [Polar_Stereographic, UTM_Projection, mapping]"));
  a ← ds_getitem d0 proj_data;
  OK (set_layer DataVars.MAPPING (Scalar (da_attrs a)) w).

Definition multiple_values_error (what : string) : exn :=
  RuntimeError ("Multiple values are detected for current layers: " +:+ what).

(** Lines 1244-1263: the grid mapping must be the same for all layers. *)
Definition check_grid_mapping (w : work) : result unit :=
  d0 ← first_ds w;
  v0 ← ds_getattr d0 DataVars.V;
  gm ← attrs_getitem (da_attrs v0) DataVars.GRID_MAPPING;
  if bool_decide (gm = VStr DataVars.MAPPING) then
    grid_mapping_values ←
      for_each (fun d => m ← ds_getattr d DataVars.MAPPING;
                         attrs_getitem (da_attrs m) DataVars.GRID_MAPPING_NAME)
               (w_ds w);
    if multiple_values grid_mapping_values
    then Raise (multiple_values_error DataVars.MAPPING)
    else OK ()
  else
    grid_mapping_values ←
      for_each (fun d => v ← ds_getattr d DataVars.V;
                         attrs_getitem (da_attrs v) DataVars.GRID_MAPPING)
               (w_ds w);
    if multiple_values grid_mapping_values
    then Raise (multiple_values_error DataVars.GRID_MAPPING)
    else OK ().

(** Lines 1236-1288: ['v'], present in every format. *)
Definition process_v (w : work) : result work :=
  arrays ← for_each (fun d => ds_getattr d DataVars.V) (w_ds w);
  v_layers ← concat mid_date_coord arrays;
  let w := set_layer DataVars.V v_layers w in
  let w := extend_new_v_vars [DataVars.V] w in
  _ ← check_grid_mapping w;
  has_msc ← first_has_attr w DataVars.V DataVars.MAP_SCALE_CORRECTED;
  w ← (if has_msc : bool then
         v ← attr_series w DataVars.V DataVars.MAP_SCALE_CORRECTED
                         (Some DataVars.MISSING_BYTE) false;
         OK (set_layer DataVars.MAP_SCALE_CORRECTED v w)
       else OK w);
  ds' ← for_each (drop_vars DataVars.V) (w_ds w);
  OK (set_ds ds' w).

(** A variable that only some formats provide and that has no attributes of
    its own to promote (['v_error'], ['vp'], ['vp_error']). *)
Definition process_optional (var_name : string) (w : work) : result work :=
  v ← concat mid_date_coord ((fun d => get_data_var d var_name) <$> w_ds w);
  let w := set_layer var_name v w in
  let w := extend_new_v_vars [var_name] w in
  OK (set_ds (drop_vars_if_present var_name <$> w_ds w) w).

(** A velocity component present in every format (['vx'], ['vy']). *)
Definition process_required_v (var_name : string) (w : work) : result work :=
  arrays ← for_each (fun d => ds_getattr d var_name) (w_ds w);
  v ← concat mid_date_coord arrays;
  let w := set_layer var_name v w in
  let w := extend_new_v_vars [var_name] w in
  '(w, names) ← process_v_attributes var_name w;
  let w := extend_new_v_vars names w in
  ds' ← for_each (drop_vars var_name) (w_ds w);
  OK (set_ds ds' w).

(** A velocity component that only some formats provide (['va'], ['vr'],
    ['vxp'], ['vyp']). *)
Definition process_optional_v (var_name : string) (w : work) : result work :=
  v ← concat mid_date_coord ((fun d => get_data_var d var_name) <$> w_ds w);
  let w := set_layer var_name v w in
  let w := extend_new_v_vars [var_name] w in
  '(w, names) ← process_v_attributes var_name w;
  let w := extend_new_v_vars names w in
  OK (set_ds (drop_vars_if_present var_name <$> w_ds w) w).

(** Lines 1396-1419: [chip_size_height], replaced by [chip_size_width]
    where it holds no value. *)
Definition process_chip_size_height (w : work) : result work :=
  arrays ←
    for_each (fun d =>
                h ← ds_getattr d DataVars.CHIP_SIZE_HEIGHT;
                if bool_decide (count_not_equal CHIP_SIZE_HEIGHT_NO_VALUE (da_values h) ≠ 0%nat)
                then OK h
                else ds_getattr d DataVars.CHIP_SIZE_WIDTH)
             (w_ds w);
  v ← concat mid_date_coord arrays;
  let w := set_layer DataVars.CHIP_SIZE_HEIGHT v w in
  ds' ← for_each (drop_vars DataVars.CHIP_SIZE_HEIGHT) (w_ds w);
  OK (set_ds ds' w).

(** A variable present in every format, taken as it is
    ([chip_size_width], [interp_mask]). *)
Definition process_required (var_name : string) (w : work) : result work :=
  arrays ← for_each (fun d => ds_getattr d var_name) (w_ds w);
  v ← concat mid_date_coord arrays;
  let w := set_layer var_name v w in
  ds' ← for_each (drop_vars var_name) (w_ds w);
  OK (set_ds ds' w).

(** Lines 1472-1488: one variable per selected attribute of
    [img_pair_info]. *)
Definition process_img_pair_info (each : string) (w : work) : result work :=
  v ← attr_series w DataVars.ImgPairInfo.NAME each None
                  (DataVars.ImgPairInfo.CONVERT_TO_DATE each);
  OK (set_layer each v w).

(** Lines 1490-1507. *)
Definition process_autorift (w : work) : result work :=
  data ← for_each (fun d => attrs_getitem (ds_attrs d) AUTORIFT_SOFTWARE_VERSION) (w_ds w);
  v ← series mid_date_coord data;
  let w := set_layer AUTORIFT_SOFTWARE_VERSION v w in
  d0 ← first_ds w;
  parameter_file ← attrs_getitem (ds_attrs d0) AUTORIFT_PARAMETER_FILE;
  let w := set_attr AUTORIFT_PARAMETER_FILE parameter_file w in
  all_values ← for_each (fun d => attrs_getitem (ds_attrs d) AUTORIFT_PARAMETER_FILE) (w_ds w);
  if multiple_values all_values
  then Raise (multiple_values_error AUTORIFT_PARAMETER_FILE)
  else OK w.

(** Lines 1510-1548: the acquisition date, under its old or its current
    attribute name. *)
Definition process_acquisition_date (var_name old_var_name : string) (w : work)
  : result work :=
  data ←
    for_each (fun p : Dataset * string =>
                info ← ds_getitem p.1 DataVars.ImgPairInfo.NAME;
                if bool_decide (is_Some (da_attrs info !! old_var_name)) then
                  get_data_var_attr p.1 p.2 DataVars.ImgPairInfo.NAME old_var_name None true
                else
                  get_data_var_attr p.1 p.2 DataVars.ImgPairInfo.NAME var_name None true)
             (ds_urls w);
  v ← series mid_date_coord data;
  OK (set_layer var_name v w).

(** Lines 1550-1561: the time standard must be the same for all layers. *)
Definition process_time_standard (var_name : string) (w : work) : result work :=
  d0 ← first_ds w;
  info0 ← ds_getattr d0 DataVars.ImgPairInfo.NAME;
  standard ← attrs_getitem (da_attrs info0) var_name;
  let w := set_attr var_name standard w in
  all_values ←
    for_each (fun d => info ← ds_getattr d DataVars.ImgPairInfo.NAME;
                       attrs_getitem (da_attrs info) var_name)
             (w_ds w);
  if multiple_values all_values
  then Raise (multiple_values_error var_name)
  else OK w.

(** A [for] loop over names whose body may raise. *)
Fixpoint for_names (body : string -> work -> result work) (names : list string)
         (w : work) : result work :=
  match names with
  | [] => OK w
  | each :: rest => w' ← body each w; for_names body rest w'
  end.

(** The schema unification of [combine_layers] (lines 1232-1561), after
    the dataset has been created. *)
Definition unify (w : work) : result work :=
  w ← process_v w;
  w ← process_optional DataVars.V_ERROR w;
  w ← process_required_v DataVars.VX w;
  w ← process_required_v DataVars.VY w;
  w ← process_optional_v DataVars.VA w;
  w ← process_optional_v DataVars.VR w;
  w ← process_optional_v DataVars.VXP w;
  w ← process_optional_v DataVars.VYP w;
  w ← process_chip_size_height w;
  w ← process_required DataVars.CHIP_SIZE_WIDTH w;
  w ← process_required DataVars.INTERP_MASK w;
  w ← process_optional DataVars.VP w;
  w ← process_optional DataVars.VP_ERROR w;
  w ← for_names process_img_pair_info DataVars.ImgPairInfo.ALL w;
  w ← process_autorift w;
  w ← process_acquisition_date ACQUISITION_DATE_IMG1 DataVars.ImgPairInfo.ACQUISITION_IMG1 w;
  w ← process_acquisition_date ACQUISITION_DATE_IMG2 DataVars.ImgPairInfo.ACQUISITION_IMG2 w;
  for_names process_time_standard [TIME_STANDARD_IMG1; TIME_STANDARD_IMG2] w.

(** *** The encoding table of the first write (lines 1593-1672) *)

Abbreviation encoding := (gmap string (gmap string value)).

(** [encoding_settings[name] = {key: v}] *)
Definition enc_assign (name key : string) (v : value) (e : encoding) : encoding :=
  <[name := {[key := v]}]> e.

(** [encoding_settings[name][key] = v]: the entry must exist. *)
Definition enc_setitem (name key : string) (v : value) (e : encoding) : result encoding :=
  match e !! name with
  | Some s => OK (<[name := <[key := v]> s]> e)
  | None => Raise (KeyError name)
  end.

(** [encoding_settings.setdefault(name, {})[key] = v], also written
    [encoding_settings.setdefault(name, {}).update({key: v})]. *)
Definition enc_setdefault (name key : string) (v : value) (e : encoding) : encoding :=
  <[name := <[key := v]> (default ∅ (e !! name))]> e.

Fixpoint enc_for (f : string -> encoding -> result encoding) (names : list string)
         (e : encoding) : result encoding :=
  match names with
  | [] => OK e
  | each :: rest => e' ← f each e; enc_for f rest e'
  end.

(** [zarr.Blosc(cname="zlib", clevel=2, shuffle=1)] *)
Definition compressor : value := VStr "Blosc(cname=zlib, clevel=2, shuffle=1)".

Definition encoding_settings (w : work) : result encoding :=
  let e : encoding := ∅ in
  let e := foldl (fun e each => enc_assign each DataVars.FILL_VALUE_ATTR DataVars.MISSING_BYTE e) e
                 [DataVars.INTERP_MASK; DataVars.CHIP_SIZE_HEIGHT;
                  DataVars.CHIP_SIZE_WIDTH; DataVars.FLAG_STABLE_SHIFT] in
  e ← (if bool_decide (is_Some (w_layers w !! DataVars.MAP_SCALE_CORRECTED)) then
         enc_setitem DataVars.MAP_SCALE_CORRECTED "dtype" (VStr "byte")
           (enc_assign DataVars.MAP_SCALE_CORRECTED DataVars.FILL_VALUE_ATTR
                       DataVars.MISSING_BYTE e)
       else OK e);
  e ← enc_for (fun each => enc_setitem each "dtype" (VStr "ushort"))
              [DataVars.CHIP_SIZE_HEIGHT; DataVars.CHIP_SIZE_WIDTH] e;
  e ← enc_setitem DataVars.INTERP_MASK "dtype" (VStr "ubyte") e;
  let e := foldl (fun e each => enc_setdefault each "dtype" (VStr "long") e) e
                 [DataVars.FLAG_STABLE_SHIFT; DataVars.STABLE_COUNT_SLOW;
                  DataVars.STABLE_COUNT_MASK] in
  let e := if bool_decide (is_Some (w_layers w !! DataVars.STABLE_COUNT))
           then enc_setdefault DataVars.STABLE_COUNT "dtype" (VStr "long") e
           else e in
  e ← enc_for (fun each e =>
                 _ ← of_option (KeyError each) (w_layers w !! each);
                 OK (<[each := <["compressor" := compressor]>
                                 {[DataVars.FILL_VALUE_ATTR := DataVars.MISSING_VALUE]}]> e))
              (w_new_v_vars w) e;
  e ← enc_for (fun each => enc_setitem each "dtype" (VStr "short"))
              [DataVars.V; DataVars.VX; DataVars.VY; DataVars.VA; DataVars.VR;
               DataVars.VXP; DataVars.VYP; DataVars.VP; DataVars.V_ERROR;
               DataVars.VP_ERROR] e;
  let e := foldl (fun e each => enc_setdefault each DataVars.FILL_VALUE_ATTR VNone e) e
                 [Coords.MID_DATE; DataVars.STABLE_COUNT_SLOW; DataVars.STABLE_COUNT_MASK;
                  AUTORIFT_SOFTWARE_VERSION;
                  DataVars.ImgPairInfo.DATE_DT; DataVars.ImgPairInfo.DATE_CENTER;
                  DataVars.ImgPairInfo.SATELLITE_IMG1; DataVars.ImgPairInfo.SATELLITE_IMG2;
                  ACQUISITION_DATE_IMG1; ACQUISITION_DATE_IMG2;
                  DataVars.ImgPairInfo.ROI_VALID_PERCENTAGE;
                  DataVars.ImgPairInfo.MISSION_IMG1; DataVars.ImgPairInfo.SENSOR_IMG1;
                  DataVars.ImgPairInfo.SENSOR_IMG2] in
  let e := if bool_decide (is_Some (w_layers w !! DataVars.STABLE_COUNT))
           then enc_setdefault DataVars.STABLE_COUNT DataVars.FILL_VALUE_ATTR VNone e
           else e in
  let e := foldl (fun e each => enc_setdefault each DataVars.UNITS
                                              (VStr DataVars.ImgPairInfo.DATE_UNITS) e) e
                 [ACQUISITION_DATE_IMG1; ACQUISITION_DATE_IMG2;
                  DataVars.ImgPairInfo.DATE_CENTER; Coords.MID_DATE] in
  OK e.

(** *** [combine_layers] *)

(** The dataset handed to [to_zarr]. *)
Definition layers_dataset (w : work) : LayersDataset :=
  {| data_vars := w_layers w;
     coord_mid_date := dates self;
     coord_x := grid_x self;
     coord_y := grid_y self;
     cube_attrs :=
       {| attr_projection := projection self;
          attr_skipped_empty_data := skipped_empty_granules self;
          attr_skipped_duplicate_middle_date := skipped_double_granules self;
          attr_skipped_wrong_projection := skipped_proj_granules self;
          attr_other := w_attrs w |} |}.

(** [combine_layers(output_dir, is_first_write)].  The store is the log of
    the [to_zarr] calls made so far; the call itself is taken to succeed. *)
Definition combine_layers (store : list store_op) (is_first_write : bool)
  : result (ITSCube * list store_op) :=
  if bool_decide (length (ds self) = 0%nat) then
    (* No layers to combine, continue *)
    OK (set_accumulator self (ds self) (dates self) (urls self) LayersEmptyDict, store)
  else
    (* xr.Dataset(data_vars={URL: ([MID_DATE], self.urls)}, coords=...) *)
    url_var ← series mid_date_coord (VStr <$> urls self);
    let w := {| w_ds := ds self; w_layers := {[DataVars.URL := url_var]};
                w_new_v_vars := []; w_attrs := ∅ |} in
    w ← (if is_first_write then set_projection w else OK w);
    w ← unify w;
    op ← (if is_first_write then
            e ← encoding_settings w;
            OK (ToZarrCreate (layers_dataset w) e)
          else OK (ToZarrAppend (layers_dataset w)));
    (* Free up memory *)
    OK (clear_vars self, store ++ [op]).

End WithSelf.
End Assembler.

(** ** The orchestrators *)

(** What a run depends on besides the cube object: the library functions,
    the collaborators that list and open granules, the class-level settings
    ([CELL_SIZE], [NUM_GRANULES_TO_WRITE]) and the constants missing from
    [itscube_types.py]. *)
Record Environment := {
  env_strptime : string -> string -> option Z;
  env_strftime : Z -> string -> string;
  env_int_of_str : string -> option Z;
  (** [xr.open_dataset] on the granule behind a URL *)
  env_open_dataset : string -> result Dataset;
  CELL_SIZE : Z;
  NUM_GRANULES_TO_WRITE : nat;
  AUTORIFT_SOFTWARE_VERSION : string;
  AUTORIFT_PARAMETER_FILE : string;
  ACQUISITION_DATE_IMG1 : string;
  ACQUISITION_DATE_IMG2 : string;
  TIME_STANDARD_IMG1 : string;
  TIME_STANDARD_IMG2 : string
}.

Section Orchestrator.

Variable E : Environment.

(** [self.combine_layers(cube_store, is_first_write)] in this environment *)
Definition run_combine_layers (self : ITSCube) (store : list store_op)
           (is_first_write : bool) : result (ITSCube * list store_op) :=
  combine_layers (env_strptime E)
                 (AUTORIFT_SOFTWARE_VERSION E) (AUTORIFT_PARAMETER_FILE E)
                 (ACQUISITION_DATE_IMG1 E) (ACQUISITION_DATE_IMG2 E)
                 (TIME_STANDARD_IMG1 E) (TIME_STANDARD_IMG2 E)
                 self store is_first_write.

(** [read_s3_dataset] / [read_dataset] *)
Definition read_dataset (self : ITSCube) (each_url : string) : result layer_result :=
  d ← env_open_dataset E each_url;
  preprocess_dataset (env_strptime E) (env_int_of_str E) (CELL_SIZE E) self d each_url.

(** [skip_duplicate_granules] as a method: it also sets
    [num_urls_from_api] and [skipped_double_granules]. *)
Definition skip_duplicate_granules_method (self : ITSCube) (found_urls : list string)
  : result (ITSCube * list string) :=
  r ← skip_duplicate_granules (env_strptime E) (env_strftime E) found_urls;
  OK (set_run_logs self (Some (length found_urls)) (skipped_proj_granules self)
                   (skipped_empty_granules self) r.2,
      r.1).

(** [request_granules]; [api_urls] is the answer of the search API. *)
Definition request_granules (self : ITSCube) (api_urls : list string)
           (num_granules : option nat) : result (ITSCube * list string) :=
  if bool_decide (length api_urls = 0%nat) then OK (self, api_urls)
  else
    let found_urls :=
      match num_granules with
      | Some (S n) => take (S n) api_urls
      | _ => api_urls
      end in
    skip_duplicate_granules_method self found_urls.

(** [format_stats]: logging only; the percentages divide by
    [num_urls_from_api]. *)
Definition format_stats (self : ITSCube) : result unit :=
  match num_urls_from_api self with
  | None => Raise TypeError
  | Some O => Raise ZeroDivisionError
  | Some (S _) => OK ()
  end.

(** The loop of [create] (lines 444-468) over the deduplicated URLs; the
    state is the cube, the store and [is_first_write]. *)
Fixpoint create_loop (found_urls : list string)
         (st : ITSCube * list store_op * bool) : result (ITSCube * list store_op * bool) :=
  match found_urls with
  | [] => OK st
  | each_url :: rest =>
      let '(self, store, is_first_write) := st in
      results ← read_dataset self each_url;
      let self := add_layer self results in
      st' ← (if bool_decide (length (urls self) = NUM_GRANULES_TO_WRITE E) then
               r ← run_combine_layers self store is_first_write;
               OK (r.1, r.2, false)
             else OK (self, store, is_first_write));
      create_loop rest st'
  end.

(** [create]: the sequential run.  The output store starts empty
    ([init_output_store] removes a local store; a remote one is assumed
    new). *)
Definition create (self : ITSCube) (api_urls : list string) (num_granules : option nat)
  : result (list string * ITSCube * list store_op) :=
  let store : list store_op := [] in
  let self := clear self in
  '(self, found_urls) ← request_granules self api_urls num_granules;
  if bool_decide (length found_urls = 0%nat) then OK (found_urls, self, store)
  else
    '(self, store, is_first_write) ← create_loop found_urls (self, store, true);
    '(self, store) ←
      (if bool_decide (length (urls self) ≠ 0%nat)
       then run_combine_layers self store is_first_write
       else OK (self, store));
    _ ← format_stats self;
    OK (found_urls, self, store).

(** The [while] loop of [create_parallel] (lines 510-543).  [None] means
    that the loop has not ended within [fuel] iterations. *)
Fixpoint create_parallel_loop (fuel : nat) (found_urls : list string)
         (self : ITSCube) (store : list store_op) (is_first_write : bool)
         (start num_to_process : nat) : option (result (ITSCube * list store_op)) :=
  if bool_decide (num_to_process = 0%nat) then Some (OK (self, store))
  else
    match fuel with
    | O => None
    | S fuel' =>
        let num_tasks :=
          if bool_decide (NUM_GRANULES_TO_WRITE E < num_to_process)%nat
          then NUM_GRANULES_TO_WRITE E else num_to_process in
        let tasks := take num_tasks (drop start found_urls) in
        match for_each (read_dataset self) tasks with
        | Raise e => Some (Raise e)
        | OK results =>
            let self := foldl add_layer self results in
            match run_combine_layers self store is_first_write with
            | Raise e => Some (Raise e)
            | OK (self, store) =>
                match format_stats self with
                | Raise e => Some (Raise e)
                | OK _ =>
                    let is_first_write :=
                      if bool_decide (start = 0%nat) then false else is_first_write in
                    create_parallel_loop fuel' found_urls self store is_first_write
                                         (start + num_tasks) (num_to_process - num_tasks)
                end
            end
        end
    end.

(** [create_parallel]: the parallel run.  With a positive batch size every
    iteration consumes at least one URL, so [length found_urls] iterations
    are enough. *)
Definition create_parallel (self : ITSCube) (api_urls : list string)
           (num_granules : option nat)
  : option (result (list string * ITSCube * list store_op)) :=
  let store : list store_op := [] in
  let self := clear self in
  match request_granules self api_urls num_granules with
  | Raise e => Some (Raise e)
  | OK (self, found_urls) =>
      if bool_decide (length found_urls = 0%nat) then Some (OK (found_urls, self, store))
      else
        match create_parallel_loop (length found_urls) found_urls self store true
                                   0 (length found_urls) with
        | None => None
        | Some (Raise e) => Some (Raise e)
        | Some (OK (self, store)) => Some (OK (found_urls, self, store))
        end
  end.

End Orchestrator.

(** ** A concrete environment for the examples

    [strptime_padded] and [strftime_padded] are the library functions on
    zero-padded input: dates of the form [YYYYMMDD], optionally followed by
    [THH:MM:SS].  Dates are counted in microseconds from 1970-01-01. *)

Definition digit_of (c : ascii) : option Z :=
  let n := Z.of_nat (nat_of_ascii c) in
  if (48 <=? n) && (n <=? 57) then Some (n - 48) else None.

Fixpoint digits_value (acc : Z) (s : string) : option Z :=
  match s with
  | EmptyString => Some acc
  | String c s' =>
      match digit_of c with
      | Some d => digits_value (10 * acc + d) s'
      | None => None
      end
  end.

(** A field of exactly [n] digits starting at position [i]. *)
Definition field (i n : nat) (s : string) : option Z :=
  let f := substring i n s in
  if bool_decide (String.length f = n) then digits_value 0 f else None.

Definition is_leap (y : Z) : bool :=
  (y mod 4 =? 0) && (negb (y mod 100 =? 0) || (y mod 400 =? 0)).

Definition days_in_month (y m : Z) : Z :=
  if m =? 2 then (if is_leap y then 29 else 28)
  else if (m =? 4) || (m =? 6) || (m =? 9) || (m =? 11) then 30 else 31.

(** Days from 1970-01-01 to the given day of the Gregorian calendar. *)
Definition days_from_civil (y m d : Z) : Z :=
  let y' := if m <=? 2 then y - 1 else y in
  let era := y' / 400 in
  let yoe := y' - era * 400 in
  let mp := (m + 9) mod 12 in
  let doy := (153 * mp + 2) / 5 + d - 1 in
  let doe := yoe * 365 + yoe / 4 - yoe / 100 + doy in
  era * 146097 + doe - 719468.

Definition civil_from_days (z : Z) : Z * Z * Z :=
  let z := z + 719468 in
  let era := z / 146097 in
  let doe := z - era * 146097 in
  let yoe := (doe - doe / 1460 + doe / 36524 - doe / 146096) / 365 in
  let doy := doe - (365 * yoe + yoe / 4 - yoe / 100) in
  let mp := (5 * doy + 2) / 153 in
  let d := doy - (153 * mp + 2) / 5 + 1 in
  let m := if mp <? 10 then mp + 3 else mp - 9 in
  let y := yoe + era * 400 in
  (if m <=? 2 then y + 1 else y, m, d).

Definition microseconds_per_day : Z := 86400000000.

Definition parse_date (s : string) : option Z :=
  y ← field 0 4 s; m ← field 4 2 s; d ← field 6 2 s;
  if (1 <=? y) && (1 <=? m) && (m <=? 12) && (1 <=? d) && (d <=? days_in_month y m)
  then Some (days_from_civil y m d * microseconds_per_day) else None.

Definition parse_time (s : string) : option Z :=
  h ← field 0 2 s; mi ← field 3 2 s; sec ← field 6 2 s;
  if bool_decide (substring 2 1 s = ":" /\ substring 5 1 s = ":")
     && (h <? 24) && (mi <? 60) && (sec <? 62)
  then Some (((h * 60 + mi) * 60 + sec) * 1000000) else None.

Definition strptime_padded (value fmt : string) : option Z :=
  if bool_decide (fmt = "%Y%m%d") then
    if bool_decide (String.length value = 8%nat) then parse_date value else None
  else if bool_decide (fmt = "%Y%m%dT%H:%M:%S") then
    if bool_decide (String.length value = 17%nat /\ substring 8 1 value = "T") then
      d ← parse_date (substring 0 8 value);
      t ← parse_time (substring 9 8 value);
      Some (d + t)
    else None
  else None.

Definition pad (n : nat) (z : Z) : string :=
  let s := pretty z in
  String.concat "" (replicate (n - String.length s) "0") +:+ s.

(** Only [DATE_FORMAT] is ever requested. *)
Definition strftime_padded (d : Z) (fmt : string) : string :=
  let '(y, m, dd) := civil_from_days (d / microseconds_per_day) in
  pad 4 y +:+ pad 2 m +:+ pad 2 dd.

(** [int] on strings of decimal digits. *)
Definition int_of_digits (s : string) : option Z :=
  match s with
  | EmptyString => None
  | _ => digits_value 0 s
  end.

(** *** Granule identifiers *)

(** Four identifiers of one physical pair (acquired 2015-08-21 and
    2015-07-20, path/row 011002).  The first two were processed on
    2020-01-01 (both images) and differ by their directory only, the third on
    2020-02-01, the fourth on 2020-03-01. *)
Definition granule_jan : string :=
  "http://its-live/a/LC08_L1TP_011002_20150821_20200101_01_T1_X_LC08_L1TP_011002_20150720_20200101_01_T1_G0240V01_P038.nc".
Definition granule_jan_copy : string :=
  "http://its-live/b/LC08_L1TP_011002_20150821_20200101_01_T1_X_LC08_L1TP_011002_20150720_20200101_01_T1_G0240V01_P038.nc".
Definition granule_feb : string :=
  "http://its-live/a/LC08_L1TP_011002_20150821_20200201_01_T1_X_LC08_L1TP_011002_20150720_20200201_01_T1_G0240V01_P038.nc".
Definition granule_mar : string :=
  "http://its-live/a/LC08_L1TP_011002_20150821_20200301_01_T1_X_LC08_L1TP_011002_20150720_20200301_01_T1_G0240V01_P038.nc".

(** The key shared by the four identifiers. *)
Definition example_key : string := "20150821_011002_20150720_011002".

(** The tokens of [granule_jan] and of [granule_feb]. *)
Definition tokens_jan : tokens :=
  {| url_acq_1 := 1440115200000000; url_proc_1 := 1577836800000000;
     path_row_1 := "011002";
     url_acq_2 := 1437350400000000; url_proc_2 := 1577836800000000;
     path_row_2 := "011002" |}.
Definition tokens_feb : tokens :=
  {| url_acq_1 := 1440115200000000; url_proc_1 := 1580515200000000;
     path_row_1 := "011002";
     url_acq_2 := 1437350400000000; url_proc_2 := 1580515200000000;
     path_row_2 := "011002" |}.

(** *** Granule datasets *)

Definition scalar_var (attrs : list (string * value)) : DataArray :=
  {| da_dims := []; da_values := []; da_attrs := list_to_map attrs |}.

Definition grid_var (attrs : list (string * value)) (values : array2) : DataArray :=
  {| da_dims := [Coords.Y; Coords.X]; da_values := values; da_attrs := list_to_map attrs |}.

Definition square (c : Z) : array2 := [[Some c; Some c]; [Some c; Some c]].

Definition example_img_pair_info : DataArray :=
  scalar_var
    [("mission_img1", VStr "L"); ("sensor_img1", VStr "C");
     ("satellite_img1", VStr "8.0"); ("mission_img2", VStr "L");
     ("sensor_img2", VStr "C"); ("satellite_img2", VStr "8.0");
     ("date_dt", VNum 32); ("date_center", VStr "20150805");
     ("roi_valid_percentage", VNum 97);
     ("autoRIFT_software_version", VStr "1.2.0");
     ("acquisition_date_img1", VStr "20150720T10:20:30");
     ("acquisition_date_img2", VStr "20150821T10:20:30");
     ("time_standard_img1", VStr "UTC"); ("time_standard_img2", VStr "UTC")].

Definition example_mapping (epsg : Z) : DataArray :=
  scalar_var [("spatial_epsg", VNum epsg);
              ("grid_mapping_name", VStr "universal_transverse_mercator")].

Definition velocity_attrs : list (string * value) := [("grid_mapping", VStr "mapping")].

(** The variables every format provides. *)
Definition required_variables (epsg c : Z) : list (string * DataArray) :=
  [("mapping", example_mapping epsg);
   ("img_pair_info", example_img_pair_info);
   ("v", grid_var velocity_attrs (square c));
   ("vx", grid_var (velocity_attrs ++ [("vx_error", VNum 3); ("stable_shift", VNum 1)])
                   (square (c + 1)));
   ("vy", grid_var (velocity_attrs ++ [("stable_rmse", VNum 4)]) (square (c + 2)));
   ("chip_size_height", grid_var velocity_attrs (square 65535));
   ("chip_size_width", grid_var velocity_attrs (square 16));
   ("interp_mask", grid_var velocity_attrs (square 0))].

Definition example_ds_attrs : gmap string value :=
  list_to_map [("autoRIFT_software_version", VStr "1.2.0");
               ("autoRIFT_parameter_file", VStr "http://its-live/parameters.nc")].

(** A granule on the two-by-two grid [x = 0, 240], [y = 240, 0]. *)
Definition make_granule (vars : list (string * DataArray)) : Dataset :=
  {| ds_x := [0; 240]; ds_y := [240; 0];
     ds_vars := list_to_map vars;
     ds_attrs := example_ds_attrs |}.

(** An optical granule: required variables only. *)
Definition optical_granule : Dataset := make_granule (required_variables 32628 10).

(** A radar granule: it also has ['va'] and ['vr']. *)
Definition radar_granule : Dataset :=
  make_granule (required_variables 32628 20 ++
                [("va", grid_var velocity_attrs (square 21));
                 ("vr", grid_var velocity_attrs (square 22))]).

(** A granule whose ['v'] carries the [map_scale_corrected] attribute. *)
Definition scaled_granule : Dataset :=
  make_granule (("v", grid_var (velocity_attrs ++ [("map_scale_corrected", VNum 1)])
                               (square 60))
                :: filter (fun p => p.1 ≠ "v") (required_variables 32628 60)).

(** A granule without ['vx']. *)
Definition granule_without_vx : Dataset :=
  make_granule (filter (fun p => p.1 ≠ "vx") (required_variables 32628 30)).

(** A granule in another projection. *)
Definition foreign_granule : Dataset := make_granule (required_variables 32627 40).

(** A legacy granule: its projection is described by ['UTM_Projection'],
    it has no ['mapping']. *)
Definition legacy_granule : Dataset :=
  make_granule (("UTM_Projection", example_mapping 32628)
                :: filter (fun p => p.1 ≠ "mapping") (required_variables 32628 50)).

(** The cube of the examples: projection 32628 on the same grid. *)
Definition example_cube : ITSCube :=
  {| projection := "32628";
     x_min := 0; x_max := 240; y_min := 0; y_max := 240;
     grid_x := [0; 240]; grid_y := [240; 0];
     ds := []; dates := []; urls := [];
     num_urls_from_api := None;
     skipped_proj_granules := ∅;
     skipped_empty_granules := [];
     skipped_double_granules := [];
     layers := LayersNone |}.

(** The granules behind five URLs of distinct physical pairs. *)
Definition url_optical : string :=
  "http://its-live/a/LC08_L1TP_011002_20150821_20200101_01_T1_X_LC08_L1TP_011002_20150720_20200101_01_T1_G0240V01_P038.nc".
Definition url_radar : string :=
  "http://its-live/a/LC08_L1TP_011003_20150821_20200101_01_T1_X_LC08_L1TP_011003_20150720_20200101_01_T1_G0240V01_P038.nc".
Definition url_foreign : string :=
  "http://its-live/a/LC08_L1TP_011004_20150821_20200101_01_T1_X_LC08_L1TP_011004_20150720_20200101_01_T1_G0240V01_P038.nc".
Definition url_without_vx : string :=
  "http://its-live/a/LC08_L1TP_011005_20150821_20200101_01_T1_X_LC08_L1TP_011005_20150720_20200101_01_T1_G0240V01_P038.nc".

Definition url_scaled : string :=
  "http://its-live/a/LC08_L1TP_011006_20150821_20200101_01_T1_X_LC08_L1TP_011006_20150720_20200101_01_T1_G0240V01_P038.nc".

Definition example_open_dataset (each_url : string) : result Dataset :=
  if bool_decide (each_url = url_scaled) then OK scaled_granule
  else if bool_decide (each_url = url_optical) then OK optical_granule
  else if bool_decide (each_url = url_radar) then OK radar_granule
  else if bool_decide (each_url = url_foreign) then OK foreign_granule
  else if bool_decide (each_url = url_without_vx) then OK granule_without_vx
  else Raise (RuntimeError "no such file").

(** The environment of the examples, with batches of [n] granules. *)
Definition example_env (n : nat) : Environment :=
  {| env_strptime := strptime_padded;
     env_strftime := strftime_padded;
     env_int_of_str := int_of_digits;
     env_open_dataset := example_open_dataset;
     CELL_SIZE := 240;
     NUM_GRANULES_TO_WRITE := n;
     AUTORIFT_SOFTWARE_VERSION := "autoRIFT_software_version";
     AUTORIFT_PARAMETER_FILE := "autoRIFT_parameter_file";
     ACQUISITION_DATE_IMG1 := "acquisition_date_img1";
     ACQUISITION_DATE_IMG2 := "acquisition_date_img2";
     TIME_STANDARD_IMG1 := "time_standard_img1";
     TIME_STANDARD_IMG2 := "time_standard_img2" |}.

(** ** Observations on cubes, batches and stores *)

(** The record axis of the store: created with the [mid_date] coordinate
    of the first batch written, extended by that of every batch written
    after it. *)
Definition record_axis_length (store : list store_op) : nat :=
  sum_list ((fun op => length (coord_mid_date (written_layers op))) <$> store).

(** The records a written batch holds for the variable [name]: none when
    the batch does not have the variable. *)
Definition variable_length (name : string) (op : store_op) : nat :=
  default 0%nat (data_vars (written_layers op) !! name ≫= record_len).

(** The records persisted for the variable [name]: those of the batches
    that were written with it. *)
Definition persisted_length (name : string) (store : list store_op) : nat :=
  sum_list (variable_length name <$> store).

(** The batch has the variable [name], with a record axis. *)
Definition has_variable (name : string) (op : store_op) : Prop :=
  is_Some (data_vars (written_layers op) !! name ≫= record_len).

(** Every variable of a written batch that has a record axis is as long as
    the batch's [mid_date] coordinate. *)
Definition batch_uniform (op : store_op) : Prop :=
  forall name v m,
    data_vars (written_layers op) !! name = Some v -> record_len v = Some m ->
    m = length (coord_mid_date (written_layers op)).

(** A granule is accepted when its normalisation yields data. *)
Definition accepted (r : layer_result) : Prop := is_Some (data r).

#[global] Instance accepted_dec (r : layer_result) : Decision (accepted r).
Proof. unfold accepted. apply _. Defined.

(** What the normaliser reads from the cube object. *)
Definition target (self : ITSCube) : string * Z * Z * Z * Z :=
  (projection self, x_min self, x_max self, y_min self, y_max self).

(** The three sequences of the accumulator advance together. *)
Definition aligned (self : ITSCube) : Prop :=
  length (ds self) = length (dates self) /\ length (urls self) = length (dates self).

(** The rejection logs of [self'] extend those of [self]. *)
Definition logs_extend (self self' : ITSCube) : Prop :=
  skipped_empty_granules self `prefix_of` skipped_empty_granules self' /\
  skipped_double_granules self `prefix_of` skipped_double_granules self' /\
  forall code, default [] (skipped_proj_granules self !! code)
               `prefix_of` default [] (skipped_proj_granules self' !! code).

(** The rejection logs are the same. *)
Definition same_logs (self self' : ITSCube) : Prop :=
  skipped_empty_granules self' = skipped_empty_granules self /\
  skipped_double_granules self' = skipped_double_granules self /\
  skipped_proj_granules self' = skipped_proj_granules self.

(** The variables gathered with [get_data_var]. *)
Definition optional_variables : list string :=
  [DataVars.V_ERROR; DataVars.VA; DataVars.VR; DataVars.VXP; DataVars.VYP;
   DataVars.VP; DataVars.VP_ERROR].

(** The NaN-filled array on the grid of the cube. *)
Definition placeholder (self : ITSCube) : array2 :=
  replicate (length (grid_y self)) (replicate (length (grid_x self)) None).

(** *** Batches of the examples *)

(** The result of normalising an accepted granule. *)
Definition accept (u : string) (d : Dataset) (m : Z) : layer_result :=
  {| is_empty := false; layer_projection := 32628; mid_date := Some m;
     url := u; data := Some d |}.

(** The result of normalising a granule of another projection. *)
Definition wrong_projection (u : string) (code : Z) : layer_result :=
  {| is_empty := false; layer_projection := code; mid_date := None;
     url := u; data := None |}.

(** An accumulator holding an optical and a radar granule, after a granule
    of another projection has been rejected. *)
Definition cube_mixed : ITSCube :=
  foldl add_layer example_cube
        [accept url_optical optical_granule 1438732800032000;
         wrong_projection url_foreign 32627;
         accept url_radar radar_granule 1438732800032000].

(** An accumulator whose second granule has no ['vx']. *)
Definition cube_missing_vx : ITSCube :=
  foldl add_layer example_cube
        [accept url_optical optical_granule 1438732800032000;
         accept url_without_vx granule_without_vx 1438732800032000].

(** [combine_layers] in the environment of the examples. *)
Definition example_combine_layers (self : ITSCube) (store : list store_op)
           (is_first_write : bool) : result (ITSCube * list store_op) :=
  run_combine_layers (example_env 2) self store is_first_write.

(** ** Predicates of the statements and of their proofs *)

(** *** Deduplication *)

(** The two processing dates of a parsed identifier. *)
Definition proc_dates (t : tokens) : Z * Z := (url_proc_1 t, url_proc_2 t).

(** Lexicographic order on pairs of processing dates: the first image's
    date decides, the second breaks ties. *)
Definition lex_lt (a b : Z * Z) : Prop :=
  a.1 < b.1 \/ (a.1 = b.1 /\ a.2 < b.2).

Section DedupPredicates.

Variable strptime : string -> string -> option Z.
Variable strftime : Z -> string -> string.

Local Abbreviation parse := (get_tokens_from_filename strptime).
Local Abbreviation gid := (granule_id strftime).

(** All members of a kept group parse, carry the group's key and share
    one pair of processing dates. *)
Definition member (k : string) (d : Z * Z) (u : string) : Prop :=
  exists t, parse u = OK t /\ gid t = k /\ proc_dates t = d.

Definition group_ok (k : string) (L : list string) : Prop :=
  L ≠ [] /\ exists d, Forall (member k d) L.

Definition keep_ok (keep : keep_dict) : Prop :=
  NoDup keep.*1 /\ Forall (fun p => group_ok p.1 p.2) keep.

(** What one iteration does to a well-formed dictionary. *)
Inductive step_outcome (keep : keep_dict) (skipped : list string) (u : string)
          (t : tokens) : keep_dict * list string -> Prop :=
| step_new :
    gid t ∉ keep.*1 ->
    step_outcome keep skipped u t (keep ++ [(gid t, [u])], skipped)
| step_same L :
    dict_get (gid t) keep = Some L -> Forall (member (gid t) (proc_dates t)) L ->
    step_outcome keep skipped u t (dict_set (gid t) (L ++ [u]) keep, skipped)
| step_newer L d :
    dict_get (gid t) keep = Some L -> Forall (member (gid t) d) L ->
    lex_lt d (proc_dates t) ->
    step_outcome keep skipped u t (dict_set (gid t) [u] keep, skipped ++ L)
| step_older L d :
    dict_get (gid t) keep = Some L -> Forall (member (gid t) d) L ->
    lex_lt (proc_dates t) d ->
    step_outcome keep skipped u t (keep, skipped ++ [u]).

(** An identifier that has been processed is settled: its group exists, and
    either it carries the group's dates and is kept, or the group's dates
    are lexicographically newer and it is among the duplicate rejections. *)
Definition settled (keep : keep_dict) (skipped : list string) (u : string) : Prop :=
  exists t L d,
    parse u = OK t /\ dict_get (gid t) keep = Some L /\
    Forall (member (gid t) d) L /\
    ((proc_dates t = d /\ u ∈ L) \/ (lex_lt (proc_dates t) d /\ u ∈ skipped)).

Definition dedup_inv (processed : list string) (st : keep_dict * list string) : Prop :=
  keep_ok st.1 /\
  (forall u, u ∈ processed -> settled st.1 st.2 u) /\
  (forall k L u, dict_get k st.1 = Some L -> u ∈ L -> u ∈ processed).

(** The dates shared by the identifiers kept for a key. *)
Definition group_date (keep : keep_dict) (k : string) (d : Z * Z) : Prop :=
  exists L, dict_get k keep = Some L /\ Forall (member k d) L.

(** The kept identifier [f] gives way to the incoming identifier [t]: both
    its processing dates are at most the incoming ones, or its first
    processing date is strictly older. *)
Definition superseded_by (t : tokens) (f : string) : Prop :=
  exists tf, parse f = OK tf /\
    ((url_proc_1 tf <= url_proc_1 t /\ url_proc_2 tf <= url_proc_2 t) \/
     url_proc_1 tf < url_proc_1 t).

(** No kept identifier has both processing dates equal to the incoming
    ones. *)
Definition none_identical (t : tokens) (kept : list string) : Prop :=
  Forall (fun f => exists tf, parse f = OK tf /\ proc_dates tf ≠ proc_dates t) kept.

End DedupPredicates.

(** *** The assembler *)

(** Every variable with a record axis has [n] records. *)
Definition len_ok (n : nat) (v : LayerVar) : Prop :=
  forall m, record_len v = Some m -> m = n.

(** [m'] is [m] after assignments to names of [K], each of a variable with
    [n] records. *)
Definition writes (K : list string) (n : nat) (m m' : gmap string LayerVar) : Prop :=
  (forall k, k ∉ K -> m' !! k = m !! k) /\
  (forall k v, m' !! k = Some v -> m !! k = Some v \/ len_ok n v).

(** [d'] is [d] after dropping variables of [D]. *)
Definition same_except (D : list string) (d d' : Dataset) : Prop :=
  forall k, k ∉ D -> ds_vars d' !! k = ds_vars d !! k.

(** The names [process_v_attributes] may assign to. *)
Definition pva_names (var_name : string) : list string :=
  [var_name +:+ "_" +:+ DataVars.ERROR;
   var_name +:+ "_" +:+ DataVars.ERROR_MASK;
   var_name +:+ "_" +:+ DataVars.ERROR_MODELED;
   var_name +:+ "_" +:+ DataVars.ERROR_SLOW;
   DataVars.STABLE_COUNT; DataVars.STABLE_COUNT_SLOW; DataVars.STABLE_COUNT_MASK;
   DataVars.FLAG_STABLE_SHIFT;
   var_name +:+ "_" +:+ DataVars.STABLE_SHIFT;
   var_name +:+ "_" +:+ DataVars.STABLE_SHIFT_SLOW;
   var_name +:+ "_" +:+ DataVars.STABLE_SHIFT_MASK].

(** A phase with the names it may assign to and the variables it drops. *)
Record phase := {
  run : work -> result work;
  assigns : list string;
  drops : list string
}.

Fixpoint run_all (ps : list phase) (w : work) : result work :=
  match ps with
  | [] => OK w
  | p :: ps' => w' ← run p w; run_all ps' w'
  end.

Section AssemblerPredicates.

Variable strptime : string -> string -> option Z.
Variable ASV APF AD1 AD2 TS1 TS2 : string.
Variable self : ITSCube.

Local Abbreviation n := (length (dates self)).

(** The effect of a step of the assembler: assignments to the names of [K],
    all with [n] records, and variables of [D] dropped from the granules. *)
Definition step_ok (K D : list string) (w w' : work) : Prop :=
  writes K n (w_layers w) (w_layers w') /\
  Forall2 (same_except D) (w_ds w) (w_ds w').

(** The slices gathered for [x] from a list of granules. *)
Definition slices_of (x : string) (l : list Dataset) : list array2 :=
  (fun d => da_values (get_data_var self d x)) <$> l.

Definition phase_ok (p : phase) : Prop :=
  forall w w', run p w = OK w' -> step_ok (assigns p) (drops p) w w'.

Definition optional_phase (x : string) : phase :=
  {| run := process_optional self x; assigns := [x]; drops := [x] |}.

Definition optional_v_phase (x : string) : phase :=
  {| run := process_optional_v strptime self x; assigns := x :: pva_names x; drops := [x] |}.

Definition required_v_phase (x : string) : phase :=
  {| run := process_required_v strptime self x; assigns := x :: pva_names x; drops := [x] |}.

Definition required_phase (x : string) : phase :=
  {| run := process_required self x; assigns := [x]; drops := [x] |}.

Definition v_phase : phase :=
  {| run := process_v strptime self;
     assigns := [DataVars.V; DataVars.MAP_SCALE_CORRECTED]; drops := [DataVars.V] |}.

Definition chip_size_height_phase : phase :=
  {| run := process_chip_size_height self;
     assigns := [DataVars.CHIP_SIZE_HEIGHT]; drops := [DataVars.CHIP_SIZE_HEIGHT] |}.

(** The phases that only add record-indexed metadata variables. *)
Definition metadata_phases : list phase :=
  [{| run := for_names (process_img_pair_info strptime self) DataVars.ImgPairInfo.ALL;
      assigns := DataVars.ImgPairInfo.ALL; drops := [] |};
   {| run := process_autorift ASV APF self; assigns := [ASV]; drops := [] |};
   {| run := process_acquisition_date strptime self AD1 DataVars.ImgPairInfo.ACQUISITION_IMG1;
      assigns := [AD1]; drops := [] |};
   {| run := process_acquisition_date strptime self AD2 DataVars.ImgPairInfo.ACQUISITION_IMG2;
      assigns := [AD2]; drops := [] |};
   {| run := for_names process_time_standard [TS1; TS2]; assigns := []; drops := [] |}].

Definition unify_phases : list phase :=
  [v_phase;
   optional_phase DataVars.V_ERROR;
   required_v_phase DataVars.VX;
   required_v_phase DataVars.VY;
   optional_v_phase DataVars.VA;
   optional_v_phase DataVars.VR;
   optional_v_phase DataVars.VXP;
   optional_v_phase DataVars.VYP;
   chip_size_height_phase;
   required_phase DataVars.CHIP_SIZE_WIDTH;
   required_phase DataVars.INTERP_MASK;
   optional_phase DataVars.VP;
   optional_phase DataVars.VP_ERROR] ++ metadata_phases.

End AssemblerPredicates.

(** *** The runs *)

(** The store has been started properly: nothing is written while
    [is_first_write] holds, and afterwards the store begins with the creating
    call and continues with appends. *)
Definition well_started (store : list store_op) (is_first_write : bool) : Prop :=
  if is_first_write then store = []
  else exists l e rest, store = ToZarrCreate l e :: rest /\
         Forall (fun op => exists l', op = ToZarrAppend l') rest.

Section RunPredicates.

Variable E : Environment.

(** Among the deduplicated URLs, the accepted granules are counted on the
    results of their normalisation. *)
Definition run_counts (self : ITSCube) (found_urls : list string)
           (store : list store_op) : Prop :=
  Forall batch_uniform store /\
  exists results,
    for_each (read_dataset E self) found_urls = OK results /\
    record_axis_length store = length (filter accepted results) /\
    forall name, Forall (has_variable name) store ->
                 persisted_length name store = length (filter accepted results).

End RunPredicates.

(** ** Runs on local granules, and the predicates of the further properties *)

(** *** Strings without a separator *)

(** The character [sep] does not occur in [s]. *)
Fixpoint free_of (sep : ascii) (s : string) : bool :=
  match s with
  | EmptyString => true
  | String c s' => negb (Ascii.eqb c sep) && free_of sep s'
  end.

(** *** Deduplication: the fate of the rejected identifiers *)

Section DedupRejected.

Variable strptime : string -> string -> option Z.
Variable strftime : Z -> string -> string.

(** An identifier that parses. *)
Definition parses (u : string) : Prop :=
  exists t, get_tokens_from_filename strptime u = OK t.

(** The identifier [u] has given way to the group kept for its key: the
    group's processing dates are lexicographically newer than its own. *)
Definition outdated (keep : keep_dict) (u : string) : Prop :=
  exists t L d,
    get_tokens_from_filename strptime u = OK t /\
    dict_get (granule_id strftime t) keep = Some L /\
    Forall (member strptime strftime (granule_id strftime t) d) L /\
    lex_lt (proc_dates t) d.

(** No identifier of [urls] with the key of [t] has lexicographically newer
    processing dates than [t]. *)
Definition newest_of (urls : list string) (t : tokens) : Prop :=
  forall C tc, C ∈ urls -> get_tokens_from_filename strptime C = OK tc ->
               granule_id strftime tc = granule_id strftime t ->
               ~ lex_lt (proc_dates t) (proc_dates tc).

End DedupRejected.

(** *** Counting the granules of a run *)

(** [sum([len(each) for each in self.skipped_proj_granules.values()])], as
    in [format_stats]. *)
Definition sum_projs (self : ITSCube) : nat :=
  sum_list (length <$> (map_to_list (skipped_proj_granules self)).*2).

(** The granules the cube object accounts for: those in the accumulator,
    those rejected as empty and those rejected for their projection. *)
Definition accounted (self : ITSCube) : nat :=
  (length (ds self) + length (skipped_empty_granules self) + sum_projs self)%nat.

(** The URLs [request_granules] examines: the answer of the API, cut to
    [num_granules] when that is positive. *)
Definition examined (api_urls : list string) (num_granules : option nat) : list string :=
  match num_granules with
  | Some (S n) => take (S n) api_urls
  | _ => api_urls
  end.

(** *** Runs on local granules *)

Section LocalOrchestrator.

Variable E : Environment.

(** [found_urls[0:num_granules]] when [num_granules is not None], for a
    non-negative [num_granules]. *)
Definition first_granules (local_files : list string) (num_granules : option nat)
  : list string :=
  match num_granules with
  | Some n => take n local_files
  | None => local_files
  end.

(** [self.num_urls_from_api = n] *)
Definition set_num_urls_from_api (self : ITSCube) (n : nat) : ITSCube :=
  set_run_logs self (Some n) (skipped_proj_granules self) (skipped_empty_granules self)
               (skipped_double_granules self).

(** [create_from_local_no_api]: the sequential run on the files of a local
    directory; [local_files] is the answer of [glob.glob], and the granule
    behind a path is opened by [env_open_dataset]. *)
Definition create_from_local_no_api (self : ITSCube) (local_files : list string)
           (num_granules : option nat)
  : result (list string * ITSCube * list store_op) :=
  let store : list store_op := [] in
  let self := clear self in
  if bool_decide (length local_files = 0%nat) then OK (local_files, self, store)
  else
    let found_urls := first_granules local_files num_granules in
    let self := set_num_urls_from_api self (length found_urls) in
    '(self, found_urls) ← skip_duplicate_granules_method E self found_urls;
    '(self, store, is_first_write) ← create_loop E found_urls (self, store, true);
    '(self, store) ←
      (if bool_decide (length (urls self) ≠ 0%nat)
       then run_combine_layers E self store is_first_write
       else OK (self, store));
    _ ← format_stats self;
    OK (found_urls, self, store).

(** The [while] loop of [create_from_local_parallel_no_api] (lines
    626-651): that of [create_parallel] without the statistics, and with the
    assertion [len(tasks) == num_tasks] (its [AssertionError] is carried by
    [RuntimeError] here). *)
Fixpoint local_parallel_loop (fuel : nat) (found_urls : list string)
         (self : ITSCube) (store : list store_op) (is_first_write : bool)
         (start num_to_process : nat) : option (result (ITSCube * list store_op)) :=
  if bool_decide (num_to_process = 0%nat) then Some (OK (self, store))
  else
    match fuel with
    | O => None
    | S fuel' =>
        let num_tasks :=
          if bool_decide (NUM_GRANULES_TO_WRITE E < num_to_process)%nat
          then NUM_GRANULES_TO_WRITE E else num_to_process in
        let tasks := take num_tasks (drop start found_urls) in
        if bool_decide (length tasks ≠ num_tasks)
        then Some (Raise (RuntimeError "AssertionError"))
        else
          match for_each (read_dataset E self) tasks with
          | Raise e => Some (Raise e)
          | OK results =>
              let self := foldl add_layer self results in
              match run_combine_layers E self store is_first_write with
              | Raise e => Some (Raise e)
              | OK (self, store) =>
                  let is_first_write :=
                    if bool_decide (start = 0%nat) then false else is_first_write in
                  local_parallel_loop fuel' found_urls self store is_first_write
                                      (start + num_tasks) (num_to_process - num_tasks)
              end
          end
    end.

(** [create_from_local_parallel_no_api] *)
Definition create_from_local_parallel_no_api (self : ITSCube) (local_files : list string)
           (num_granules : option nat)
  : option (result (list string * ITSCube * list store_op)) :=
  let store : list store_op := [] in
  let self := clear self in
  if bool_decide (length local_files = 0%nat) then Some (OK (local_files, self, store))
  else
    let found_urls := first_granules local_files num_granules in
    match skip_duplicate_granules_method E self found_urls with
    | Raise e => Some (Raise e)
    | OK (self, found_urls) =>
        let self := set_num_urls_from_api self (length found_urls) in
        match local_parallel_loop (length found_urls) found_urls self store true
                                  0 (length found_urls) with
        | None => None
        | Some (Raise e) => Some (Raise e)
        | Some (OK (self, store)) =>
            match format_stats self with
            | Raise e => Some (Raise e)
            | OK _ => Some (OK (found_urls, self, store))
            end
        end
    end.

End LocalOrchestrator.

(** *** The records of the store *)

(** The URLs a written batch holds in its [original_url_path] variable. *)
Definition written_urls (op : store_op) : list value :=
  match data_vars (written_layers op) !! DataVars.URL with
  | Some (Series data) => data
  | _ => []
  end.

(** The URLs of the store along the record axis. *)
Definition store_urls (store : list store_op) : list value :=
  List.concat (written_urls <$> store).

(** The [mid_date] coordinate of the store. *)
Definition store_dates (store : list store_op) : list (option Z) :=
  List.concat ((fun op => coord_mid_date (written_layers op)) <$> store).

(** The number of records of a written batch. *)
Definition batch_length (op : store_op) : nat :=
  length (coord_mid_date (written_layers op)).

(** The three constants missing from [itscube_types.py] that name variables
    of the cube are not the name of the URL variable. *)
Definition url_name_free (E : Environment) : Prop :=
  DataVars.URL ∉ [AUTORIFT_SOFTWARE_VERSION E; ACQUISITION_DATE_IMG1 E;
                  ACQUISITION_DATE_IMG2 E].

(** *** What the assembler writes for the variables that are always there *)

(** The variables read with [ds.<name>] and written as they are. *)
Definition required_variable_names : list string :=
  [DataVars.V; DataVars.VX; DataVars.VY; DataVars.CHIP_SIZE_WIDTH; DataVars.INTERP_MASK].

(** The array written for [chip_size_height]: the granule's own, or its
    [chip_size_width] when no cell of [chip_size_height] holds a value. *)
Definition chip_size_height_of (d : Dataset) : option array2 :=
  h ← ds_vars d !! DataVars.CHIP_SIZE_HEIGHT;
  if bool_decide (count_not_equal CHIP_SIZE_HEIGHT_NO_VALUE (da_values h) ≠ 0%nat)
  then Some (da_values h)
  else da_values <$> ds_vars d !! DataVars.CHIP_SIZE_WIDTH.

(** The error of a velocity component of a granule, as
    [process_v_attributes] reads it for [vx] and [vy]: the attribute
    [<var>_error], else the legacy attribute [stable_rmse], else the missing
    value. *)
Definition error_of (var_name : string) (d : Dataset) : option value :=
  a ← ds_vars d !! var_name;
  Some (match da_attrs a !! (var_name +:+ "_" +:+ DataVars.ERROR) with
        | Some v => unwrap_singleton v
        | None =>
            match da_attrs a !! DataVars.STABLE_RMSE with
            | Some v => unwrap_singleton v
            | None => DataVars.MISSING_VALUE
            end
        end).

(** * Proofs *)

(** ** The result monad *)

Lemma bind_OK {A B} (r : result A) (f : A -> result B) (b : B) :
  r ≫= f = OK b <-> exists a, r = OK a /\ f a = OK b.
Proof.
  destruct r as [a|e]; simpl; split.
  - intros H. by exists a.
  - by intros (a' & [= ->] & H).
  - discriminate.
  - by intros (a' & [=] & _).
Qed.

Lemma of_option_OK {A} (e : exn) (o : option A) (a : A) :
  of_option e o = OK a <-> o = Some a.
Proof. destruct o; simpl; split; congruence. Qed.

Ltac inv_bind H :=
  repeat match type of H with
  | (_ ≫= _) = OK _ =>
      let a := fresh "a" in
      let Ha := fresh "Ha" in
      apply bind_OK in H as (a & Ha & H)
  end.

(** ** The insertion-ordered dictionary *)

Lemma dict_get_app (k : string) (d1 d2 : keep_dict) :
  dict_get k (d1 ++ d2) =
  match dict_get k d1 with Some v => Some v | None => dict_get k d2 end.
Proof.
  induction d1 as [|[k' v'] d1 IH]; simpl; [done|].
  by destruct (decide (k = k')).
Qed.

Lemma dict_get_None (k : string) (d : keep_dict) :
  dict_get k d = None <-> k ∉ d.*1.
Proof.
  induction d as [|[k' v'] d IH]; simpl.
  - split; [intros _; apply not_elem_of_nil | done].
  - rewrite not_elem_of_cons. destruct (decide (k = k')) as [->|Hne].
    + split; [done|]. by intros [? _].
    + rewrite IH. split; [by intros ?|by intros [_ ?]].
Qed.

Lemma dict_get_Some_elem (k : string) (v : list string) (d : keep_dict) :
  dict_get k d = Some v -> (k, v) ∈ d.
Proof.
  induction d as [|[k' v'] d IH]; simpl; [done|].
  destruct (decide (k = k')) as [->|]; intros H.
  - injection H as ->. apply elem_of_cons; by left.
  - apply elem_of_cons; right; auto.
Qed.

Lemma dict_get_elem (k : string) (v : list string) (d : keep_dict) :
  NoDup d.*1 -> (k, v) ∈ d -> dict_get k d = Some v.
Proof.
  induction d as [|[k' v'] d IH]; simpl; intros Hnd Hin.
  - by apply elem_of_nil in Hin.
  - apply NoDup_cons in Hnd as [Hk Hnd].
    apply elem_of_cons in Hin as [[= -> ->]|Hin].
    + by rewrite decide_True.
    + destruct (decide (k = k')) as [->|]; [|auto].
      exfalso. apply Hk. apply list_elem_of_fmap. by exists (k', v).
Qed.

Lemma dict_set_keys (k : string) (v : list string) (d : keep_dict) :
  (dict_set k v d).*1 = d.*1.
Proof.
  induction d as [|[k' v'] d IH]; [done|]. simpl.
  destruct (decide (k = k')); csimpl; [done|]. by rewrite IH.
Qed.

Lemma dict_get_set (k k' : string) (v : list string) (d : keep_dict) :
  dict_get k' (dict_set k v d) =
  if decide (k' = k) then (match dict_get k d with Some _ => Some v | None => None end)
  else dict_get k' d.
Proof.
  induction d as [|[k0 v0] d IH]; simpl.
  - by destruct (decide (k' = k)).
  - repeat (case_decide; simplify_eq; simpl; try done).
    all: rewrite IH; repeat (case_decide; simplify_eq; simpl; try done).
Qed.

Lemma dict_set_elem (k : string) (v : list string) (d : keep_dict) (p : string * list string) :
  p ∈ dict_set k v d -> p ∈ d \/ p = (k, v).
Proof.
  induction d as [|[k0 v0] d IH]; simpl; [by left|].
  destruct (decide (k = k0)) as [->|]; rewrite !elem_of_cons; naive_solver.
Qed.

Lemma dict_set_app_last (k : string) (v v' : list string) (d : keep_dict) :
  k ∉ d.*1 -> dict_set k v' (d ++ [(k, v)]) = d ++ [(k, v')].
Proof.
  induction d as [|[k0 v0] d IH]; simpl; intros Hk.
  - by rewrite decide_True.
  - apply not_elem_of_cons in Hk as [Hne Hk].
    rewrite decide_False by done. by rewrite IH.
Qed.

(** ** Deduplication *)

Section DedupFacts.

Variable strptime : string -> string -> option Z.
Variable strftime : Z -> string -> string.

Local Abbreviation parse := (get_tokens_from_filename strptime).
Local Abbreviation gid := (granule_id strftime).
Local Abbreviation member := (member strptime strftime).
Local Abbreviation group_ok := (group_ok strptime strftime).
Local Abbreviation keep_ok := (keep_ok strptime strftime).
Local Abbreviation step_outcome := (step_outcome strptime strftime).
Local Abbreviation settled := (settled strptime strftime).
Local Abbreviation dedup_inv := (dedup_inv strptime strftime).

Lemma proc_dates_eq (t f : tokens) :
  proc_dates t = proc_dates f <->
  url_proc_1 t = url_proc_1 f /\ url_proc_2 t = url_proc_2 f.
Proof. unfold proc_dates. split; [by intros [= -> ->]|by intros [-> ->]]. Qed.

Lemma replaces_spec (t f : tokens) :
  replaces t f = true <->
  (url_proc_1 f <= url_proc_1 t /\ url_proc_2 f <= url_proc_2 t) \/
  url_proc_1 f < url_proc_1 t.
Proof.
  unfold replaces.
  destruct (bool_decide (url_proc_1 f ≤ url_proc_1 t)) eqn:E1;
    destruct (bool_decide (url_proc_2 f ≤ url_proc_2 t)) eqn:E2; simpl;
    try apply bool_decide_eq_true in E1; try apply bool_decide_eq_true in E2;
    try apply bool_decide_eq_false in E1; try apply bool_decide_eq_false in E2;
    rewrite ?bool_decide_eq_true; split; try lia; auto.
Qed.

(** Away from equal dates, the replacement test is the lexicographic
    order. *)
Lemma replaces_lex (t f : tokens) :
  proc_dates t ≠ proc_dates f ->
  (replaces t f = true <-> lex_lt (proc_dates f) (proc_dates t)).
Proof.
  rewrite proc_dates_eq, replaces_spec. unfold lex_lt, proc_dates; simpl.
  intros Hne. split; intros H; [|lia].
  destruct (decide (url_proc_1 f = url_proc_1 t)); [|lia].
  destruct (decide (url_proc_2 f = url_proc_2 t)); [|lia].
  exfalso. apply Hne. split; congruence.
Qed.

Lemma replaces_same_dates (t f f' : tokens) :
  proc_dates f = proc_dates f' -> replaces t f = replaces t f'.
Proof. intros [H1 H2]%proc_dates_eq. unfold replaces. by rewrite H1, H2. Qed.

Lemma find_identical_true (t : tokens) (k : string) (L : list string) :
  L ≠ [] -> Forall (member k (proc_dates t)) L -> find_identical strptime t L = OK true.
Proof.
  destruct L as [|u L]; [done|]. intros _ HL.
  apply Forall_cons in HL as [(f & Hf & _ & Hd) _]. simpl. rewrite Hf. simpl.
  symmetry in Hd. apply proc_dates_eq in Hd as [-> ->].
  by rewrite !bool_decide_eq_true_2.
Qed.

Lemma find_identical_false (t : tokens) (k : string) (d : Z * Z) (L : list string) :
  proc_dates t ≠ d -> Forall (member k d) L -> find_identical strptime t L = OK false.
Proof.
  intros Hne. induction 1 as [|u L (f & Hf & _ & Hd) _ IH]; [done|].
  simpl. rewrite Hf. simpl.
  destruct (bool_decide (url_proc_1 t = url_proc_1 f)) eqn:E1;
    destruct (bool_decide (url_proc_2 t = url_proc_2 f)) eqn:E2; simpl; try done.
  apply bool_decide_eq_true in E1, E2. exfalso. apply Hne. rewrite <- Hd.
  by apply proc_dates_eq.
Qed.

Lemma collect_all (t : tokens) (k : string) (d : Z * Z) (L : list string) :
  lex_lt d (proc_dates t) -> Forall (member k d) L ->
  collect_remove_urls strptime t L = OK L.
Proof.
  intros Hlt. induction 1 as [|u L (f & Hf & _ & Hd) _ IH]; [done|].
  simpl. rewrite Hf. simpl. rewrite IH. simpl.
  assert (replaces t f = true) as ->; [|done].
  apply replaces_lex; [|by rewrite Hd].
  rewrite Hd. intros E. rewrite E in Hlt. unfold lex_lt in Hlt. lia.
Qed.

Lemma collect_none (t : tokens) (k : string) (d : Z * Z) (L : list string) :
  proc_dates t ≠ d -> ~ lex_lt d (proc_dates t) -> Forall (member k d) L ->
  collect_remove_urls strptime t L = OK [].
Proof.
  intros Hne Hlt. induction 1 as [|u L (f & Hf & _ & Hd) _ IH]; [done|].
  simpl. rewrite Hf. simpl. rewrite IH. simpl.
  assert (replaces t f = false) as ->; [|done].
  apply not_true_is_false. intros Hr. apply Hlt.
  rewrite <- Hd. apply replaces_lex; [by rewrite Hd|done].
Qed.

Lemma filter_not_elem_self (L : list string) :
  filter (λ each, each ∉ L) L = [].
Proof.
  assert (forall M, M ⊆ L -> filter (λ each, each ∉ L) M = []) as H.
  { induction M as [|x M IH]; [done|]. intros Hsub.
    rewrite filter_cons_False; [apply IH; set_solver|].
    intros Hx. apply Hx, Hsub. by left. }
  by apply H.
Qed.

Lemma lex_trichotomy (a b : Z * Z) : a = b \/ lex_lt a b \/ lex_lt b a.
Proof.
  destruct a as [a1 a2], b as [b1 b2]. unfold lex_lt; simpl.
  destruct (decide (a1 = b1)) as [->|]; [|lia].
  destruct (decide (a2 = b2)) as [->|]; [by left|lia].
Qed.

Lemma lex_lt_irrefl (a : Z * Z) : ~ lex_lt a a.
Proof. unfold lex_lt. lia. Qed.

Lemma lex_lt_asym (a b : Z * Z) : lex_lt a b -> ~ lex_lt b a.
Proof. unfold lex_lt. lia. Qed.

Lemma lex_lt_trans (a b c : Z * Z) : lex_lt a b -> lex_lt b c -> lex_lt a c.
Proof. unfold lex_lt. lia. Qed.

Lemma keep_ok_get (keep : keep_dict) (k : string) (L : list string) :
  keep_ok keep -> dict_get k keep = Some L -> group_ok k L.
Proof.
  intros [_ Hall] Hget. apply dict_get_Some_elem in Hget.
  rewrite Forall_forall in Hall. by apply (Hall (k, L)).
Qed.

Lemma dedup_step_outcome (keep : keep_dict) (skipped : list string) (u : string) (t : tokens) :
  keep_ok keep -> parse u = OK t ->
  exists st', dedup_step strptime strftime (keep, skipped) u = OK st' /\
              step_outcome keep skipped u t st'.
Proof.
  intros Hok Hp. unfold dedup_step. rewrite Hp. simpl.
  destruct (dict_get (gid t) keep) as [L|] eqn:Hget.
  - destruct (keep_ok_get _ _ _ Hok Hget) as (Hne & d & HL).
    destruct (lex_trichotomy (proc_dates t) d) as [<-|[Hlt|Hgt]].
    + rewrite (find_identical_true t (gid t) L Hne HL). simpl.
      eexists; split; [done|]. by apply step_same.
    + assert (proc_dates t ≠ d) as Hned.
      { intros <-. by apply lex_lt_irrefl in Hlt. }
      rewrite (find_identical_false t (gid t) d L Hned HL). simpl.
      rewrite (collect_none t (gid t) d L Hned (lex_lt_asym _ _ Hlt) HL). simpl.
      eexists; split; [done|]. by eapply step_older.
    + assert (proc_dates t ≠ d) as Hned.
      { intros <-. by apply lex_lt_irrefl in Hgt. }
      rewrite (find_identical_false t (gid t) d L Hned HL). simpl.
      rewrite (collect_all t (gid t) d L Hgt HL). simpl.
      rewrite bool_decide_eq_true_2 by done.
      rewrite filter_not_elem_self. simpl.
      eexists; split; [done|]. by eapply step_newer.
  - eexists; split; [done|]. apply step_new. by apply dict_get_None.
Qed.

Lemma member_date_unique (k : string) (d d' : Z * Z) (L : list string) :
  L ≠ [] -> Forall (member k d) L -> Forall (member k d') L -> d = d'.
Proof.
  destruct L as [|u L]; [done|]. intros _ H1 H2.
  apply Forall_cons in H1 as [(t1 & Hp1 & _ & <-) _].
  apply Forall_cons in H2 as [(t2 & Hp2 & _ & <-) _].
  congruence.
Qed.

Lemma keep_ok_set (keep : keep_dict) (k : string) (L : list string) :
  keep_ok keep -> group_ok k L -> keep_ok (dict_set k L keep).
Proof.
  intros [Hnd Hall] HL. split; [by rewrite dict_set_keys|].
  apply Forall_forall. intros p [Hp| ->]%dict_set_elem; [|done].
  rewrite Forall_forall in Hall. by apply Hall.
Qed.

Lemma keep_ok_new (keep : keep_dict) (k : string) (L : list string) :
  keep_ok keep -> k ∉ keep.*1 -> group_ok k L -> keep_ok (keep ++ [(k, L)]).
Proof.
  intros [Hnd Hall] Hk HL. split.
  - rewrite fmap_app. apply NoDup_app. split; [done|]. split.
    + intros x Hx [->|Hin%elem_of_nil]%elem_of_cons; done.
    + apply NoDup_singleton.
  - apply Forall_app. split; [done|]. by apply Forall_singleton.
Qed.

Lemma dedup_inv_init : dedup_inv [] ([], []).
Proof.
  split; [split; [apply NoDup_nil_2|apply Forall_nil_2]|]. split.
  - by intros u Hu%elem_of_nil.
  - intros k L u; simpl; discriminate.
Qed.

Lemma step_preserves (P : list string) (keep : keep_dict) (skipped : list string)
      (u : string) (t : tokens) (st' : keep_dict * list string) :
  dedup_inv P (keep, skipped) -> parse u = OK t ->
  step_outcome keep skipped u t st' -> dedup_inv (P ++ [u]) st'.
Proof.
  intros (Hok & Hset & Hsub) Hp Hstep. simpl in *.
  assert (member (gid t) (proc_dates t) u) as Hmem by (by exists t).
  destruct Hstep as [Hfresh | L HgetL HL | L d HgetL HL Hlt | L d HgetL HL Hlt];
    unfold dedup_inv; simpl.
  - (* a new key *)
    split; [|split].
    + apply keep_ok_new; [done..|]. split; [done|].
      exists (proc_dates t). by apply Forall_singleton.
    + intros u' [Hu'| ->%list_elem_of_singleton]%elem_of_app.
      * destruct (Hset u' Hu') as (t' & L' & d' & Hp' & Hget' & HL' & Hcase).
        exists t', L', d'. split; [done|]. split; [|done].
        by rewrite dict_get_app, Hget'.
      * exists t, [u], (proc_dates t). split; [done|]. split.
        { rewrite dict_get_app. apply dict_get_None in Hfresh as ->.
          simpl. by rewrite decide_True. }
        split; [by apply Forall_singleton|]. left. split; [done|]. by left.
    + intros k L u'. rewrite dict_get_app.
      destruct (dict_get k keep) as [L0|] eqn:Hk.
      * intros [= <-] Hu'. apply elem_of_app; left. eauto.
      * simpl. destruct (decide (k = gid t)); [|done].
        intros [= <-] Hu'. apply elem_of_app; by right.
  - (* identical processing dates: appended *)
    assert (L ≠ []) as HLne by (by destruct (keep_ok_get _ _ _ Hok HgetL)).
    split; [|split].
    + apply keep_ok_set; [done|]. split; [by destruct L|].
      exists (proc_dates t). apply Forall_app. split; [done|]. by apply Forall_singleton.
    + intros u' [Hu'| ->%list_elem_of_singleton]%elem_of_app.
      * destruct (Hset u' Hu') as (t' & L' & d' & Hp' & Hget' & HL' & Hcase).
        destruct (decide (gid t' = gid t)) as [Heq|Hne].
        -- rewrite Heq in Hget', HL'. assert (L' = L) as -> by congruence.
           assert (d' = proc_dates t) as -> by (by eapply member_date_unique).
           exists t', (L ++ [u]), (proc_dates t). split; [done|]. split.
           { rewrite dict_get_set, Heq, decide_True by done. by rewrite HgetL. }
           split.
           { rewrite Heq. apply Forall_app. split; [done|]. by apply Forall_singleton. }
           destruct Hcase as [[? ?]|[? ?]]; [left|right]; split; try done.
           apply elem_of_app; by left.
        -- exists t', L', d'. split; [done|]. split; [|done].
           by rewrite dict_get_set, decide_False.
      * exists t, (L ++ [u]), (proc_dates t). split; [done|]. split.
        { rewrite dict_get_set, decide_True by done. by rewrite HgetL. }
        split.
        { apply Forall_app. split; [done|]. by apply Forall_singleton. }
        left. split; [done|]. apply elem_of_app; right; by left.
    + intros k M u'. rewrite dict_get_set. destruct (decide (k = gid t)) as [->|].
      * rewrite HgetL. intros [= <-] [Hu'|Hu']%elem_of_app.
        -- apply elem_of_app; left; eauto.
        -- apply elem_of_app; by right.
      * intros Hk Hu'. apply elem_of_app; left; eauto.
  - (* newer processing dates: the group is replaced *)
    assert (L ≠ []) as HLne by (by destruct (keep_ok_get _ _ _ Hok HgetL)).
    split; [|split].
    + apply keep_ok_set; [done|]. split; [done|].
      exists (proc_dates t). by apply Forall_singleton.
    + intros u' [Hu'| ->%list_elem_of_singleton]%elem_of_app.
      * destruct (Hset u' Hu') as (t' & L' & d' & Hp' & Hget' & HL' & Hcase).
        destruct (decide (gid t' = gid t)) as [Heq|Hne].
        -- rewrite Heq in Hget', HL'. assert (L' = L) as -> by congruence.
           assert (d' = d) as -> by (by eapply member_date_unique).
           exists t', [u], (proc_dates t). split; [done|]. split.
           { rewrite dict_get_set, Heq, decide_True by done. by rewrite HgetL. }
           split; [rewrite Heq; by apply Forall_singleton|].
           right. destruct Hcase as [[Hd ?]|[? ?]]; split.
           ++ by rewrite Hd.
           ++ apply elem_of_app; by right.
           ++ by eapply lex_lt_trans.
           ++ apply elem_of_app; by left.
        -- exists t', L', d'. split; [done|]. split; [by rewrite dict_get_set, decide_False|].
           split; [done|].
           destruct Hcase as [[? ?]|[? ?]]; [by left|right]. split; [done|].
           apply elem_of_app; by left.
      * exists t, [u], (proc_dates t). split; [done|]. split.
        { rewrite dict_get_set, decide_True by done. by rewrite HgetL. }
        split; [by apply Forall_singleton|]. left. split; [done|]. by left.
    + intros k M u'. rewrite dict_get_set. destruct (decide (k = gid t)) as [->|].
      * rewrite HgetL. intros [= <-] Hu'. apply elem_of_app; by right.
      * intros Hk Hu'. apply elem_of_app; left; eauto.
  - (* older processing dates: the incoming identifier is rejected *)
    split; [done|]. split.
    + intros u' [Hu'| ->%list_elem_of_singleton]%elem_of_app.
      * destruct (Hset u' Hu') as (t' & L' & d' & Hp' & Hget' & HL' & Hcase).
        exists t', L', d'. do 3 (split; [done|]).
        destruct Hcase as [[? ?]|[? ?]]; [by left|right]. split; [done|].
        apply elem_of_app; by left.
      * exists t, L, d. do 3 (split; [done|]). right. split; [done|].
        apply elem_of_app; right; by left.
    + intros k M u' Hk Hu'. apply elem_of_app; left; eauto.
Qed.

Lemma dedup_step_parses (st st' : keep_dict * list string) (u : string) :
  dedup_step strptime strftime st u = OK st' -> exists t, parse u = OK t.
Proof.
  destruct st as [keep skipped]. unfold dedup_step.
  destruct (parse u) as [t|e]; [eauto|discriminate].
Qed.

Lemma dedup_loop_inv (urls P : list string) (st st' : keep_dict * list string) :
  dedup_inv P st -> dedup_loop strptime strftime st urls = OK st' ->
  dedup_inv (P ++ urls) st'.
Proof.
  revert P st. induction urls as [|u urls IH]; intros P st Hinv Hloop; simpl in Hloop.
  - injection Hloop as <-. by rewrite app_nil_r.
  - apply bind_OK in Hloop as (st1 & Hstep & Hloop).
    destruct (dedup_step_parses _ _ _ Hstep) as [t Hp].
    destruct st as [keep skipped].
    destruct (dedup_step_outcome keep skipped u t (proj1 Hinv) Hp) as (st1' & Hstep' & Hout).
    assert (st1' = st1) as -> by congruence.
    replace (P ++ u :: urls) with ((P ++ [u]) ++ urls) by (by rewrite <- app_assoc).
    apply IH with st1; [|done]. by eapply step_preserves.
Qed.

Lemma dict_values_elem (keep : keep_dict) (u : string) :
  u ∈ dict_values keep <-> exists k L, (k, L) ∈ keep /\ u ∈ L.
Proof.
  unfold dict_values. induction keep as [|[k L] keep IH]; simpl.
  - split; [by intros ?%elem_of_nil|by intros (? & ? & ?%elem_of_nil & _)].
  - rewrite elem_of_app, IH. split.
    + intros [Hu|(k' & L' & Hin & Hu)].
      * exists k, L. split; [by left|done].
      * exists k', L'. split; [by right|done].
    + intros (k' & L' & [[= -> ->]|Hin]%elem_of_cons & Hu); [by left|].
      right. by exists k', L'.
Qed.

End DedupFacts.

Section DedupResults.

Variable strptime : string -> string -> option Z.
Variable strftime : Z -> string -> string.

Local Abbreviation parse := (get_tokens_from_filename strptime).
Local Abbreviation gid := (granule_id strftime).
Local Abbreviation member := (member strptime strftime).
Local Abbreviation keep_ok := (keep_ok strptime strftime).
Local Abbreviation dedup_inv := (dedup_inv strptime strftime).
Local Abbreviation group_date := (group_date strptime strftime).

Lemma group_date_unique (keep : keep_dict) (k : string) (d d' : Z * Z) :
  keep_ok keep -> group_date keep k d -> group_date keep k d' -> d = d'.
Proof.
  intros Hok (L & HL & HF) (L' & HL' & HF').
  assert (L' = L) as -> by congruence.
  destruct (keep_ok_get _ _ _ _ _ Hok HL) as [Hne _].
  by eapply member_date_unique.
Qed.

Lemma kept_has_group_date (keep : keep_dict) (u : string) (t : tokens) :
  keep_ok keep -> u ∈ dict_values keep -> parse u = OK t ->
  group_date keep (gid t) (proc_dates t).
Proof.
  intros Hok (k & L & Hin & Hu)%dict_values_elem Hp.
  pose proof Hok as [Hnd Hall]. rewrite Forall_forall in Hall.
  destruct (Hall _ Hin) as (_ & d & HF). simpl in HF.
  pose proof HF as HF'. rewrite Forall_forall in HF'.
  destruct (HF' _ Hu) as (t' & Hp' & Hk & Hd).
  assert (t' = t) as -> by congruence. subst k d.
  exists L. split; [by apply dict_get_elem|done].
Qed.

(** Every processed identifier is compared with the dates of its group. *)
Lemma processed_fate (P : list string) (keep : keep_dict) (skipped : list string)
      (u : string) (t : tokens) :
  dedup_inv P (keep, skipped) -> u ∈ P -> parse u = OK t ->
  exists d, group_date keep (gid t) d /\
    ((proc_dates t = d /\ u ∈ dict_values keep) \/
     (lex_lt (proc_dates t) d /\ u ∈ skipped /\ u ∉ dict_values keep)).
Proof.
  intros (Hok & Hset & Hsub) Hu Hp. simpl in *.
  destruct (Hset u Hu) as (t' & L & d & Hp' & Hget & HF & Hcase).
  assert (t' = t) as -> by congruence.
  exists d. split; [by exists L|].
  destruct Hcase as [[Hd HuL]|[Hlt Hsk]]; [left|right].
  - split; [done|]. apply dict_values_elem. exists (gid t), L.
    split; [by apply dict_get_Some_elem|done].
  - split; [done|]. split; [done|]. intros Hkept.
    pose proof (kept_has_group_date keep u t Hok Hkept Hp) as Hgd.
    assert (proc_dates t = d) as Heq.
    { eapply group_date_unique; [done..|]. by exists L. }
    rewrite Heq in Hlt. by apply lex_lt_irrefl in Hlt.
Qed.

(** The dates of a group are those of some processed identifier. *)
Lemma group_date_attained (P : list string) (keep : keep_dict) (skipped : list string)
      (k : string) (d : Z * Z) :
  dedup_inv P (keep, skipped) -> group_date keep k d ->
  exists c tc, c ∈ P /\ parse c = OK tc /\ gid tc = k /\ proc_dates tc = d.
Proof.
  intros (Hok & Hset & Hsub) (L & Hget & HF). simpl in *.
  destruct (keep_ok_get _ _ _ _ _ Hok Hget) as [Hne _].
  destruct L as [|c L]; [done|].
  apply Forall_cons in HF as [(tc & Hpc & Hk & Hd) _].
  exists c, tc. split; [|done]. apply (Hsub k (c :: L)); [done|by left].
Qed.

Lemma skip_duplicate_granules_inv (urls granules skipped : list string) :
  skip_duplicate_granules strptime strftime urls = OK (granules, skipped) ->
  exists keep, granules = dict_values keep /\ dedup_inv urls (keep, skipped).
Proof.
  unfold skip_duplicate_granules. intros H.
  apply bind_OK in H as ([keep sk] & Hloop & [= <- <-]).
  exists keep. split; [done|].
  apply (dedup_loop_inv strptime strftime urls [] ([], [])); [|done].
  apply dedup_inv_init.
Qed.

(** Re-running the loop on the kept identifiers rebuilds the dictionary. *)
Lemma dedup_loop_app (st : keep_dict * list string) (l1 l2 : list string) :
  dedup_loop strptime strftime st (l1 ++ l2) =
  dedup_loop strptime strftime st l1 ≫= fun st' => dedup_loop strptime strftime st' l2.
Proof.
  revert st. induction l1 as [|u l1 IH]; intros st; simpl; [done|].
  destruct (dedup_step strptime strftime st u) as [st1|e]; simpl; [apply IH|done].
Qed.

Lemma rerun_group (K1 : keep_dict) (k : string) (d : Z * Z) (L M rest sk : list string) :
  k ∉ K1.*1 -> M ≠ [] -> Forall (member k d) M -> Forall (member k d) L ->
  dedup_loop strptime strftime (K1 ++ [(k, M)], sk) (L ++ rest) =
  dedup_loop strptime strftime (K1 ++ [(k, M ++ L)], sk) rest.
Proof.
  intros Hk. revert M. induction L as [|x L IH]; intros M HM HFM HFL; simpl.
  - by rewrite app_nil_r.
  - apply Forall_cons in HFL as [(tx & Hpx & Hkx & Hdx) HFL].
    rewrite Hpx. simpl. rewrite Hkx.
    rewrite dict_get_app. apply dict_get_None in Hk as Hnone. rewrite Hnone.
    simpl. rewrite decide_True by done.
    rewrite (find_identical_true strptime strftime tx k M HM) by (by rewrite Hdx).
    simpl. rewrite dict_set_app_last by done.
    rewrite IH.
    + by rewrite <- app_assoc.
    + by destruct M.
    + apply Forall_app. split; [done|]. apply Forall_singleton. by exists tx.
    + done.
Qed.

Lemma rerun (K2 K1 : keep_dict) (sk : list string) :
  keep_ok (K1 ++ K2) ->
  dedup_loop strptime strftime (K1, sk) (dict_values K2) = OK (K1 ++ K2, sk).
Proof.
  revert K1. induction K2 as [|[k L] K2 IH]; intros K1 Hok.
  - by rewrite app_nil_r.
  - pose proof Hok as [Hnd Hall].
    rewrite fmap_app in Hnd. apply NoDup_app in Hnd as (_ & Hdisj & Hnd2).
    assert (k ∉ K1.*1) as Hk.
    { intros Hin. apply (Hdisj k Hin). by left. }
    apply Forall_app in Hall as [_ Hall].
    apply Forall_cons in Hall as [(Hne & d & HF) _]. simpl in Hne, HF.
    destruct L as [|u L]; [done|].
    apply Forall_cons in HF as [(tu & Hpu & Hku & Hdu) HF].
    change (dict_values ((k, u :: L) :: K2)) with (u :: (L ++ dict_values K2)).
    cbn [dedup_loop]. unfold dedup_step at 1. rewrite Hpu. simpl. rewrite Hku.
    apply dict_get_None in Hk as Hnone. rewrite Hnone. simpl.
    rewrite (rerun_group K1 k d L [u]); [|done|done| |done].
    + simpl. specialize (IH (K1 ++ [(k, u :: L)])).
      rewrite <- app_assoc in IH. simpl in IH. by apply IH.
    + apply Forall_singleton. by exists tu.
Qed.

End DedupResults.

(** ** Deduplication: the claims *)

Section DedupClaims.

Variable strptime : string -> string -> option Z.
Variable strftime : Z -> string -> string.

Local Abbreviation parse := (get_tokens_from_filename strptime).
Local Abbreviation gid := (granule_id strftime).
Local Abbreviation superseded_by := (superseded_by strptime).
Local Abbreviation none_identical := (none_identical strptime).

(** C2. Deduplication is idempotent: run on its own output,
    [skip_duplicate_granules] returns that output unchanged and records no
    duplicate rejection. *)
Theorem skip_duplicate_granules_idempotent (urls granules skipped : list string) :
  skip_duplicate_granules strptime strftime urls = OK (granules, skipped) ->
  skip_duplicate_granules strptime strftime granules = OK (granules, []).
Proof.
  intros (keep & -> & Hok & _)%skip_duplicate_granules_inv. simpl in Hok.
  unfold skip_duplicate_granules.
  rewrite (rerun strptime strftime keep [] []) by done. done.
Qed.

Lemma none_identical_find (t : tokens) (kept : list string) :
  none_identical t kept -> find_identical strptime t kept = OK false.
Proof.
  induction 1 as [|f kept (tf & Hp & Hne) _ IH]; [done|].
  simpl. rewrite Hp. simpl.
  destruct (bool_decide (url_proc_1 t = url_proc_1 tf)) eqn:E1;
    destruct (bool_decide (url_proc_2 t = url_proc_2 tf)) eqn:E2; simpl; try done.
  apply bool_decide_eq_true in E1, E2. exfalso. apply Hne.
  symmetry. by apply proc_dates_eq.
Qed.

Lemma none_identical_collect (t : tokens) (kept : list string) :
  none_identical t kept ->
  exists removed, collect_remove_urls strptime t kept = OK removed /\
    forall f, f ∈ removed <-> f ∈ kept /\ superseded_by t f.
Proof.
  induction 1 as [|f kept (tf & Hp & Hne) _ (removed & Hc & Hspec)].
  - exists []. split; [done|]. intros f. split; [by intros ?%elem_of_nil|].
    by intros [?%elem_of_nil _].
  - simpl. rewrite Hp, Hc. simpl.
    destruct (replaces t tf) eqn:Hr; eexists; (split; [done|]); intros g.
    + rewrite !elem_of_cons, Hspec. split.
      * intros [->|[? ?]]; [|by auto]. split; [by left|].
        exists tf. split; [done|]. by apply replaces_spec.
      * intros [[->|?] ?]; auto.
    + rewrite elem_of_cons, Hspec. split; [by intros [? ?]; auto|].
      intros [[->|?] Hs]; [|done]. exfalso.
      destruct Hs as (tf' & Hp' & Hs). assert (tf' = tf) as -> by congruence.
      apply replaces_spec in Hs. congruence.
Qed.

(** C3 (amended). When no kept identifier of the group has both processing
    dates equal to the incoming identifier's, the incoming identifier
    removes from the kept list exactly the identifiers it supersedes; if
    there are some, they are appended to the duplicate rejections and the
    incoming identifier is appended to the kept list; otherwise the kept
    list is unchanged and the incoming identifier itself is rejected. *)
Theorem dedup_step_replaces (keep : keep_dict) (skipped kept : list string)
        (u : string) (t : tokens) :
  parse u = OK t -> dict_get (gid t) keep = Some kept -> none_identical t kept ->
  exists removed remaining,
    (forall f, f ∈ removed <-> f ∈ kept /\ superseded_by t f) /\
    (forall f, f ∈ remaining <-> f ∈ kept /\ ~ superseded_by t f) /\
    dedup_step strptime strftime (keep, skipped) u =
      OK (if bool_decide (removed ≠ [])
          then (dict_set (gid t) (remaining ++ [u]) keep, skipped ++ removed)
          else (keep, skipped ++ [u])).
Proof.
  intros Hp Hget Hni.
  destruct (none_identical_collect t kept Hni) as (removed & Hc & Hspec).
  exists removed, (filter (λ each, each ∉ removed) kept).
  split; [done|]. split.
  - intros f. rewrite list_elem_of_filter, Hspec. split.
    + intros [Hnot Hin]. split; [done|]. intros Hs. by apply Hnot.
    + intros [Hin Hnot]. split; [|done]. by intros [_ ?].
  - unfold dedup_step. rewrite Hp. simpl. rewrite Hget.
    rewrite (none_identical_find t kept Hni). simpl. rewrite Hc. simpl.
    by destruct (bool_decide (removed ≠ [])).
Qed.

(** C4 (amended). If [A] and [B] occur in the input with the same key, both
    processing dates of [A] are at least those of [B] and the date pairs
    differ, then, whatever their order, [B] is absent from the output and is
    among the duplicate rejections; [A] is retained exactly when no
    identifier of the input with that key has lexicographically newer
    processing dates. *)
Theorem dominated_granule_discarded (urls granules skipped : list string)
        (A B : string) (ta tb : tokens) :
  skip_duplicate_granules strptime strftime urls = OK (granules, skipped) ->
  A ∈ urls -> B ∈ urls -> parse A = OK ta -> parse B = OK tb ->
  gid ta = gid tb ->
  url_proc_1 tb <= url_proc_1 ta -> url_proc_2 tb <= url_proc_2 ta ->
  proc_dates ta ≠ proc_dates tb ->
  (B ∉ granules) /\ B ∈ skipped /\
  (A ∈ granules <->
   forall C tc, C ∈ urls -> parse C = OK tc -> gid tc = gid ta ->
                ~ lex_lt (proc_dates ta) (proc_dates tc)).
Proof.
  intros (keep & -> & Hinv)%skip_duplicate_granules_inv HA HB HpA HpB Hk H1 H2 Hne.
  pose proof (proj1 Hinv) as Hok. simpl in Hok.
  destruct (processed_fate _ _ _ _ _ _ _ Hinv HA HpA) as (dA & HgA & HcA).
  destruct (processed_fate _ _ _ _ _ _ _ Hinv HB HpB) as (dB & HgB & HcB).
  rewrite <- Hk in HgB.
  assert (dB = dA) as -> by (by eapply group_date_unique).
  assert (lex_lt (proc_dates tb) (proc_dates ta)) as Hlt.
  { unfold lex_lt, proc_dates in *; simpl.
    destruct (decide (url_proc_1 tb = url_proc_1 ta)) as [E1|]; [|lia].
    destruct (decide (url_proc_2 tb = url_proc_2 ta)) as [E2|]; [|lia].
    exfalso. apply Hne. by rewrite E1, E2. }
  assert (lex_lt (proc_dates tb) dA) as HltB.
  { destruct HcA as [[<- _]|[HltA _]]; [done|]. by eapply lex_lt_trans. }
  destruct HcB as [[HeqB _]|(_ & HskB & HnotB)].
  { rewrite HeqB in HltB. by apply lex_lt_irrefl in HltB. }
  split; [done|]. split; [done|]. split.
  - intros HkeptA C tc HC HpC HkC Hnewer.
    destruct HcA as [[HeqA _]|(_ & _ & HnotA)]; [|done].
    destruct (processed_fate _ _ _ _ _ _ _ Hinv HC HpC) as (dC & HgC & HcC).
    rewrite HkC in HgC. assert (dC = dA) as -> by (by eapply group_date_unique).
    rewrite HeqA in Hnewer.
    destruct HcC as [[HeqC _]|[HltC _]].
    + rewrite HeqC in Hnewer. by apply lex_lt_irrefl in Hnewer.
    + by apply (lex_lt_asym _ _ Hnewer).
  - intros Hmax. destruct HcA as [[_ ?]|[HltA _]]; [done|]. exfalso.
    destruct (group_date_attained _ _ _ _ _ _ _ Hinv HgA) as (C & tc & HC & HpC & HkC & HdC).
    apply (Hmax C tc HC HpC HkC). by rewrite HdC.
Qed.

(** C5 (amended). Two identifiers of the input with the same key and the
    same processing dates on both images share their fate: either both are
    retained or neither is; both are retained exactly when no identifier of
    the input with that key has lexicographically newer processing dates. *)
Theorem identical_granules_share_fate (urls granules skipped : list string)
        (A B : string) (ta tb : tokens) :
  skip_duplicate_granules strptime strftime urls = OK (granules, skipped) ->
  A ∈ urls -> B ∈ urls -> parse A = OK ta -> parse B = OK tb ->
  gid ta = gid tb -> proc_dates ta = proc_dates tb ->
  (A ∈ granules <-> B ∈ granules) /\
  (A ∈ granules /\ B ∈ granules <->
   forall C tc, C ∈ urls -> parse C = OK tc -> gid tc = gid ta ->
                ~ lex_lt (proc_dates ta) (proc_dates tc)).
Proof.
  intros (keep & -> & Hinv)%skip_duplicate_granules_inv HA HB HpA HpB Hk Hd.
  pose proof (proj1 Hinv) as Hok. simpl in Hok.
  destruct (processed_fate _ _ _ _ _ _ _ Hinv HA HpA) as (dA & HgA & HcA).
  destruct (processed_fate _ _ _ _ _ _ _ Hinv HB HpB) as (dB & HgB & HcB).
  rewrite <- Hk in HgB.
  assert (dB = dA) as -> by (by eapply group_date_unique).
  rewrite <- Hd in HcB.
  assert (A ∈ dict_values keep <-> proc_dates ta = dA) as HAiff.
  { split.
    - intros Hin. destruct HcA as [[? _]|(_ & _ & ?)]; done.
    - intros Heq. destruct HcA as [[_ ?]|[Hlt _]]; [done|].
      rewrite Heq in Hlt. by apply lex_lt_irrefl in Hlt. }
  assert (B ∈ dict_values keep <-> proc_dates ta = dA) as HBiff.
  { split.
    - intros Hin. destruct HcB as [[? _]|(_ & _ & ?)]; done.
    - intros Heq. destruct HcB as [[_ ?]|[Hlt _]]; [done|].
      rewrite Heq in Hlt. by apply lex_lt_irrefl in Hlt. }
  split; [by rewrite HAiff, HBiff|].
  rewrite HAiff, HBiff. split.
  - intros [HeqA _] C tc HC HpC HkC Hnewer.
    destruct (processed_fate _ _ _ _ _ _ _ Hinv HC HpC) as (dC & HgC & HcC).
    rewrite HkC in HgC. assert (dC = dA) as -> by (by eapply group_date_unique).
    rewrite HeqA in Hnewer.
    destruct HcC as [[HeqC _]|[HltC _]].
    + rewrite HeqC in Hnewer. by apply lex_lt_irrefl in Hnewer.
    + by apply (lex_lt_asym _ _ Hnewer).
  - intros Hmax.
    assert (proc_dates ta = dA) as Heq; [|done].
    destruct HcA as [[? _]|[HltA _]]; [done|]. exfalso.
    destruct (group_date_attained _ _ _ _ _ _ _ Hinv HgA) as (C & tc & HC & HpC & HkC & HdC).
    apply (Hmax C tc HC HpC HkC). by rewrite HdC.
Qed.

End DedupClaims.

(** ** The assembler *)

Ltac inv_result :=
  repeat match goal with
  | H : (_ ≫= _) = OK _ |- _ =>
      let a := fresh "a" in
      let Ha := fresh "Ha" in
      apply bind_OK in H as (a & Ha & H)
  | H : OK _ = OK _ |- _ => injection H as H; try subst
  | H : Raise _ = OK _ |- _ => discriminate H
  | H : (if ?b then _ else _) = OK _ |- _ =>
      let Hb := fresh "Hb" in destruct b eqn:Hb
  | H : (let '(_, _) := ?p in _) = OK _ |- _ => destruct p
  end.

Lemma for_each_length {A B} (f : A -> result B) (l : list A) (l' : list B) :
  for_each f l = OK l' -> length l' = length l.
Proof.
  revert l'. induction l as [|a l IH]; intros l' H; simpl in H.
  - by injection H as <-.
  - inv_result. simpl. f_equal. by apply IH.
Qed.

Lemma for_each_lookup {A B} (f : A -> result B) (l : list A) (l' : list B) (i : nat) (a : A) :
  for_each f l = OK l' -> l !! i = Some a -> exists b, l' !! i = Some b /\ f a = OK b.
Proof.
  revert l' i. induction l as [|a0 l IH]; intros l' i H Hi; simpl in H; [done|].
  inv_result. destruct i as [|i]; simpl in *.
  - injection Hi as ->. eauto.
  - eauto.
Qed.

Lemma for_each_Forall2 {A B} (f : A -> result B) (l : list A) (l' : list B) :
  for_each f l = OK l' -> Forall2 (fun a b => f a = OK b) l l'.
Proof.
  revert l'. induction l as [|a l IH]; intros l' H; simpl in H.
  - injection H as <-. constructor.
  - inv_result. constructor; auto.
Qed.

Lemma writes_refl (K : list string) (n : nat) (m : gmap string LayerVar) : writes K n m m.
Proof. split; auto. Qed.

Lemma writes_insert (K : list string) (n : nat) (m : gmap string LayerVar)
      (k : string) (v : LayerVar) :
  k ∈ K -> len_ok n v -> writes K n m (<[k := v]> m).
Proof.
  intros Hk Hv. split.
  - intros k' Hk'. apply lookup_insert_ne. by intros ->.
  - intros k' v'. destruct (decide (k = k')) as [->|Hne].
    + rewrite lookup_insert_eq. intros [= <-]. by right.
    + rewrite lookup_insert_ne by done. by left.
Qed.

Lemma writes_trans (K1 K2 : list string) (n : nat) (m1 m2 m3 : gmap string LayerVar) :
  writes K1 n m1 m2 -> writes K2 n m2 m3 -> writes (K1 ++ K2) n m1 m3.
Proof.
  intros [H1 H1'] [H2 H2']. split.
  - intros k Hk. rewrite not_elem_of_app in Hk. destruct Hk as [Hk1 Hk2].
    by rewrite H2, H1.
  - intros k v Hv. destruct (H2' k v Hv) as [Hv2|?]; [|by right]. by apply H1'.
Qed.

Lemma writes_mono (K K' : list string) (n : nat) (m m' : gmap string LayerVar) :
  K ⊆ K' -> writes K n m m' -> writes K' n m m'.
Proof.
  intros Hsub [H1 H2]. split; [|done].
  intros k Hk. apply H1. intros Hin. by apply Hk, Hsub.
Qed.

Lemma same_except_refl (D : list string) (l : list Dataset) :
  Forall2 (same_except D) l l.
Proof. apply Forall_Forall2_diag, Forall_forall. by intros d _ k _. Qed.

Lemma same_except_trans (D1 D2 : list string) (l1 l2 l3 : list Dataset) :
  Forall2 (same_except D1) l1 l2 -> Forall2 (same_except D2) l2 l3 ->
  Forall2 (same_except (D1 ++ D2)) l1 l3.
Proof.
  intros H12. revert l3. induction H12 as [|d1 d2 l1 l2 Hd H12 IH]; intros l3 H23.
  - inversion H23. constructor.
  - inversion H23 as [|? d3 ? l3' Hd' H23']; subst. constructor; [|by apply IH].
    intros k Hk. rewrite not_elem_of_app in Hk. destruct Hk as [Hk1 Hk2].
    by rewrite Hd', Hd.
Qed.

Lemma same_except_mono (D D' : list string) (l l' : list Dataset) :
  D ⊆ D' -> Forall2 (same_except D) l l' -> Forall2 (same_except D') l l'.
Proof.
  intros Hsub HF. eapply Forall2_impl; [exact HF|]. intros d d' H k Hk. apply H.
  intros Hin. by apply Hk, Hsub.
Qed.

Lemma drop_vars_same_except (x : string) (l l' : list Dataset) :
  for_each (drop_vars x) l = OK l' -> Forall2 (same_except [x]) l l'.
Proof.
  intros H%for_each_Forall2. eapply Forall2_impl; [exact H|].
  intros d d' Hd k Hk. unfold drop_vars in Hd.
  destruct (ds_vars d !! x); [|discriminate]. injection Hd as <-. simpl.
  apply lookup_delete_ne. intros ->. apply Hk. by left.
Qed.

Lemma drop_vars_if_present_same_except (x : string) (l : list Dataset) :
  Forall2 (same_except [x]) l (drop_vars_if_present x <$> l).
Proof.
  apply Forall2_fmap_r, Forall_Forall2_diag, Forall_forall.
  intros d _ k Hk. simpl. apply lookup_delete_ne. intros ->. apply Hk. by left.
Qed.

Lemma writes_step (K : list string) (n : nat) (m1 m2 m3 : gmap string LayerVar) :
  writes K n m1 m2 -> writes K n m2 m3 -> writes K n m1 m3.
Proof.
  intros [H1 H1'] [H2 H2']. split.
  - intros k Hk. by rewrite H2, H1.
  - intros k v Hv. destruct (H2' k v Hv) as [Hv2|?]; [|by right]. by apply H1'.
Qed.

Lemma same_except_step (D : list string) (l1 l2 l3 : list Dataset) :
  Forall2 (same_except D) l1 l2 -> Forall2 (same_except D) l2 l3 ->
  Forall2 (same_except D) l1 l3.
Proof.
  intros H12. revert l3. induction H12 as [|d1 d2 l1 l2 Hd H12 IH]; intros l3 H23.
  - inversion H23. constructor.
  - inversion H23 as [|? d3 ? l3' Hd' H23']; subst. constructor; [|by apply IH].
    intros k Hk. by rewrite Hd', Hd.
Qed.

Section AssemblerFacts.

Variable strptime : string -> string -> option Z.
Variable ASV APF AD1 AD2 TS1 TS2 : string.
Variable self : ITSCube.

Local Abbreviation n := (length (dates self)).
Local Abbreviation step_ok := (step_ok self).
Local Abbreviation slices_of := (slices_of self).
Local Abbreviation phase_ok := (phase_ok self).
Local Abbreviation optional_phase := (optional_phase self).
Local Abbreviation optional_v_phase := (optional_v_phase strptime self).
Local Abbreviation required_v_phase := (required_v_phase strptime self).
Local Abbreviation required_phase := (required_phase self).
Local Abbreviation v_phase := (v_phase strptime self).
Local Abbreviation chip_size_height_phase := (chip_size_height_phase self).
Local Abbreviation metadata_phases := (metadata_phases strptime ASV APF AD1 AD2 TS1 TS2 self).
Local Abbreviation unify_phases := (unify_phases strptime ASV APF AD1 AD2 TS1 TS2 self).

Lemma step_ok_refl (K D : list string) (w : work) : step_ok K D w w.
Proof. split; [apply writes_refl|apply same_except_refl]. Qed.

Lemma step_ok_step (K D : list string) (w1 w2 w3 : work) :
  step_ok K D w1 w2 -> step_ok K D w2 w3 -> step_ok K D w1 w3.
Proof.
  intros [? ?] [? ?]. split; [by eapply writes_step|by eapply same_except_step].
Qed.

Lemma step_ok_mono (K K' D D' : list string) (w w' : work) :
  K ⊆ K' -> D ⊆ D' -> step_ok K D w w' -> step_ok K' D' w w'.
Proof.
  intros ? ? [? ?]. split; [by eapply writes_mono|by eapply same_except_mono].
Qed.

Lemma step_ok_set_layer (K D : list string) (k : string) (v : LayerVar) (w : work) :
  k ∈ K -> len_ok n v -> step_ok K D w (set_layer k v w).
Proof.
  intros. split; simpl; [by apply writes_insert|apply same_except_refl].
Qed.

Lemma step_ok_set_ds (K D : list string) (l : list Dataset) (w : work) :
  Forall2 (same_except D) (w_ds w) l -> step_ok K D w (set_ds l w).
Proof. intros. split; simpl; [apply writes_refl|done]. Qed.

Lemma step_ok_extend (K D names : list string) (w : work) :
  step_ok K D w (extend_new_v_vars names w).
Proof. split; simpl; [apply writes_refl|apply same_except_refl]. Qed.

Lemma step_ok_set_attr (K D : list string) (k : string) (v : value) (w : work) :
  step_ok K D w (set_attr k v w).
Proof. split; simpl; [apply writes_refl|apply same_except_refl]. Qed.

Lemma concat_spec (arrays : list DataArray) (v : LayerVar) :
  concat (mid_date_coord self) arrays = OK v ->
  v = Cube (da_values <$> arrays) /\ length arrays = n.
Proof.
  unfold concat, mid_date_coord. case_bool_decide; [|discriminate].
  by intros [= <-].
Qed.

Lemma concat_len_ok (arrays : list DataArray) (v : LayerVar) :
  concat (mid_date_coord self) arrays = OK v -> len_ok n v.
Proof.
  intros [-> Hlen]%concat_spec m. simpl. rewrite length_fmap. congruence.
Qed.

Lemma series_len_ok (data : list value) (v : LayerVar) :
  series (mid_date_coord self) data = OK v -> len_ok n v.
Proof.
  unfold series, mid_date_coord. case_bool_decide; [|discriminate].
  intros [= <-] m. simpl. congruence.
Qed.

Lemma attr_series_len_ok (w : work) (var_name attr_name : string)
      (missing : option value) (to_date : bool) (v : LayerVar) :
  attr_series strptime self w var_name attr_name missing to_date = OK v -> len_ok n v.
Proof. unfold attr_series. intros H. inv_result. by eapply series_len_ok. Qed.

Lemma error_variable_spec (D : list string) (var_name each_prefix : string) (w w' : work) :
  error_variable strptime self var_name each_prefix w = OK w' ->
  step_ok [var_name +:+ "_" +:+ each_prefix] D w w'.
Proof.
  unfold error_variable. intros H. inv_result.
  all: apply step_ok_set_layer; [by left|by eapply series_len_ok].
Qed.

Lemma capture_once_spec (D : list string) (var_name attr_name : string) (w w' : work) :
  capture_once strptime self var_name attr_name w = OK w' ->
  step_ok [attr_name] D w w'.
Proof.
  unfold capture_once. intros H. inv_result; try apply step_ok_refl.
  apply step_ok_set_layer; [by left|by eapply attr_series_len_ok].
Qed.

Lemma capture_flag_stable_shift_spec (D : list string) (var_name : string) (w w' : work) :
  capture_flag_stable_shift strptime self var_name w = OK w' ->
  step_ok [DataVars.FLAG_STABLE_SHIFT] D w w'.
Proof.
  unfold capture_flag_stable_shift. intros H. inv_result; try apply step_ok_refl.
  apply step_ok_set_layer; [by left|by eapply attr_series_len_ok].
Qed.

Lemma shift_variable_spec (D : list string) (var_name shift : string) (w w' : work) :
  shift_variable strptime self var_name shift w = OK w' ->
  step_ok [var_name +:+ "_" +:+ shift] D w w'.
Proof.
  unfold shift_variable. intros H. inv_result.
  apply step_ok_set_layer; [by left|by eapply attr_series_len_ok].
Qed.

Ltac chain_step lem :=
  eapply step_ok_step;
  [|eapply step_ok_mono; [| |eapply lem; eassumption]; [set_solver|reflexivity]].

Lemma process_v_attributes_spec (D : list string) (var_name : string) (w w' : work)
      (names : list string) :
  process_v_attributes strptime self var_name w = OK (w', names) ->
  step_ok (pva_names var_name) D w w'.
Proof.
  unfold process_v_attributes. intros H. inv_result.
  chain_step shift_variable_spec.
  chain_step shift_variable_spec.
  chain_step shift_variable_spec.
  chain_step capture_flag_stable_shift_spec.
  chain_step capture_once_spec.
  chain_step capture_once_spec.
  chain_step capture_once_spec.
  chain_step error_variable_spec.
  chain_step error_variable_spec.
  chain_step error_variable_spec.
  eapply step_ok_mono; [| |eapply error_variable_spec; eassumption]; [set_solver|reflexivity].
Qed.

Lemma step_ok_trans (K1 K2 D1 D2 : list string) (w1 w2 w3 : work) :
  step_ok K1 D1 w1 w2 -> step_ok K2 D2 w2 w3 -> step_ok (K1 ++ K2) (D1 ++ D2) w1 w3.
Proof.
  intros [? ?] [? ?]. split; [by eapply writes_trans|by eapply same_except_trans].
Qed.

Ltac first_step lem :=
  eapply step_ok_mono; [| |eapply lem; eassumption]; [set_solver|set_solver].

Ltac last_set_layer :=
  eapply step_ok_step; [|apply step_ok_set_layer; [set_solver|]].

Lemma process_v_spec (w w' : work) :
  process_v strptime self w = OK w' ->
  step_ok [DataVars.V; DataVars.MAP_SCALE_CORRECTED] [DataVars.V] w w'.
Proof.
  unfold process_v. intros H. inv_result.
  - eapply step_ok_step; [|apply step_ok_set_ds; simpl;
                            eapply same_except_mono; [|by eapply drop_vars_same_except];
                            set_solver].
    eapply step_ok_step; [|apply step_ok_set_layer; [set_solver|by eapply attr_series_len_ok]].
    eapply step_ok_step; [|apply step_ok_extend].
    apply step_ok_set_layer; [set_solver|by eapply concat_len_ok].
  - eapply step_ok_step; [|apply step_ok_set_ds; simpl;
                            eapply same_except_mono; [|by eapply drop_vars_same_except];
                            set_solver].
    eapply step_ok_step; [|apply step_ok_extend].
    apply step_ok_set_layer; [set_solver|by eapply concat_len_ok].
Qed.

Lemma slices_of_same_except (D : list string) (x : string) (l l' : list Dataset) :
  x ∉ D -> Forall2 (same_except D) l l' -> slices_of x l' = slices_of x l.
Proof.
  intros Hx. unfold slices_of. induction 1 as [|d d' l l' Hd _ IH]; [done|].
  csimpl. rewrite IH. f_equal. unfold get_data_var. by rewrite (Hd x Hx).
Qed.

Lemma process_optional_spec (x : string) (w w' : work) :
  process_optional self x w = OK w' -> step_ok [x] [x] w w'.
Proof.
  unfold process_optional. intros H. inv_result.
  eapply step_ok_step; [|apply step_ok_set_ds; simpl; apply drop_vars_if_present_same_except].
  eapply step_ok_step; [|apply step_ok_extend].
  apply step_ok_set_layer; [set_solver|by eapply concat_len_ok].
Qed.

Lemma process_optional_effect (x : string) (w w' : work) :
  process_optional self x w = OK w' ->
  w_layers w' !! x = Some (Cube (slices_of x (w_ds w))).
Proof.
  unfold process_optional. intros H. inv_result. simpl.
  apply concat_spec in Ha as [-> _]. rewrite lookup_insert_eq.
  unfold slices_of. by rewrite <- list_fmap_compose.
Qed.

Lemma process_required_v_spec (x : string) (w w' : work) :
  process_required_v strptime self x w = OK w' ->
  step_ok (x :: pva_names x) [x] w w'.
Proof.
  unfold process_required_v. intros H. inv_result.
  eapply step_ok_step; [|apply step_ok_set_ds; simpl; by eapply drop_vars_same_except].
  eapply step_ok_step; [|apply step_ok_extend].
  eapply step_ok_step;
    [|eapply step_ok_mono; [| |eapply process_v_attributes_spec; eassumption];
      [set_solver|reflexivity]].
  eapply step_ok_step; [|apply step_ok_extend].
  apply step_ok_set_layer; [set_solver|by eapply concat_len_ok].
Qed.

Lemma process_optional_v_spec (x : string) (w w' : work) :
  process_optional_v strptime self x w = OK w' ->
  step_ok (x :: pva_names x) [x] w w'.
Proof.
  unfold process_optional_v. intros H. inv_result.
  eapply step_ok_step; [|apply step_ok_set_ds; simpl; apply drop_vars_if_present_same_except].
  eapply step_ok_step; [|apply step_ok_extend].
  eapply step_ok_step;
    [|eapply step_ok_mono; [| |eapply process_v_attributes_spec; eassumption];
      [set_solver|reflexivity]].
  eapply step_ok_step; [|apply step_ok_extend].
  apply step_ok_set_layer; [set_solver|by eapply concat_len_ok].
Qed.

Lemma process_optional_v_effect (x : string) (w w' : work) :
  x ∉ pva_names x ->
  process_optional_v strptime self x w = OK w' ->
  w_layers w' !! x = Some (Cube (slices_of x (w_ds w))).
Proof.
  unfold process_optional_v. intros Hx H. inv_result. simpl.
  apply concat_spec in Ha as [-> _].
  apply (process_v_attributes_spec []) in Ha0 as [[Hframe _] _].
  rewrite (Hframe x Hx). simpl. rewrite lookup_insert_eq.
  unfold slices_of. by rewrite <- list_fmap_compose.
Qed.

Lemma process_chip_size_height_spec (w w' : work) :
  process_chip_size_height self w = OK w' ->
  step_ok [DataVars.CHIP_SIZE_HEIGHT] [DataVars.CHIP_SIZE_HEIGHT] w w'.
Proof.
  unfold process_chip_size_height. intros H. inv_result.
  eapply step_ok_step; [|apply step_ok_set_ds; simpl; by eapply drop_vars_same_except].
  apply step_ok_set_layer; [set_solver|by eapply concat_len_ok].
Qed.

Lemma process_required_spec (x : string) (w w' : work) :
  process_required self x w = OK w' -> step_ok [x] [x] w w'.
Proof.
  unfold process_required. intros H. inv_result.
  eapply step_ok_step; [|apply step_ok_set_ds; simpl; by eapply drop_vars_same_except].
  apply step_ok_set_layer; [set_solver|by eapply concat_len_ok].
Qed.

Lemma process_img_pair_info_spec (names : list string) (w w' : work) :
  for_names (process_img_pair_info strptime self) names w = OK w' ->
  step_ok names [] w w'.
Proof.
  revert w. induction names as [|each names IH]; intros w H; simpl in H.
  - injection H as <-. apply step_ok_refl.
  - inv_result. unfold process_img_pair_info in Ha. inv_result.
    eapply step_ok_step.
    + apply step_ok_set_layer; [by left|by eapply attr_series_len_ok].
    + eapply step_ok_mono; [| |by apply IH]; set_solver.
Qed.

Lemma process_autorift_spec (w w' : work) :
  process_autorift ASV APF self w = OK w' -> step_ok [ASV] [] w w'.
Proof.
  unfold process_autorift. intros H. inv_result.
  eapply step_ok_step; [|apply step_ok_set_attr].
  apply step_ok_set_layer; [by left|by eapply series_len_ok].
Qed.

Lemma process_acquisition_date_spec (var_name old_var_name : string) (w w' : work) :
  process_acquisition_date strptime self var_name old_var_name w = OK w' ->
  step_ok [var_name] [] w w'.
Proof.
  unfold process_acquisition_date. intros H. inv_result.
  apply step_ok_set_layer; [by left|by eapply series_len_ok].
Qed.

Lemma process_time_standard_spec (names : list string) (w w' : work) :
  for_names process_time_standard names w = OK w' -> step_ok [] [] w w'.
Proof.
  revert w. induction names as [|each names IH]; intros w H; simpl in H.
  - injection H as <-. apply step_ok_refl.
  - inv_result. unfold process_time_standard in Ha. inv_result.
    eapply step_ok_step; [apply step_ok_set_attr|by apply IH].
Qed.

(** *** The phases of the unification *)

Lemma bind_ext {A B} (r : result A) (f g : A -> result B) :
  (forall a, f a = g a) -> r ≫= f = r ≫= g.
Proof. intros H. destruct r; simpl; [apply H|done]. Qed.

Lemma bind_OK_r {A} (r : result A) : r ≫= OK = r.
Proof. by destruct r. Qed.

Lemma unify_run_all (w : work) :
  unify strptime ASV APF AD1 AD2 TS1 TS2 self w = run_all unify_phases w.
Proof.
  unfold unify, unify_phases, metadata_phases. simpl.
  repeat (apply bind_ext; intros ?).
  symmetry. apply bind_OK_r.
Qed.

Lemma unify_phases_ok : Forall phase_ok unify_phases.
Proof.
  unfold unify_phases, metadata_phases.
  repeat apply Forall_cons_2; try apply Forall_nil_2; intros w w' H;
    unfold v_phase, optional_phase, optional_v_phase, required_v_phase, required_phase,
      chip_size_height_phase in *;
    cbn [run assigns drops] in *.
  - by apply process_v_spec.
  - by apply process_optional_spec.
  - by apply process_required_v_spec.
  - by apply process_required_v_spec.
  - by apply process_optional_v_spec.
  - by apply process_optional_v_spec.
  - by apply process_optional_v_spec.
  - by apply process_optional_v_spec.
  - by apply process_chip_size_height_spec.
  - by apply process_required_spec.
  - by apply process_required_spec.
  - by apply process_optional_spec.
  - by apply process_optional_spec.
  - by apply process_img_pair_info_spec.
  - by apply process_autorift_spec.
  - by eapply process_acquisition_date_spec.
  - by eapply process_acquisition_date_spec.
  - by eapply process_time_standard_spec.
Qed.

Lemma run_all_spec (ps : list phase) (w w' : work) :
  Forall phase_ok ps -> run_all ps w = OK w' ->
  step_ok (List.concat (assigns <$> ps)) (List.concat (drops <$> ps)) w w'.
Proof.
  intros Hok. revert w. induction Hok as [|p ps Hp _ IH]; intros w H; simpl in H.
  - injection H as <-. apply step_ok_refl.
  - inv_result. csimpl. eapply step_ok_trans; [by apply Hp|by apply IH].
Qed.

Lemma run_all_app (ps1 ps2 : list phase) (w w' : work) :
  run_all (ps1 ++ ps2) w = OK w' <->
  exists w1, run_all ps1 w = OK w1 /\ run_all ps2 w1 = OK w'.
Proof.
  revert w. induction ps1 as [|p ps1 IH]; intros w; simpl.
  - split; [by eauto|by intros (w1 & [= <-] & ?)].
  - rewrite bind_OK. split.
    + intros (a & Ha & (w1 & H1 & H2)%IH). exists w1. split; [|done].
      apply bind_OK. eauto.
    + intros (w1 & (a & Ha & H1)%bind_OK & H2). exists a. split; [done|].
      apply IH. eauto.
Qed.

End AssemblerFacts.

Section AssemblerResults.

Variable strptime : string -> string -> option Z.
Variable ASV APF AD1 AD2 TS1 TS2 : string.
Variable self : ITSCube.

Local Abbreviation n := (length (dates self)).
Local Abbreviation combine := (combine_layers strptime ASV APF AD1 AD2 TS1 TS2 self).
Local Abbreviation phases := (unify_phases strptime ASV APF AD1 AD2 TS1 TS2 self).

Lemma process_v_length (w w' : work) :
  process_v strptime self w = OK w' -> length (w_ds w) = n.
Proof.
  unfold process_v. intros H.
  apply bind_OK in H as (arrays & Harr & H).
  apply bind_OK in H as (v & Hv & _).
  apply for_each_length in Harr. apply concat_spec in Hv as [_ Hlen]. congruence.
Qed.

Lemma unify_length (w w' : work) :
  unify strptime ASV APF AD1 AD2 TS1 TS2 self w = OK w' -> length (w_ds w) = n.
Proof.
  unfold unify. intros H. apply bind_OK in H as (w1 & Hv & _).
  by eapply process_v_length.
Qed.

Lemma set_projection_spec (w w' : work) :
  set_projection w = OK w' ->
  w_ds w' = w_ds w /\
  exists attrs, w_layers w' = <[DataVars.MAPPING := Scalar attrs]> (w_layers w).
Proof.
  unfold set_projection. intros H. inv_result; simpl; eauto.
Qed.

(** What a successful call on a non-empty accumulator does. *)
Lemma combine_layers_OK (store store' : list store_op) (is_first_write : bool)
      (self' : ITSCube) :
  ds self ≠ [] -> combine store is_first_write = OK (self', store') ->
  exists (w0 w : work) (op : store_op),
    self' = clear_vars self /\ store' = store ++ [op] /\
    written_layers op = layers_dataset self w /\
    (if is_first_write then exists e, op = ToZarrCreate (layers_dataset self w) e
     else op = ToZarrAppend (layers_dataset self w)) /\
    length (urls self) = n /\
    w_ds w0 = ds self /\
    (forall k v, w_layers w0 !! k = Some v -> len_ok n v) /\
    run_all phases w0 = OK w.
Proof.
  intros Hne. unfold combine_layers.
  rewrite bool_decide_eq_false_2 by (by destruct (ds self)).
  intros H. apply bind_OK in H as (url_var & Hurl & H).
  apply bind_OK in H as (w0 & Hw0 & H).
  apply bind_OK in H as (w & Hw & H).
  apply bind_OK in H as (op & Hop & [= <- <-]).
  exists w0, w, op. split; [done|]. split; [done|].
  assert (length (urls self) = n) as Hurls.
  { unfold series, mid_date_coord in Hurl. case_bool_decide as Hl; [|discriminate].
    by rewrite length_fmap in Hl. }
  assert (w_ds w0 = ds self /\ forall k v, w_layers w0 !! k = Some v -> len_ok n v)
    as [Hds Hlen].
  { destruct is_first_write.
    - apply set_projection_spec in Hw0 as (-> & attrs & ->). split; [done|].
      intros k v. simpl. rewrite lookup_insert. case_decide.
      + intros [= <-]. by intros m.
      + rewrite lookup_singleton. case_decide; [|done]. intros [= <-].
        by eapply series_len_ok.
    - injection Hw0 as <-. split; [done|]. intros k v. simpl.
      rewrite lookup_singleton. case_decide; [|done]. intros [= <-].
      by eapply series_len_ok. }
  rewrite unify_run_all in Hw.
  destruct is_first_write.
  - apply bind_OK in Hop as (e & He & [= <-]). simpl. eauto 10.
  - injection Hop as <-. simpl. eauto 10.
Qed.

Lemma run_all_len_ok (w0 w : work) :
  (forall k v, w_layers w0 !! k = Some v -> len_ok n v) ->
  run_all phases w0 = OK w ->
  forall k v, w_layers w !! k = Some v -> len_ok n v.
Proof.
  intros H0 Hrun k v Hv.
  apply (run_all_spec self) in Hrun as [[_ Hw] _]; [|apply unify_phases_ok].
  destruct (Hw k v Hv) as [?|?]; [by eapply H0|done].
Qed.

(** A variable gathered with placeholders keeps, until the write, the
    slices gathered when it was processed. *)
Lemma run_all_keeps (pre post : list phase) (p : phase) (x : string) (w0 w : work) :
  phases = pre ++ p :: post ->
  (forall w1 w2, run p w1 = OK w2 -> w_layers w2 !! x = Some (Cube (slices_of self x (w_ds w1)))) ->
  x ∉ List.concat (drops <$> pre) ->
  x ∉ List.concat (assigns <$> post) ->
  run_all phases w0 = OK w ->
  w_layers w !! x = Some (Cube (slices_of self x (w_ds w0))).
Proof.
  intros Hsplit Heff Hpre Hpost Hrun.
  pose proof (unify_phases_ok strptime ASV APF AD1 AD2 TS1 TS2 self) as Hok.
  rewrite Hsplit in Hrun, Hok.
  apply Forall_app in Hok as [Hok_pre Hok_post].
  apply Forall_cons in Hok_post as [_ Hok_post].
  apply run_all_app in Hrun as (w1 & Hrun_pre & Hrun).
  simpl in Hrun. apply bind_OK in Hrun as (w2 & Hp & Hrun_post).
  apply (run_all_spec self) in Hrun_pre as [_ Hds]; [|done].
  apply (run_all_spec self) in Hrun_post as [[Hframe _] _]; [|done].
  rewrite (Hframe x Hpost), (Heff w1 w2 Hp).
  do 2 f_equal. by apply (slices_of_same_except self (List.concat (drops <$> pre))).
Qed.

End AssemblerResults.

(** ** The accumulator and the orchestrators *)

Lemma record_axis_length_snoc (store : list store_op) (op : store_op) :
  record_axis_length (store ++ [op]) =
  (record_axis_length store + length (coord_mid_date (written_layers op)))%nat.
Proof.
  unfold record_axis_length. rewrite fmap_app, sum_list_with_app. simpl. lia.
Qed.

Lemma logs_extend_refl (self : ITSCube) : logs_extend self self.
Proof. by repeat split. Qed.

Lemma logs_extend_trans (a b c : ITSCube) :
  logs_extend a b -> logs_extend b c -> logs_extend a c.
Proof.
  intros (H1 & H2 & H3) (H1' & H2' & H3'). repeat split.
  - by etrans.
  - by etrans.
  - intros code. etrans; [apply H3|apply H3'].
Qed.

Lemma same_logs_extend (a b : ITSCube) : same_logs a b -> logs_extend a b.
Proof. intros (H1 & H2 & H3). unfold logs_extend. by rewrite H1, H2, H3. Qed.

Lemma add_layer_target (self : ITSCube) (r : layer_result) :
  target (add_layer self r) = target self.
Proof. unfold add_layer. destruct (data r); [done|]. by destruct (is_empty r). Qed.

Lemma add_layer_num_urls (self : ITSCube) (r : layer_result) :
  num_urls_from_api (add_layer self r) = num_urls_from_api self.
Proof. unfold add_layer. destruct (data r); [done|]. by destruct (is_empty r). Qed.

Lemma add_layer_aligned (self : ITSCube) (r : layer_result) :
  aligned self -> aligned (add_layer self r).
Proof.
  unfold aligned, add_layer. intros [H1 H2]. destruct (data r); simpl.
  - rewrite !length_app. simpl. lia.
  - by destruct (is_empty r).
Qed.

Lemma add_layer_length (self : ITSCube) (r : layer_result) :
  length (ds (add_layer self r)) =
  (length (ds self) + length (filter accepted [r]))%nat.
Proof.
  unfold add_layer, accepted. destruct (data r) as [d|] eqn:Hd.
  - rewrite filter_cons_True by (by rewrite Hd). simpl. rewrite length_app. simpl. lia.
  - rewrite filter_cons_False by (rewrite Hd; by intros [? ?]).
    destruct (is_empty r); simpl; lia.
Qed.

Lemma add_layer_logs (self : ITSCube) (r : layer_result) :
  logs_extend self (add_layer self r).
Proof.
  unfold add_layer. destruct (data r); [by repeat split|].
  destruct (is_empty r); unfold logs_extend; simpl.
  - split; [by apply prefix_app_r|]. split; [done|]. done.
  - split; [done|]. split; [done|]. intros code.
    destruct (decide (layer_projection r = code)) as [->|Hne].
    + rewrite lookup_insert_eq. simpl. by apply prefix_app_r.
    + by rewrite lookup_insert_ne.
Qed.

Lemma foldl_add_layer (results : list layer_result) (self : ITSCube) :
  let self' := foldl add_layer self results in
  target self' = target self /\
  num_urls_from_api self' = num_urls_from_api self /\
  (aligned self -> aligned self') /\
  length (ds self') = (length (ds self) + length (filter accepted results))%nat /\
  logs_extend self self'.
Proof.
  revert self. induction results as [|r results IH]; intros self; simpl.
  - split_and!; [done|done|done|lia|apply logs_extend_refl].
  - destruct (IH (add_layer self r)) as (Ht & Hn & Ha & Hl & Hlog).
    rewrite Ht, Hn, Hl, add_layer_target, add_layer_num_urls, add_layer_length.
    split_and!; [done|done| | |].
    + intros. by apply Ha, add_layer_aligned.
    + change (r :: results) with ([r] ++ results). rewrite filter_app, length_app. lia.
    + eapply logs_extend_trans; [apply add_layer_logs|done].
Qed.

Lemma for_each_ext {A B} (f g : A -> result B) (l : list A) :
  (forall a, f a = g a) -> for_each f l = for_each g l.
Proof.
  intros H. induction l as [|a l IH]; simpl; [done|]. by rewrite H, IH.
Qed.

Lemma for_each_app {A B} (f : A -> result B) (l1 l2 : list A) (r1 r2 : list B) :
  for_each f l1 = OK r1 -> for_each f l2 = OK r2 ->
  for_each f (l1 ++ l2) = OK (r1 ++ r2).
Proof.
  revert r1. induction l1 as [|a l1 IH]; intros r1 H1 H2; simpl in *.
  - by injection H1 as <-.
  - inv_result. rewrite Ha. simpl. by rewrite (IH _ Ha0 H2).
Qed.

Section OrchestratorFacts.

Variable E : Environment.

Lemma read_dataset_target (a b : ITSCube) (u : string) :
  target a = target b -> read_dataset E a u = read_dataset E b u.
Proof.
  unfold target. intros [= Hp Hx Hx' Hy Hy']. unfold read_dataset, preprocess_dataset.
  by rewrite Hp, Hx, Hx', Hy, Hy'.
Qed.

(** The effect of [combine_layers] on the cube and on the store. *)
Lemma combine_layers_effect (self self' : ITSCube) (store store' : list store_op)
      (is_first_write : bool) :
  run_combine_layers E self store is_first_write = OK (self', store') ->
  target self' = target self /\
  num_urls_from_api self' = num_urls_from_api self /\
  same_logs self self' /\
  ds self' = [] /\
  (aligned self -> dates self' = [] /\ urls self' = []) /\
  (Forall batch_uniform store -> Forall batch_uniform store') /\
  record_axis_length store' = (record_axis_length store + length (ds self))%nat /\
  (ds self = [] -> store' = store) /\
  (ds self ≠ [] -> exists l,
     store' = store ++ [if is_first_write
                        then ToZarrCreate l.1 l.2 else ToZarrAppend l.1]).
Proof.
  unfold run_combine_layers. intros H.
  destruct (decide (ds self = [])) as [Hemp|Hne].
  - unfold combine_layers in H. rewrite Hemp in H. simpl in H.
    injection H as <- <-. simpl. rewrite Hemp.
    split_and!; try done; try (simpl; lia).
    intros [H1 H2]. rewrite Hemp in H1. simpl in H1.
    split; apply nil_length_inv; lia.
  - apply combine_layers_OK in H as (w0 & w & op & -> & -> & Hop & Hkind & Hurls & Hds & Hlen & Hrun);
      [|done].
    assert (length (ds self) = length (dates self)) as Hn.
    { rewrite <- Hds. rewrite <- unify_run_all in Hrun. by eapply unify_length. }
    split_and!; try done.
    + intros Hall. apply Forall_app. split; [done|]. apply Forall_singleton.
      intros name v m Hv Hm. rewrite Hop in *. simpl in *.
      by eapply (run_all_len_ok _ _ _ _ _ _ _ _ w0 w Hlen Hrun name v Hv).
    + rewrite record_axis_length_snoc, Hop. simpl. lia.
    + intros _. destruct is_first_write.
      * destruct Hkind as [e ->]. by exists (layers_dataset self w, e).
      * rewrite Hkind. by exists (layers_dataset self w, ∅).
Qed.

Lemma well_started_write (store : list store_op) (is_first_write : bool)
      (l : LayersDataset * gmap string (gmap string value)) :
  well_started store is_first_write ->
  well_started (store ++ [if is_first_write then ToZarrCreate l.1 l.2
                          else ToZarrAppend l.1]) false.
Proof.
  destruct is_first_write; simpl.
  - intros ->. exists l.1, l.2, []. by split.
  - intros (l0 & e & rest & -> & Hrest). exists l0, e, (rest ++ [ToZarrAppend l.1]).
    split; [done|]. apply Forall_app. split; [done|]. apply Forall_singleton. eauto.
Qed.

(** The loop of the sequential run. *)
Lemma create_loop_spec (found_urls : list string) (self self' : ITSCube)
      (store store' : list store_op) (flag flag' : bool) :
  create_loop E found_urls (self, store, flag) = OK (self', store', flag') ->
  aligned self -> Forall batch_uniform store ->
  exists results,
    for_each (read_dataset E self) found_urls = OK results /\
    aligned self' /\ target self' = target self /\
    num_urls_from_api self' = num_urls_from_api self /\
    Forall batch_uniform store' /\
    (record_axis_length store' + length (ds self') =
     record_axis_length store + length (ds self) + length (filter accepted results))%nat /\
    logs_extend self self' /\
    ((0 < NUM_GRANULES_TO_WRITE E)%nat -> well_started store flag ->
     well_started store' flag').
Proof.
  revert self store flag.
  induction found_urls as [|u found_urls IH]; intros self store flag H Hal Hall.
  - simpl in H. injection H as <- <- <-. exists []. simpl.
    split_and!; try done; try lia; try apply logs_extend_refl.
  - simpl in H. apply bind_OK in H as (r & Hr & H).
    apply bind_OK in H as ([[self1 store1] flag1] & Hstep & H).
    assert (aligned self1 /\ target self1 = target self /\
            num_urls_from_api self1 = num_urls_from_api self /\
            Forall batch_uniform store1 /\
            (record_axis_length store1 + length (ds self1) =
             record_axis_length store + length (ds self) + length (filter accepted [r]))%nat /\
            logs_extend self self1 /\
            ((0 < NUM_GRANULES_TO_WRITE E)%nat -> well_started store flag ->
             well_started store1 flag1))
      as (Hal1 & Ht1 & Hn1 & Hall1 & Hrec1 & Hlog1 & Hws1).
    { pose proof (add_layer_aligned self r Hal) as Hal'.
      case_bool_decide as Hfull.
      - apply bind_OK in Hstep as ([self2 store2] & Hc & [= <- <- <-]).
        apply combine_layers_effect in Hc
          as (Ht & Hn & Hlogs & Hds & Hclr & Hu & Hrec & Hsame & Hwr).
        simpl. destruct (Hclr Hal') as [Hd Hurl].
        split_and!.
        + split; [by rewrite Hds, Hd|by rewrite Hurl, Hd].
        + by rewrite Ht, add_layer_target.
        + by rewrite Hn, add_layer_num_urls.
        + by apply Hu.
        + rewrite Hrec, Hds, add_layer_length. simpl. lia.
        + eapply logs_extend_trans; [apply add_layer_logs|by apply same_logs_extend].
        + intros Hpos Hws.
          assert (ds (add_layer self r) ≠ []) as Hne.
          { destruct Hal' as [Hl1 Hl2]. intros Hnil. rewrite Hnil in Hl1. simpl in Hl1. lia. }
          destruct (Hwr Hne) as [l ->]. by apply well_started_write.
      - injection Hstep as <- <- <-. split_and!; try done.
        + apply add_layer_target.
        + apply add_layer_num_urls.
        + rewrite add_layer_length. lia.
        + apply add_layer_logs. }
    destruct (IH _ _ _ H Hal1 Hall1) as (results & Hres & Hal' & Ht' & Hn' & Hall' & Hrec' & Hlog' & Hws').
    exists (r :: results). split.
    { simpl. rewrite Hr. simpl.
      rewrite (for_each_ext _ (read_dataset E self1)).
      - by rewrite Hres.
      - intros u'. symmetry. by apply read_dataset_target. }
    split_and!; try done.
    + by rewrite Ht'.
    + by rewrite Hn'.
    + change (r :: results) with ([r] ++ results). rewrite filter_app, length_app. lia.
    + by eapply logs_extend_trans.
    + intros Hpos Hws. by apply Hws', Hws1.
Qed.

Lemma create_loop_logs (found_urls : list string) (st st' : ITSCube * list store_op * bool) :
  create_loop E found_urls st = OK st' -> logs_extend st.1.1 st'.1.1.
Proof.
  revert st. induction found_urls as [|u found_urls IH]; intros [[self store] flag] H.
  - simpl in H. injection H as <-. apply logs_extend_refl.
  - simpl in H. apply bind_OK in H as (r & Hr & H).
    apply bind_OK in H as (st1 & Hstep & H).
    eapply logs_extend_trans; [|by apply IH]. simpl.
    eapply logs_extend_trans; [apply add_layer_logs|].
    case_bool_decide.
    + apply bind_OK in Hstep as ([self2 store2] & Hc & [= <-]).
      apply combine_layers_effect in Hc as (_ & _ & Hlogs & _). simpl.
      by apply same_logs_extend.
    + injection Hstep as <-. apply logs_extend_refl.
Qed.

(** The loop of the parallel run. *)
Lemma create_parallel_loop_spec (found_urls : list string) (fuel : nat)
      (self self' : ITSCube) (store store' : list store_op) (flag : bool)
      (start num_to_process : nat) :
  create_parallel_loop E fuel found_urls self store flag start num_to_process
    = Some (OK (self', store')) ->
  aligned self -> ds self = [] -> Forall batch_uniform store ->
  (start + num_to_process = length found_urls)%nat ->
  exists results,
    for_each (read_dataset E self) (drop start found_urls) = OK results /\
    target self' = target self /\
    Forall batch_uniform store' /\
    record_axis_length store' =
      (record_axis_length store + length (filter accepted results))%nat /\
    logs_extend self self'.
Proof.
  revert self store flag start num_to_process.
  induction fuel as [|fuel IH]; intros self store flag start ntp H Hal Hds Hall Hlen.
  - simpl in H. case_bool_decide as Hz; [|discriminate]. injection H as <- <-.
    exists []. rewrite drop_ge by lia. simpl.
    split_and!; try done; try lia; try apply logs_extend_refl.
  - simpl in H. case_bool_decide as Hz.
    { injection H as <- <-. exists []. rewrite drop_ge by lia. simpl.
      split_and!; try done; try lia; try apply logs_extend_refl. }
    set (num_tasks := if bool_decide (NUM_GRANULES_TO_WRITE E < ntp)%nat
                      then NUM_GRANULES_TO_WRITE E else ntp) in *.
    assert (num_tasks <= ntp)%nat as Hle.
    { unfold num_tasks.
      destruct (bool_decide (NUM_GRANULES_TO_WRITE E < ntp)%nat) eqn:Hb;
        [apply bool_decide_eq_true in Hb|]; lia. }
    destruct (for_each (read_dataset E self) (take num_tasks (drop start found_urls)))
      as [results1|e] eqn:Hres1; [|discriminate].
    destruct (foldl_add_layer results1 self) as (Ht1 & Hn1 & Hal1 & Hl1 & Hlog1).
    set (self1 := foldl add_layer self results1) in *.
    destruct (run_combine_layers E self1 store flag) as [[self2 store2]|e] eqn:Hc;
      [|discriminate].
    destruct (format_stats self2) as [[]|e]; [|discriminate].
    apply combine_layers_effect in Hc
      as (Ht2 & Hn2 & Hlogs2 & Hds2 & Hclr2 & Hu2 & Hrec2 & _ & _).
    destruct (Hclr2 (Hal1 Hal)) as [Hd2 Hurl2].
    apply IH in H as (results2 & Hres2 & Ht' & Hall' & Hrec' & Hlog').
    + exists (results1 ++ results2). split_and!.
      * rewrite <- (take_drop num_tasks (drop start found_urls)), drop_drop.
        apply for_each_app; [done|].
        rewrite (for_each_ext _ (read_dataset E self2)); [done|].
        intros u. apply read_dataset_target. by rewrite Ht2, Ht1.
      * by rewrite Ht', Ht2, Ht1.
      * done.
      * rewrite Hrec', Hrec2, Hl1, Hds, filter_app, length_app. simpl. lia.
      * eapply logs_extend_trans; [exact Hlog1|].
        eapply logs_extend_trans; [by apply same_logs_extend|done].
    + split; [by rewrite Hds2, Hd2|by rewrite Hurl2, Hd2].
    + done.
    + by apply Hu2.
    + lia.
Qed.

(** With a positive batch size the parallel loop ends within as many
    iterations as there are URLs left. *)
Lemma create_parallel_loop_terminates (found_urls : list string) (fuel : nat)
      (self : ITSCube) (store : list store_op) (flag : bool) (start num_to_process : nat) :
  (0 < NUM_GRANULES_TO_WRITE E)%nat -> (num_to_process <= fuel)%nat ->
  is_Some (create_parallel_loop E fuel found_urls self store flag start num_to_process).
Proof.
  intros Hpos. revert self store flag start num_to_process.
  induction fuel as [|fuel IH]; intros self store flag start ntp Hle; simpl.
  - rewrite bool_decide_eq_true_2 by lia. eauto.
  - case_bool_decide as Hz; [eauto|].
    destruct (for_each _ _) as [results|e]; [|eauto].
    destruct (run_combine_layers _ _ _ _) as [[self2 store2]|e]; [|eauto].
    destruct (format_stats self2) as [[]|e]; [|eauto].
    apply IH.
    destruct (bool_decide (NUM_GRANULES_TO_WRITE E < ntp)%nat) eqn:Hb;
      [apply bool_decide_eq_true in Hb|]; lia.
Qed.

End OrchestratorFacts.

(** ** The assembler and the orchestrators: the claims *)

Section RunClaims.

Variable E : Environment.

Local Abbreviation run_counts := (run_counts E).

Lemma clear_aligned (self : ITSCube) : aligned (clear self).
Proof. by split. Qed.

Lemma request_granules_effect (self self' : ITSCube) (api_urls found_urls : list string)
      (num_granules : option nat) :
  request_granules E self api_urls num_granules = OK (self', found_urls) ->
  target self' = target self /\ ds self' = ds self /\
  dates self' = dates self /\ urls self' = urls self.
Proof.
  unfold request_granules, skip_duplicate_granules_method. intros H.
  case_bool_decide; [by injection H as <- <-|].
  apply bind_OK in H as (r & _ & [= <- <-]). done.
Qed.

Lemma persisted_length_uniform (name : string) (store : list store_op) :
  Forall batch_uniform store -> Forall (has_variable name) store ->
  persisted_length name store = record_axis_length store.
Proof.
  unfold persisted_length, record_axis_length.
  induction store as [|op store IH]; intros Hu Hv; [done|].
  apply Forall_cons in Hu as [Hop Hu]. apply Forall_cons in Hv as [Hvar Hv].
  csimpl. rewrite (IH Hu Hv). f_equal.
  unfold variable_length. destruct Hvar as [m Hm]. rewrite Hm. simpl.
  destruct (data_vars (written_layers op) !! name) as [v|] eqn:Hlook; [|done].
  by apply (Hop name v m).
Qed.

Lemma create_counts (self self' : ITSCube) (api_urls found_urls : list string)
      (num_granules : option nat) (store : list store_op) :
  create E self api_urls num_granules = OK (found_urls, self', store) ->
  run_counts self found_urls store.
Proof.
  unfold create. intros H.
  apply bind_OK in H as ([self1 found] & Hreq & H).
  apply request_granules_effect in Hreq as (Ht1 & Hds1 & Hdates1 & Hurls1).
  simpl in Hds1, Hdates1, Hurls1.
  assert (aligned self1) as Hal1 by (split; by rewrite ?Hds1, ?Hdates1, ?Hurls1).
  assert (forall u, read_dataset E self1 u = read_dataset E self u) as Hread.
  { intros u. apply read_dataset_target. by rewrite Ht1. }
  case_bool_decide as Hempty.
  { injection H as <- <- <-. split; [done|]. exists [].
    apply nil_length_inv in Hempty as ->. done. }
  assert (forall store results,
            Forall batch_uniform store ->
            for_each (read_dataset E self) found = OK results ->
            record_axis_length store = length (filter accepted results) ->
            run_counts self found store) as Hfinish.
  { intros st rs Hu Hrs Hrec. split; [done|]. exists rs. split; [done|]. split; [done|].
    intros name Hname. by rewrite persisted_length_uniform. }
  apply bind_OK in H as ([[self2 store2] flag2] & Hloop & H).
  apply bind_OK in H as ([self3 store3] & Htail & H).
  apply bind_OK in H as (_ & _ & [= <- <- <-]).
  apply create_loop_spec in Hloop
    as (results & Hres & Hal2 & _ & _ & Hall2 & Hrec2 & _); [|done|done].
  rewrite Hds1 in Hrec2. simpl in Hrec2.
  rewrite (for_each_ext _ _ _ Hread) in Hres.
  case_bool_decide as Hleft.
  - apply combine_layers_effect in Htail as (_ & _ & _ & _ & _ & Hu & Hrec & _).
    apply (Hfinish _ results); [by apply Hu|done|lia].
  - injection Htail as <- <-. apply (Hfinish _ results); [done|done|].
    destruct Hal2 as [Hl1 Hl2].
    assert (length (urls self2) = 0%nat) by (destruct (length (urls self2)); [done|lia]).
    lia.
Qed.

Lemma create_parallel_counts (self self' : ITSCube) (api_urls found_urls : list string)
      (num_granules : option nat) (store : list store_op) :
  create_parallel E self api_urls num_granules = Some (OK (found_urls, self', store)) ->
  run_counts self found_urls store.
Proof.
  unfold create_parallel. intros H.
  destruct (request_granules E (clear self) api_urls num_granules)
    as [[self1 found]|e] eqn:Hreq; [|discriminate].
  apply request_granules_effect in Hreq as (Ht1 & Hds1 & Hdates1 & Hurls1).
  simpl in Hds1, Hdates1, Hurls1.
  assert (aligned self1) as Hal1 by (split; by rewrite ?Hds1, ?Hdates1, ?Hurls1).
  assert (forall u, read_dataset E self1 u = read_dataset E self u) as Hread.
  { intros u. apply read_dataset_target. by rewrite Ht1. }
  case_bool_decide as Hempty.
  { injection H as <- <- <-. split; [done|]. exists [].
    apply nil_length_inv in Hempty as ->. done. }
  destruct (create_parallel_loop E (length found) found self1 [] true 0 (length found))
    as [[[self2 store2]|e]|] eqn:Hloop; [|discriminate|discriminate].
  injection H as <- <- <-.
  apply create_parallel_loop_spec in Hloop
    as (results & Hres & _ & Hall & Hrec & _); [|done|done|done|done].
  rewrite drop_0, (for_each_ext _ _ _ Hread) in Hres.
  split; [done|]. exists results. split; [done|]. simpl in Hrec. split; [lia|].
  intros name Hname. rewrite persisted_length_uniform by done. lia.
Qed.

(** Deduplication sets the duplicate log and leaves the two other logs. *)
Lemma skip_duplicate_granules_method_logs (self self' : ITSCube)
      (found_urls granules : list string) :
  skip_duplicate_granules_method E self found_urls = OK (self', granules) ->
  skipped_empty_granules self' = skipped_empty_granules self /\
  skipped_proj_granules self' = skipped_proj_granules self /\
  (skipped_double_granules self = [] -> logs_extend self self').
Proof.
  unfold skip_duplicate_granules_method. intros H.
  apply bind_OK in H as (r & _ & [= <- <-]). simpl.
  split; [done|]. split; [done|]. intros Hnil.
  unfold logs_extend. simpl. rewrite Hnil.
  split; [done|]. split; [apply prefix_nil|done].
Qed.

(** From the deduplication to the end of a sequential run the rejection logs
    are only extended. *)
Lemma create_logs (self self' : ITSCube) (api_urls found_urls : list string)
      (num_granules : option nat) (store : list store_op) :
  create E self api_urls num_granules = OK (found_urls, self', store) ->
  exists self1,
    request_granules E (clear self) api_urls num_granules = OK (self1, found_urls) /\
    logs_extend self1 self'.
Proof.
  unfold create. intros H.
  apply bind_OK in H as ([self1 found] & Hreq & H).
  case_bool_decide as Hempty.
  { injection H as <- <- <-. exists self1. split; [done|]. apply logs_extend_refl. }
  apply bind_OK in H as ([[self2 store2] flag2] & Hloop & H).
  apply bind_OK in H as ([self3 store3] & Htail & H).
  apply bind_OK in H as (_ & _ & [= <- <- <-]).
  exists self1. split; [done|].
  apply create_loop_logs in Hloop. simpl in Hloop.
  eapply logs_extend_trans; [exact Hloop|].
  case_bool_decide as Hleft.
  - apply combine_layers_effect in Htail as (_ & _ & Hlogs & _).
    by apply same_logs_extend.
  - injection Htail as <- <-. apply logs_extend_refl.
Qed.

(** The same for a parallel run. *)
Lemma create_parallel_logs (self self' : ITSCube) (api_urls found_urls : list string)
      (num_granules : option nat) (store : list store_op) :
  create_parallel E self api_urls num_granules = Some (OK (found_urls, self', store)) ->
  exists self1,
    request_granules E (clear self) api_urls num_granules = OK (self1, found_urls) /\
    logs_extend self1 self'.
Proof.
  unfold create_parallel. intros H.
  destruct (request_granules E (clear self) api_urls num_granules)
    as [[self1 found]|e] eqn:Hreq; [|discriminate].
  pose proof Hreq as Heff.
  apply request_granules_effect in Heff as (Ht1 & Hds1 & Hdates1 & Hurls1).
  simpl in Hds1, Hdates1, Hurls1.
  assert (aligned self1) as Hal1 by (split; by rewrite ?Hds1, ?Hdates1, ?Hurls1).
  case_bool_decide as Hempty.
  { injection H as <- <- <-. exists self1. split; [done|]. apply logs_extend_refl. }
  destruct (create_parallel_loop E (length found) found self1 [] true 0 (length found))
    as [[[self2 store2]|e]|] eqn:Hloop; [|discriminate|discriminate].
  injection H as <- <- <-. exists self1. split; [done|].
  by apply create_parallel_loop_spec in Hloop as (_ & _ & _ & _ & _ & ?).
Qed.

(** With a positive batch size, the sequential run starts the store
    properly: its first write, if any, is the creating call and every later
    one appends. *)
Lemma create_starts_store (self self' : ITSCube) (api_urls found_urls : list string)
      (num_granules : option nat) (store : list store_op) :
  (0 < NUM_GRANULES_TO_WRITE E)%nat ->
  create E self api_urls num_granules = OK (found_urls, self', store) ->
  exists is_first_write, well_started store is_first_write.
Proof.
  unfold create. intros Hpos H.
  apply bind_OK in H as ([self1 found] & Hreq & H).
  apply request_granules_effect in Hreq as (Ht1 & Hds1 & Hdates1 & Hurls1).
  simpl in Hds1, Hdates1, Hurls1.
  assert (aligned self1) as Hal1 by (split; by rewrite ?Hds1, ?Hdates1, ?Hurls1).
  case_bool_decide as Hempty.
  { injection H as <- <- <-. by exists true. }
  apply bind_OK in H as ([[self2 store2] flag2] & Hloop & H).
  apply bind_OK in H as ([self3 store3] & Htail & H).
  apply bind_OK in H as (_ & _ & [= <- <- <-]).
  apply create_loop_spec in Hloop
    as (results & _ & Hal2 & _ & _ & _ & _ & _ & Hws); [|done|done].
  specialize (Hws Hpos eq_refl).
  case_bool_decide as Hleft.
  - apply combine_layers_effect in Htail as (_ & _ & _ & _ & _ & _ & _ & _ & Hwr).
    destruct Hwr as [l ->].
    + intros Hnil. destruct Hal2 as [Hl1 Hl2]. rewrite Hnil in Hl1. simpl in Hl1. lia.
    + exists false. by apply well_started_write.
  - injection Htail as <- <-. by exists flag2.
Qed.


End RunClaims.

Section AssemblerClaims.

Variable strptime : string -> string -> option Z.
Variable ASV APF AD1 AD2 TS1 TS2 : string.
Variable self : ITSCube.

Local Abbreviation combine := (combine_layers strptime ASV APF AD1 AD2 TS1 TS2 self).
Local Abbreviation phases := (unify_phases strptime ASV APF AD1 AD2 TS1 TS2 self).

Ltac in_names :=
  cbv; repeat first [apply list_elem_of_here | apply list_elem_of_further].

Ltac not_in_names :=
  let Hin := fresh "Hin" in
  intros Hin; cbv in Hin;
  repeat (apply elem_of_cons in Hin as [Hin|Hin];
          [first [discriminate Hin
                 | match goal with
                   | H : _ ∉ optional_variables |- _ =>
                       apply H; rewrite <- Hin; in_names
                   end]|]);
  by apply elem_of_nil in Hin.

Lemma optional_kept (x : string) (w0 w : work) :
  x ∈ optional_variables ->
  ASV ∉ optional_variables -> AD1 ∉ optional_variables -> AD2 ∉ optional_variables ->
  run_all phases w0 = OK w ->
  w_layers w !! x = Some (Cube (slices_of self x (w_ds w0))).
Proof.
  intros Hx HASV HAD1 HAD2 Hrun. unfold optional_variables in Hx.
  repeat (apply elem_of_cons in Hx as [->|Hx]); [..|by apply elem_of_nil in Hx].
  - eapply (run_all_keeps _ _ _ _ _ _ _ _ (take 1 phases) (drop 2 phases));
      [reflexivity| | | |exact Hrun].
    + intros w1 w2. apply process_optional_effect.
    + not_in_names.
    + not_in_names.
  - eapply (run_all_keeps _ _ _ _ _ _ _ _ (take 4 phases) (drop 5 phases));
      [reflexivity| | | |exact Hrun].
    + intros w1 w2. apply process_optional_v_effect. not_in_names.
    + not_in_names.
    + not_in_names.
  - eapply (run_all_keeps _ _ _ _ _ _ _ _ (take 5 phases) (drop 6 phases));
      [reflexivity| | | |exact Hrun].
    + intros w1 w2. apply process_optional_v_effect. not_in_names.
    + not_in_names.
    + not_in_names.
  - eapply (run_all_keeps _ _ _ _ _ _ _ _ (take 6 phases) (drop 7 phases));
      [reflexivity| | | |exact Hrun].
    + intros w1 w2. apply process_optional_v_effect. not_in_names.
    + not_in_names.
    + not_in_names.
  - eapply (run_all_keeps _ _ _ _ _ _ _ _ (take 7 phases) (drop 8 phases));
      [reflexivity| | | |exact Hrun].
    + intros w1 w2. apply process_optional_v_effect. not_in_names.
    + not_in_names.
    + not_in_names.
  - eapply (run_all_keeps _ _ _ _ _ _ _ _ (take 11 phases) (drop 12 phases));
      [reflexivity| | | |exact Hrun].
    + intros w1 w2. apply process_optional_effect.
    + not_in_names.
    + not_in_names.
  - eapply (run_all_keeps _ _ _ _ _ _ _ _ (take 12 phases) (drop 13 phases));
      [reflexivity| | | |exact Hrun].
    + intros w1 w2. apply process_optional_effect.
    + not_in_names.
    + not_in_names.
Qed.



(** C10. Called on an empty accumulator, [combine_layers] returns without
    raising and without writing: the store is unchanged, and so are the
    sequences of the accumulator and the rejection logs; only [self.layers]
    is reset (to the empty dict). *)
Theorem combine_layers_empty (store : list store_op) (is_first_write : bool) :
  ds self = [] ->
  exists self',
    combine store is_first_write = OK (self', store) /\
    ds self' = ds self /\ dates self' = dates self /\ urls self' = urls self /\
    same_logs self self' /\
    num_urls_from_api self' = num_urls_from_api self /\
    layers self' = LayersEmptyDict.
Proof.
  intros Hemp. eexists. unfold combine_layers. rewrite Hemp. simpl.
  split; [reflexivity|]. simpl. by repeat split.
Qed.

End AssemblerClaims.

(** ** The normaliser: the claims *)

Section NormalizerClaims.

Variable strptime : string -> string -> option Z.
Variable int_of_str : string -> option Z.
Variable CELL_SIZE : Z.

Local Abbreviation preprocess := (preprocess_dataset strptime int_of_str CELL_SIZE).

Lemma bind_Raise {A B} (r : result A) (f : A -> result B) (e : exn) :
  r ≫= f = Raise e -> r = Raise e \/ exists a, r = OK a /\ f a = Raise e.
Proof. destruct r as [a|e']; simpl; [by eauto|]. intros [= ->]. by left. Qed.

Ltac raise_step H :=
  first
    [ discriminate H
    | apply bind_Raise in H as [H|(? & ? & H)]
    | match type of H with
      | (if ?b then _ else _) = Raise _ => destruct b eqn:?
      | of_option _ ?o = Raise _ => destruct o; simpl in H
      | py_int _ ?v = Raise _ =>
          unfold py_int in H; destruct v as [| | |[|? [|? ?]]|]; simpl in H
      | ds_getattr _ _ = Raise _ => unfold ds_getattr in H
      | da_getattr _ _ = Raise _ => unfold da_getattr in H
      | match ?x with _ => _ end = Raise _ => destruct x eqn:?
      | Raise _ = Raise _ => injection H as H; simpl in H; discriminate H
      end ].

(** C6 (amended). The normaliser reads the source projection from the
    [mapping] variable only (its [spatial_epsg] attribute), and raises the
    unsupported-projection error exactly when [mapping] is absent, whether or
    not [UTM_Projection] or [Polar_Stereographic] is present. *)
Theorem preprocess_dataset_projection (self : ITSCube) (d : Dataset) (ds_url : string) :
  (preprocess self d ds_url = Raise (unsupported_projection ds_url) <->
   ds_vars d !! DataVars.MAPPING = None) /\
  (forall r, preprocess self d ds_url = OK r ->
     exists mapping v,
       ds_vars d !! DataVars.MAPPING = Some mapping /\
       da_attrs mapping !! "spatial_epsg" = Some v /\
       py_int int_of_str v = OK (layer_projection r)).
Proof.
  split; [split|].
  - intros H. destruct (ds_vars d !! DataVars.MAPPING) as [m|] eqn:Hm; [|done].
    exfalso. unfold preprocess_dataset in H.
    unfold unsupported_projection, unexpected_cell_size in H.
    apply bind_Raise in H as [H|(v & Hv & H)].
    + case_bool_decide as Hb; [|apply Hb; rewrite Hm; eauto].
      repeat raise_step H.
    + repeat raise_step H.
  - intros Hm. unfold preprocess_dataset. by rewrite Hm.
  - intros r H. unfold preprocess_dataset in H.
    destruct (ds_vars d !! DataVars.MAPPING) as [m|] eqn:Hm; [|discriminate].
    unfold ds_getattr in H. rewrite Hm in H. simpl in H.
    destruct (da_attrs m !! "spatial_epsg") as [v|] eqn:Hv;
      unfold da_getattr in H; rewrite Hv in H; [|discriminate].
    simpl in H. exists m, v. split; [done|]. split; [done|].
    destruct (py_int int_of_str v) as [epsg|e]; [|discriminate]. simpl in H.
    f_equal. case_bool_decide; inv_result; done.
Qed.

End NormalizerClaims.

(** ** Concrete runs: witnesses and counterexamples *)

(** The spec's example: of two identifiers of one pair processed on
    2020-01-01 and on 2020-02-01, only the second is kept and the first is
    among the duplicate rejections, whatever their order. *)
Example dedup_keeps_newer :
  skip_duplicate_granules strptime_padded strftime_padded [granule_jan; granule_feb]
    = OK ([granule_feb], [granule_jan]) /\
  skip_duplicate_granules strptime_padded strftime_padded [granule_feb; granule_jan]
    = OK ([granule_feb], [granule_jan]).
Proof. split; vm_compute; reflexivity. Qed.

Lemma skip_duplicate_granules_idempotent_witness :
  skip_duplicate_granules strptime_padded strftime_padded
    [granule_mar; url_radar; url_foreign]
  = OK ([granule_mar; url_radar; url_foreign], []).
Proof.
  apply (skip_duplicate_granules_idempotent strptime_padded strftime_padded
           [granule_jan; url_radar; granule_feb; url_foreign; granule_mar]
           [granule_mar; url_radar; url_foreign] [granule_jan; granule_feb]).
  vm_compute. reflexivity.
Defined.

(** C3, as stated, fails when the incoming identifier has exactly the
    processing dates of a kept one: the kept identifier has both dates at
    most the incoming ones, yet it is neither replaced nor recorded. *)
Lemma equal_dates_not_replaced :
  get_tokens_from_filename strptime_padded granule_jan = OK tokens_jan /\
  get_tokens_from_filename strptime_padded granule_jan_copy = OK tokens_jan /\
  granule_id strftime_padded tokens_jan = example_key /\
  dedup_step strptime_padded strftime_padded
             ([(example_key, [granule_jan])], []) granule_jan_copy
  = OK ([(example_key, [granule_jan; granule_jan_copy])], []).
Proof. split_and!; vm_compute; reflexivity. Qed.

Lemma dedup_step_replaces_witness :
  exists removed remaining,
    (forall f, f ∈ removed <->
               f ∈ [granule_jan] /\ superseded_by strptime_padded tokens_feb f) /\
    (forall f, f ∈ remaining <->
               f ∈ [granule_jan] /\ ~ superseded_by strptime_padded tokens_feb f) /\
    dedup_step strptime_padded strftime_padded
               ([(example_key, [granule_jan])], []) granule_feb
    = OK (if bool_decide (removed ≠ [])
          then (dict_set (granule_id strftime_padded tokens_feb) (remaining ++ [granule_feb])
                         [(example_key, [granule_jan])], [] ++ removed)
          else ([(example_key, [granule_jan])], [] ++ [granule_feb])).
Proof.
  apply (dedup_step_replaces strptime_padded strftime_padded
           [(example_key, [granule_jan])] [] [granule_jan] granule_feb tokens_feb).
  - vm_compute. reflexivity.
  - vm_compute. reflexivity.
  - apply Forall_singleton. exists tokens_jan. split.
    + vm_compute. reflexivity.
    + vm_compute. discriminate.
Defined.

(** C4, as stated, fails when a third identifier of the pair is newer than
    both: [granule_feb] dominates [granule_jan], yet it is not retained. *)
Lemma dominating_granule_superseded :
  get_tokens_from_filename strptime_padded granule_feb = OK tokens_feb /\
  get_tokens_from_filename strptime_padded granule_jan = OK tokens_jan /\
  granule_id strftime_padded tokens_feb = granule_id strftime_padded tokens_jan /\
  url_proc_1 tokens_jan <= url_proc_1 tokens_feb /\
  url_proc_2 tokens_jan <= url_proc_2 tokens_feb /\
  proc_dates tokens_feb ≠ proc_dates tokens_jan /\
  skip_duplicate_granules strptime_padded strftime_padded
    [granule_jan; granule_feb; granule_mar]
  = OK ([granule_mar], [granule_jan; granule_feb]) /\
  granule_feb ∉ [granule_mar].
Proof.
  split_and!; try (vm_compute; reflexivity); try (vm_compute; discriminate).
  intros Hin. apply list_elem_of_singleton in Hin. vm_compute in Hin. discriminate Hin.
Qed.

Lemma dominated_granule_discarded_witness :
  (granule_jan ∉ [granule_feb]) /\ granule_jan ∈ [granule_jan] /\
  (granule_feb ∈ [granule_feb] <->
   forall C tc, C ∈ [granule_feb; granule_jan] ->
                get_tokens_from_filename strptime_padded C = OK tc ->
                granule_id strftime_padded tc = granule_id strftime_padded tokens_feb ->
                ~ lex_lt (proc_dates tokens_feb) (proc_dates tc)).
Proof.
  apply (dominated_granule_discarded strptime_padded strftime_padded
           [granule_feb; granule_jan] [granule_feb] [granule_jan]
           granule_feb granule_jan tokens_feb tokens_jan).
  - vm_compute. reflexivity.
  - by left.
  - right. by left.
  - vm_compute. reflexivity.
  - vm_compute. reflexivity.
  - vm_compute. reflexivity.
  - vm_compute. discriminate.
  - vm_compute. discriminate.
  - vm_compute. discriminate.
Defined.

(** C5, as stated, fails when a third identifier of the pair is newer: the
    two identifiers with identical processing dates are both discarded. *)
Lemma identical_granules_superseded :
  get_tokens_from_filename strptime_padded granule_jan = OK tokens_jan /\
  get_tokens_from_filename strptime_padded granule_jan_copy = OK tokens_jan /\
  skip_duplicate_granules strptime_padded strftime_padded
    [granule_jan; granule_jan_copy; granule_feb]
  = OK ([granule_feb], [granule_jan; granule_jan_copy]) /\
  (granule_jan ∉ [granule_feb]) /\ granule_jan_copy ∉ [granule_feb].
Proof.
  split_and!; try (vm_compute; reflexivity);
    intros Hin; apply list_elem_of_singleton in Hin; vm_compute in Hin; discriminate Hin.
Qed.

Lemma identical_granules_share_fate_witness :
  (granule_jan ∈ [granule_jan; granule_jan_copy] <->
   granule_jan_copy ∈ [granule_jan; granule_jan_copy]) /\
  (granule_jan ∈ [granule_jan; granule_jan_copy] /\
   granule_jan_copy ∈ [granule_jan; granule_jan_copy] <->
   forall C tc, C ∈ [granule_jan; granule_jan_copy] ->
                get_tokens_from_filename strptime_padded C = OK tc ->
                granule_id strftime_padded tc = granule_id strftime_padded tokens_jan ->
                ~ lex_lt (proc_dates tokens_jan) (proc_dates tc)).
Proof.
  apply (identical_granules_share_fate strptime_padded strftime_padded
           [granule_jan; granule_jan_copy] [granule_jan; granule_jan_copy] []
           granule_jan granule_jan_copy tokens_jan tokens_jan).
  - vm_compute. reflexivity.
  - by left.
  - right. by left.
  - vm_compute. reflexivity.
  - vm_compute. reflexivity.
  - reflexivity.
  - reflexivity.
Defined.

(** C6, as stated, fails on legacy granules: the projection is described
    by [UTM_Projection], one of the three locations, and the normaliser
    raises the unsupported-projection error all the same. *)
Lemma legacy_projection_not_detected :
  is_Some (ds_vars legacy_granule !! DataVars.UTM_PROJECTION) /\
  preprocess_dataset strptime_padded int_of_digits 240 example_cube legacy_granule url_optical
  = Raise (unsupported_projection url_optical).
Proof. split; [by eexists|]. vm_compute. reflexivity. Qed.



(** The optical granule has no ['va'], the radar granule has: the first
    slice is the placeholder, the second the radar data. *)
Example optional_variable_filled_example :
  match example_combine_layers cube_mixed [] true with
  | OK (_, [ToZarrCreate l _]) => data_vars l !! DataVars.VA
  | _ => None
  end = Some (Cube [[[None; None]; [None; None]]; square 21]).
Proof. vm_compute. reflexivity. Qed.


(** The sequential run on the same input creates the store. *)
Example create_first_write_creates_example :
  result_map (fun r : list string * ITSCube * list store_op => (r.1.1, kind <$> r.2))
    (create (example_env 1) example_cube [url_foreign; url_radar] None)
  = OK ([url_foreign; url_radar], [Creating]).
Proof. vm_compute. reflexivity. Qed.


Lemma combine_layers_empty_witness :
  exists self',
    example_combine_layers example_cube [] true = OK (self', []) /\
    ds self' = ds example_cube /\ dates self' = dates example_cube /\
    urls self' = urls example_cube /\
    same_logs example_cube self' /\
    num_urls_from_api self' = num_urls_from_api example_cube /\
    layers self' = LayersEmptyDict.
Proof.
  apply (combine_layers_empty strptime_padded
           "autoRIFT_software_version" "autoRIFT_parameter_file"
           "acquisition_date_img1" "acquisition_date_img2"
           "time_standard_img1" "time_standard_img2" example_cube [] true).
  reflexivity.
Defined.



(** * Further properties of the code *)

(** ** Splitting strings *)

Lemma split_nonempty (sep : ascii) (s : string) : split sep s ≠ [].
Proof.
  induction s as [|c s IH]; simpl; [done|].
  destruct (Ascii.eqb c sep); [done|]. by destruct (split sep s).
Qed.

(** A string without the separator is its only token. *)
Lemma split_free (sep : ascii) (s : string) :
  free_of sep s = true -> split sep s = [s].
Proof.
  induction s as [|c s IH]; simpl; [done|].
  destruct (Ascii.eqb c sep); simpl; [done|]. intros H. by rewrite IH.
Qed.

(** [split] cuts at every separator. *)
Lemma split_app (sep : ascii) (a b : string) :
  split sep (a +:+ String sep b) = split sep a ++ split sep b.
Proof.
  induction a as [|c a IH]; simpl.
  - by rewrite Ascii.eqb_refl.
  - destruct (Ascii.eqb c sep); [by rewrite IH|].
    rewrite IH. pose proof (split_nonempty sep a). by destruct (split sep a).
Qed.

Lemma last_app_nonempty {A} (l1 l2 : list A) (d : A) :
  l2 ≠ [] -> List.last (l1 ++ l2) d = List.last l2 d.
Proof.
  intros Hne. induction l1 as [|a l1 IH]; [done|].
  simpl. rewrite IH. destruct (l1 ++ l2) eqn:Heq; [|done].
  by apply app_eq_nil in Heq as [_ ?].
Qed.

(** [os.path.basename] drops everything up to the last slash. *)
Lemma basename_app (dir name : string) :
  free_of "/" name = true -> basename (dir +:+ "/" +:+ name) = name.
Proof.
  intros Hfree. unfold basename.
  change (dir +:+ "/" +:+ name) with (dir +:+ String "/" name).
  rewrite split_app, (split_free _ _ Hfree). by rewrite last_app_nonempty.
Qed.

Lemma basename_free (name : string) :
  free_of "/" name = true -> basename name = name.
Proof. intros Hfree. unfold basename. by rewrite (split_free _ _ Hfree). Qed.

Section TokensFurther.

Variable strptime : string -> string -> option Z.

(** X1. The dates and the path/row codes read from an identifier depend on
    its file name only: whatever the directory or URL prefix put before a
    name without [/], they are those of the bare file name, and so is the
    exception when the name does not parse. *)
Theorem get_tokens_from_filename_basename (dir name : string) :
  free_of "/" name = true ->
  get_tokens_from_filename strptime (dir +:+ "/" +:+ name) =
  get_tokens_from_filename strptime name.
Proof.
  intros Hfree. unfold get_tokens_from_filename.
  by rewrite (basename_app dir name Hfree), (basename_free name Hfree).
Qed.

End TokensFurther.

(** ** The date conversion of [get_data_var_attr] *)

Section DateConversion.

Variable strptime : string -> string -> option Z.

(** X2. The malformed date-times of Sentinel-2 granules,
    [<date>T<hhmmss>T<rest>] with no [T] inside the three parts, are read as
    [<date>T<hh>:<mm>:<ss>]: what follows the second [T] is ignored, and a
    date-time that does not parse raises the conversion error. *)
Theorem convert_to_date_malformed (ds_url var_name attr_name : string)
        (date hms rest : string) :
  free_of "T" date = true -> free_of "T" hms = true -> free_of "T" rest = true ->
  convert_to_date strptime ds_url var_name attr_name
                  (VStr (date +:+ "T" +:+ hms +:+ "T" +:+ rest)) =
  match strptime (date +:+ "T" +:+ substring 0 2 hms +:+ ":" +:+ substring 2 2 hms
                       +:+ ":" +:+ substring 4 2 hms) "%Y%m%dT%H:%M:%S" with
  | Some d => OK (VDate d)
  | None => Raise (conversion_error var_name attr_name ds_url)
  end.
Proof.
  intros Hd Hh Hr. unfold convert_to_date.
  change (date +:+ "T" +:+ hms +:+ "T" +:+ rest)
    with (date +:+ String "T" (hms +:+ String "T" rest)).
  rewrite !split_app, (split_free _ _ Hd), (split_free _ _ Hh), (split_free _ _ Hr).
  simpl. by destruct (strptime _ _).
Qed.

(** X3. When the conversion of a date attribute succeeds, the
    attribute was a string and the result is a date, except that a string
    shorter than eight characters and not of the malformed three-part form
    is returned as it is, without an error. *)
Theorem convert_to_date_result (ds_url var_name attr_name : string) (v v' : value) :
  convert_to_date strptime ds_url var_name attr_name v = OK v' ->
  exists s, v = VStr s /\
    ((exists d, v' = VDate d) \/
     (v' = v /\ (String.length s < 8)%nat /\ length (split "T" s) ≠ 3%nat)).
Proof.
  unfold convert_to_date. destruct v as [| s | | |]; try discriminate.
  intros H. exists s. split; [done|].
  case_bool_decide as H3.
  { apply bind_OK in H as (d & _ & [= <-]). left. by exists d. }
  case_bool_decide as H8.
  { apply bind_OK in H as (d & _ & [= <-]). left. by exists d. }
  case_bool_decide as Hlong.
  { apply bind_OK in H as (d & _ & [= <-]). left. by exists d. }
  injection H as <-. right. split; [done|]. split; [lia|done].
Qed.

End DateConversion.

(** ** Deduplication: further properties *)

Section DedupFurther.

Variable strptime : string -> string -> option Z.
Variable strftime : Z -> string -> string.

Local Abbreviation parse := (get_tokens_from_filename strptime).
Local Abbreviation gid := (granule_id strftime).
Local Abbreviation member := (member strptime strftime).
Local Abbreviation keep_ok := (keep_ok strptime strftime).
Local Abbreviation dedup_inv := (dedup_inv strptime strftime).
Local Abbreviation group_date := (group_date strptime strftime).
Local Abbreviation step_outcome := (step_outcome strptime strftime).
Local Abbreviation parses := (parses strptime).
Local Abbreviation outdated := (outdated strptime strftime).
Local Abbreviation newest_of := (newest_of strptime strftime).

Lemma dict_get_split (k : string) (keep : keep_dict) (L : list string) :
  dict_get k keep = Some L ->
  exists pre post, keep = pre ++ (k, L) :: post /\
    forall L', dict_set k L' keep = pre ++ (k, L') :: post.
Proof.
  induction keep as [|[k' v'] keep IH]; simpl; [done|].
  destruct (decide (k = k')) as [->|Hne].
  - intros [= ->]. by exists [], keep.
  - intros (pre & post & -> & Hset)%IH. exists ((k', v') :: pre), post.
    split; [done|]. intros L'. simpl. by rewrite Hset.
Qed.

Lemma dict_values_app (a b : keep_dict) :
  dict_values (a ++ b) = dict_values a ++ dict_values b.
Proof. unfold dict_values. by rewrite fmap_app, concat_app. Qed.

Lemma dict_values_cons (k : string) (L : list string) (a : keep_dict) :
  dict_values ((k, L) :: a) = L ++ dict_values a.
Proof. done. Qed.

(** One iteration moves identifiers between the kept groups and the
    rejections and adds the incoming one: nothing is lost or invented. *)
Lemma step_outcome_perm (keep : keep_dict) (skipped : list string) (u : string)
      (t : tokens) (st' : keep_dict * list string) :
  step_outcome keep skipped u t st' ->
  dict_values st'.1 ++ st'.2 ≡ₚ dict_values keep ++ skipped ++ [u].
Proof.
  intros [Hfresh | L Hget HL | L d Hget HL Hlt | L d Hget HL Hlt]; simpl.
  - rewrite dict_values_app, dict_values_cons. simpl. solve_Permutation.
  - destruct (dict_get_split _ _ _ Hget) as (pre & post & -> & Hset).
    rewrite Hset, !dict_values_app, !dict_values_cons. solve_Permutation.
  - destruct (dict_get_split _ _ _ Hget) as (pre & post & -> & Hset).
    rewrite Hset, !dict_values_app, !dict_values_cons. solve_Permutation.
  - solve_Permutation.
Qed.

Lemma dedup_loop_perm (urls P : list string) (st st' : keep_dict * list string) :
  dedup_inv P st -> dedup_loop strptime strftime st urls = OK st' ->
  dict_values st'.1 ++ st'.2 ≡ₚ dict_values st.1 ++ st.2 ++ urls.
Proof.
  revert P st. induction urls as [|u urls IH]; intros P st Hinv Hloop; simpl in Hloop.
  - injection Hloop as <-. by rewrite app_nil_r.
  - apply bind_OK in Hloop as (st1 & Hstep & Hloop).
    destruct (dedup_step_parses _ _ _ _ _ Hstep) as [t Hp].
    destruct st as [keep skipped].
    destruct (dedup_step_outcome _ _ keep skipped u t (proj1 Hinv) Hp)
      as (st1' & Hstep' & Hout).
    assert (st1' = st1) as -> by congruence.
    rewrite (IH (P ++ [u]) st1); [|by eapply step_preserves|done].
    rewrite (app_assoc (dict_values st1.1)), (step_outcome_perm _ _ _ _ _ Hout).
    simpl. rewrite <- !app_assoc. done.
Qed.

(** The rejected identifiers are outdated, and stay so. *)
Lemma step_outdated (P : list string) (keep : keep_dict) (skipped : list string)
      (u : string) (t : tokens) (st' : keep_dict * list string) :
  dedup_inv P (keep, skipped) -> parse u = OK t ->
  step_outcome keep skipped u t st' ->
  Forall (outdated keep) skipped -> Forall (outdated st'.1) st'.2.
Proof.
  intros (Hok & _ & _) Hp Hstep Hall. simpl in Hok.
  rewrite Forall_forall in Hall. apply Forall_forall.
  destruct Hstep as [Hfresh | L Hget HL | L d Hget HL Hlt | L d Hget HL Hlt]; simpl.
  - intros u' Hu'. destruct (Hall u' Hu') as (t' & L' & d' & Hp' & Hget' & HL' & Hlt').
    exists t', L', d'. split; [done|]. split; [|done].
    by rewrite dict_get_app, Hget'.
  - assert (L ≠ []) as HLne by (by destruct (keep_ok_get _ _ _ _ _ Hok Hget)).
    intros u' Hu'. destruct (Hall u' Hu') as (t' & L' & d' & Hp' & Hget' & HL' & Hlt').
    destruct (decide (gid t' = gid t)) as [Heq|Hne].
    + rewrite Heq in Hget', HL'. assert (L' = L) as -> by congruence.
      assert (d' = proc_dates t) as -> by (by eapply member_date_unique).
      exists t', (L ++ [u]), (proc_dates t). split; [done|]. split.
      { rewrite dict_get_set, Heq, decide_True by done. by rewrite Hget. }
      split; [|done]. rewrite Heq. apply Forall_app. split; [done|].
      apply Forall_singleton. by exists t.
    + exists t', L', d'. split; [done|]. split; [|done].
      by rewrite dict_get_set, decide_False.
  - assert (L ≠ []) as HLne by (by destruct (keep_ok_get _ _ _ _ _ Hok Hget)).
    assert (forall t', gid t' = gid t ->
              dict_get (gid t') (dict_set (gid t) [u] keep) = Some [u] /\
              Forall (member (gid t') (proc_dates t)) [u]) as Hnew.
    { intros t' Heq. rewrite dict_get_set, Heq, decide_True by done.
      rewrite Hget. split; [done|]. apply Forall_singleton. by exists t. }
    intros u' [Hu'|Hu']%elem_of_app.
    + destruct (Hall u' Hu') as (t' & L' & d' & Hp' & Hget' & HL' & Hlt').
      destruct (decide (gid t' = gid t)) as [Heq|Hne].
      * destruct (Hnew t' Heq) as [Hg HF].
        rewrite Heq in Hget', HL'. assert (L' = L) as -> by congruence.
        assert (d' = d) as -> by (by eapply member_date_unique).
        exists t', [u], (proc_dates t). split; [done|]. split; [done|].
        split; [done|]. by eapply lex_lt_trans.
      * exists t', L', d'. split; [done|]. split; [|done].
        by rewrite dict_get_set, decide_False.
    + rewrite Forall_forall in HL. destruct (HL u' Hu') as (t' & Hp' & Hk' & Hd').
      destruct (Hnew t' Hk') as [Hg HF].
      exists t', [u], (proc_dates t). split; [done|]. split; [done|].
      split; [done|]. by rewrite Hd'.
  - intros u' [Hu'| ->%list_elem_of_singleton]%elem_of_app; [by apply Hall|].
    by exists t, L, d.
Qed.

Lemma dedup_loop_outdated (urls P : list string) (st st' : keep_dict * list string) :
  dedup_inv P st -> Forall (outdated st.1) st.2 ->
  dedup_loop strptime strftime st urls = OK st' ->
  Forall (outdated st'.1) st'.2.
Proof.
  revert P st. induction urls as [|u urls IH]; intros P st Hinv Hall Hloop; simpl in Hloop.
  - by injection Hloop as <-.
  - apply bind_OK in Hloop as (st1 & Hstep & Hloop).
    destruct (dedup_step_parses _ _ _ _ _ Hstep) as [t Hp].
    destruct st as [keep skipped].
    destruct (dedup_step_outcome _ _ keep skipped u t (proj1 Hinv) Hp)
      as (st1' & Hstep' & Hout).
    assert (st1' = st1) as -> by congruence.
    apply (IH (P ++ [u]) st1); [by eapply step_preserves| |done].
    by eapply step_outdated.
Qed.

(** The loop runs to its end on identifiers that parse. *)
Lemma dedup_loop_total (urls P : list string) (st : keep_dict * list string) :
  dedup_inv P st -> Forall parses urls ->
  exists st', dedup_loop strptime strftime st urls = OK st'.
Proof.
  revert P st. induction urls as [|u urls IH]; intros P [keep skipped] Hinv Hall.
  - by eexists.
  - apply Forall_cons in Hall as [[t Hp] Hall]. cbn [dedup_loop].
    destruct (dedup_step_outcome _ _ keep skipped u t (proj1 Hinv) Hp)
      as (st1 & Hstep & Hout).
    rewrite Hstep. simpl.
    apply (IH (P ++ [u])); [by eapply step_preserves|done].
Qed.

Lemma dedup_loop_parses (urls : list string) (st st' : keep_dict * list string) :
  dedup_loop strptime strftime st urls = OK st' -> Forall parses urls.
Proof.
  revert st. induction urls as [|u urls IH]; intros st Hloop; simpl in Hloop; [done|].
  apply bind_OK in Hloop as (st1 & Hstep & Hloop).
  apply Forall_cons. split; [by eapply dedup_step_parses|by eapply IH].
Qed.

(** The state in which [skip_duplicate_granules] ends. *)
Lemma skip_duplicate_granules_state (urls granules skipped : list string) :
  skip_duplicate_granules strptime strftime urls = OK (granules, skipped) ->
  exists keep,
    granules = dict_values keep /\ dedup_inv urls (keep, skipped) /\
    Forall (outdated keep) skipped /\ dict_values keep ++ skipped ≡ₚ urls.
Proof.
  unfold skip_duplicate_granules. intros H.
  apply bind_OK in H as ([keep sk] & Hloop & [= <- <-]).
  exists keep. split; [done|].
  pose proof (dedup_inv_init strptime strftime) as Hinit.
  split; [|split].
  - by apply (dedup_loop_inv strptime strftime urls [] ([], [])).
  - by apply (dedup_loop_outdated urls [] ([], []) (keep, sk)).
  - by apply (dedup_loop_perm urls [] ([], []) (keep, sk)).
Qed.

Lemma skip_duplicate_granules_total (urls : list string) :
  Forall parses urls ->
  exists granules skipped,
    skip_duplicate_granules strptime strftime urls = OK (granules, skipped).
Proof.
  intros Hall. unfold skip_duplicate_granules.
  destruct (dedup_loop_total urls [] ([], []) (dedup_inv_init strptime strftime) Hall)
    as ([keep sk] & ->).
  by eexists _, _.
Qed.

(** What [skip_duplicate_granules] does with an identifier, in terms of
    the input alone. *)
Lemma skip_duplicate_granules_fate (urls granules skipped : list string)
      (u : string) (t : tokens) :
  skip_duplicate_granules strptime strftime urls = OK (granules, skipped) ->
  u ∈ urls -> parse u = OK t ->
  (u ∈ granules <-> newest_of urls t) /\ (u ∈ skipped <-> ~ newest_of urls t).
Proof.
  intros (keep & -> & Hinv & Hout & _)%skip_duplicate_granules_state Hu Hp.
  pose proof (proj1 Hinv) as Hok. simpl in Hok.
  destruct (processed_fate _ _ _ _ _ _ _ Hinv Hu Hp) as (d & Hgd & Hcase).
  assert (newest_of urls t <-> proc_dates t = d) as Hnew.
  { split.
    - intros Hmax. destruct Hcase as [[? _]|[Hlt _]]; [done|]. exfalso.
      destruct (group_date_attained _ _ _ _ _ _ _ Hinv Hgd) as (C & tc & HC & HpC & HkC & HdC).
      apply (Hmax C tc HC HpC HkC). by rewrite HdC.
    - intros Heq C tc HC HpC HkC Hnewer.
      destruct (processed_fate _ _ _ _ _ _ _ Hinv HC HpC) as (dC & HgC & HcC).
      rewrite HkC in HgC. assert (dC = d) as -> by (by eapply group_date_unique).
      rewrite Heq in Hnewer. destruct HcC as [[HeqC _]|[HltC _]].
      + rewrite HeqC in Hnewer. by apply lex_lt_irrefl in Hnewer.
      + by apply (lex_lt_asym _ _ Hnewer). }
  rewrite Hnew. split; split.
  - intros Hin. destruct Hcase as [[? _]|(_ & _ & ?)]; done.
  - intros Heq. destruct Hcase as [[_ ?]|[Hlt _]]; [done|].
    rewrite Heq in Hlt. by apply lex_lt_irrefl in Hlt.
  - intros Hin Heq. rewrite Forall_forall in Hout.
    destruct (Hout u Hin) as (t' & L & d' & Hp' & Hget & HF & Hlt).
    assert (t' = t) as -> by congruence.
    assert (d' = d) as -> by (eapply group_date_unique; [done| |done]; by exists L).
    rewrite Heq in Hlt. by apply lex_lt_irrefl in Hlt.
  - intros Hne. destruct Hcase as [[? _]|(_ & ? & _)]; done.
Qed.

Lemma skip_duplicate_granules_perm (urls granules skipped : list string) :
  skip_duplicate_granules strptime strftime urls = OK (granules, skipped) ->
  granules ++ skipped ≡ₚ urls.
Proof. by intros (keep & -> & _ & _ & Hperm)%skip_duplicate_granules_state. Qed.

(** Something is always kept of a non-empty input. *)
Lemma skip_duplicate_granules_nonempty (urls granules skipped : list string) :
  skip_duplicate_granules strptime strftime urls = OK (granules, skipped) ->
  urls ≠ [] -> granules ≠ [].
Proof.
  intros (keep & -> & Hinv & Hout & Hperm)%skip_duplicate_granules_state Hne Hnil.
  pose proof (proj1 Hinv) as Hok. simpl in Hok.
  rewrite Hnil in Hperm. simpl in Hperm.
  destruct skipped as [|u skipped].
  { apply Permutation_nil_l in Hperm. done. }
  apply Forall_cons in Hout as [(t & L & d & Hp & Hget & HF & Hlt) _].
  destruct (keep_ok_get _ _ _ _ _ Hok Hget) as [HLne _].
  destruct L as [|c L]; [done|].
  assert (c ∈ dict_values keep) as Hc.
  { apply dict_values_elem. exists (gid t), (c :: L).
    split; [by apply dict_get_Some_elem|by left]. }
  rewrite Hnil in Hc. by apply elem_of_nil in Hc.
Qed.

(** X4. Deduplication loses and invents nothing: when it succeeds,
    the identifiers it returns together with the ones it rejects are the
    input, each as many times as it occurs there. *)
Theorem skip_duplicate_granules_partition (urls granules skipped : list string) :
  skip_duplicate_granules strptime strftime urls = OK (granules, skipped) ->
  granules ++ skipped ≡ₚ urls.
Proof. apply skip_duplicate_granules_perm. Qed.

(** X5. Every identifier returned by the deduplication parses, and two
    returned identifiers of the same physical pair have the same processing
    dates on both images. *)
Theorem kept_granules_share_dates (urls granules skipped : list string) (A B : string) :
  skip_duplicate_granules strptime strftime urls = OK (granules, skipped) ->
  A ∈ granules -> B ∈ granules ->
  exists ta tb, parse A = OK ta /\ parse B = OK tb /\
                (gid ta = gid tb -> proc_dates ta = proc_dates tb).
Proof.
  intros (keep & -> & Hinv & _ & _)%skip_duplicate_granules_state HA HB.
  pose proof Hinv as (Hok & Hset & Hsub). simpl in Hok, Hset, Hsub.
  assert (forall u, u ∈ dict_values keep -> exists t, parse u = OK t) as Hparse.
  { intros u (k & L & Hin & Hu)%dict_values_elem.
    destruct (Hset u) as (t & _ & _ & Hp & _); [|by eauto].
    apply (Hsub k L); [|done]. by apply dict_get_elem; [apply Hok|]. }
  destruct (Hparse A HA) as [ta HpA], (Hparse B HB) as [tb HpB].
  exists ta, tb. split; [done|]. split; [done|]. intros Hk.
  pose proof (kept_has_group_date _ _ keep A ta Hok HA HpA) as HgA.
  pose proof (kept_has_group_date _ _ keep B tb Hok HB HpB) as HgB.
  rewrite <- Hk in HgB. by eapply group_date_unique.
Qed.

Lemma dedup_loop_raises (urls P : list string) (st : keep_dict * list string) (e : exn) :
  dedup_inv P st -> dedup_loop strptime strftime st urls = Raise e ->
  exists pre u post, urls = pre ++ u :: post /\ Forall parses pre /\ parse u = Raise e.
Proof.
  revert P st. induction urls as [|u urls IH]; intros P [keep skipped] Hinv Hloop;
    cbn [dedup_loop] in Hloop; [done|].
  destruct (parse u) as [t|e'] eqn:Hp.
  - destruct (dedup_step_outcome _ _ keep skipped u t (proj1 Hinv) Hp)
      as (st1 & Hstep & Hout).
    rewrite Hstep in Hloop. simpl in Hloop.
    destruct (IH (P ++ [u]) st1) as (pre & x & post & -> & Hpre & Hx);
      [by eapply step_preserves|done|].
    exists (u :: pre), x, post. split; [done|]. split; [|done].
    apply Forall_cons. split; [by exists t|done].
  - exists [], u, urls. split; [done|]. split; [done|].
    unfold dedup_step in Hloop. rewrite Hp in Hloop. simpl in Hloop. congruence.
Qed.

(** X6. Deduplication fails exactly when an identifier of the input
    does not parse, with the exception raised for the first such
    identifier; nothing is caught. *)
Theorem skip_duplicate_granules_errors (urls : list string) :
  match skip_duplicate_granules strptime strftime urls with
  | OK _ => Forall parses urls
  | Raise e => exists pre u post,
      urls = pre ++ u :: post /\ Forall parses pre /\ parse u = Raise e
  end.
Proof.
  unfold skip_duplicate_granules.
  destruct (dedup_loop strptime strftime ([], []) urls) as [st|e] eqn:Hloop; simpl.
  - by eapply dedup_loop_parses.
  - eapply dedup_loop_raises; [apply dedup_inv_init|done].
Qed.

(** X7. Every rejected duplicate is an identifier of the input that is
    not returned, and a returned identifier of the same physical pair has
    lexicographically newer processing dates. *)
Theorem skipped_granule_superseded (urls granules skipped : list string) (u : string) :
  skip_duplicate_granules strptime strftime urls = OK (granules, skipped) ->
  u ∈ skipped ->
  u ∈ urls /\ (u ∉ granules) /\
  exists t c tc, parse u = OK t /\ c ∈ granules /\ parse c = OK tc /\
                 gid tc = gid t /\ lex_lt (proc_dates t) (proc_dates tc).
Proof.
  intros Hrun Hu.
  pose proof Hrun as (keep & -> & Hinv & Hout & Hperm)%skip_duplicate_granules_state.
  pose proof (proj1 Hinv) as Hok. simpl in Hok.
  assert (u ∈ urls) as Hin.
  { rewrite <- Hperm. apply elem_of_app. by right. }
  rewrite Forall_forall in Hout.
  destruct (Hout u Hu) as (t & L & d & Hp & Hget & HF & Hlt).
  split; [done|]. split.
  - intros Hkept.
    pose proof (kept_has_group_date _ _ keep u t Hok Hkept Hp) as Hgd.
    assert (proc_dates t = d) as Heq.
    { eapply group_date_unique; [done..|]. by exists L. }
    rewrite Heq in Hlt. by apply lex_lt_irrefl in Hlt.
  - destruct (keep_ok_get _ _ _ _ _ Hok Hget) as [Hne _].
    destruct L as [|c L]; [done|].
    apply Forall_cons in HF as [(tc & Hpc & Hkc & Hdc) _].
    exists t, c, tc. split; [done|]. split.
    { apply dict_values_elem. exists (gid t), (c :: L).
      split; [by apply dict_get_Some_elem|by left]. }
    split; [done|]. split; [done|]. by rewrite Hdc.
Qed.

(** X8. The outcome of the deduplication does not depend on the order
    of the input, up to the order of the two lists returned: on a reordered
    input it succeeds as well, returns the same identifiers and rejects the
    same ones. *)
Theorem skip_duplicate_granules_order (urls urls' granules skipped : list string) :
  skip_duplicate_granules strptime strftime urls = OK (granules, skipped) ->
  urls ≡ₚ urls' ->
  exists granules' skipped',
    skip_duplicate_granules strptime strftime urls' = OK (granules', skipped') /\
    (forall u, u ∈ granules <-> u ∈ granules') /\
    (forall u, u ∈ skipped <-> u ∈ skipped').
Proof.
  intros Hrun Hperm.
  assert (Forall parses urls) as Hall.
  { unfold skip_duplicate_granules in Hrun.
    apply bind_OK in Hrun as (st & Hloop & _). by eapply dedup_loop_parses. }
  destruct (skip_duplicate_granules_total urls') as (granules' & skipped' & Hrun').
  { by rewrite <- Hperm. }
  exists granules', skipped'. split; [done|].
  pose proof (skip_duplicate_granules_perm _ _ _ Hrun) as Hp1.
  pose proof (skip_duplicate_granules_perm _ _ _ Hrun') as Hp2.
  assert (forall t, newest_of urls t <-> newest_of urls' t) as Hnew.
  { intros t. unfold newest_of.
    split; intros H C tc HC; apply H; [by rewrite Hperm|by rewrite <- Hperm]. }
  assert (forall u, u ∈ granules ∨ u ∈ skipped -> u ∈ urls) as Hsub.
  { intros u Hu. rewrite <- Hp1. by apply elem_of_app. }
  assert (forall u, u ∈ granules' ∨ u ∈ skipped' -> u ∈ urls') as Hsub'.
  { intros u Hu. rewrite <- Hp2. by apply elem_of_app. }
  assert (forall u, u ∈ urls -> exists t, parse u = OK t) as Hparse.
  { intros u Hu. rewrite Forall_forall in Hall. by apply Hall. }
  split; intros u; split; intros Hu.
  - assert (u ∈ urls) as Hin by auto. destruct (Hparse u Hin) as [t Hp].
    apply (skip_duplicate_granules_fate _ _ _ u t Hrun'); [by rewrite <- Hperm|done|].
    apply Hnew. by apply (skip_duplicate_granules_fate _ _ _ u t Hrun).
  - assert (u ∈ urls') as Hin by auto. rewrite <- Hperm in Hin.
    destruct (Hparse u Hin) as [t Hp].
    apply (skip_duplicate_granules_fate _ _ _ u t Hrun); [done|done|].
    apply Hnew. apply (skip_duplicate_granules_fate _ _ _ u t Hrun'); [by rewrite <- Hperm|done..].
  - assert (u ∈ urls) as Hin by auto. destruct (Hparse u Hin) as [t Hp].
    apply (skip_duplicate_granules_fate _ _ _ u t Hrun'); [by rewrite <- Hperm|done|].
    rewrite <- Hnew. by apply (skip_duplicate_granules_fate _ _ _ u t Hrun).
  - assert (u ∈ urls') as Hin by auto. rewrite <- Hperm in Hin.
    destruct (Hparse u Hin) as [t Hp].
    apply (skip_duplicate_granules_fate _ _ _ u t Hrun); [done|done|].
    rewrite Hnew. apply (skip_duplicate_granules_fate _ _ _ u t Hrun'); [by rewrite <- Hperm|done..].
Qed.

End DedupFurther.

(** ** The runs: further properties *)

Lemma sum_projs_setdefault_append (m : gmap Z (list string)) (code : Z) (u : string) :
  sum_list (length <$> (map_to_list (<[code := default [] (m !! code) ++ [u]]> m)).*2) =
  S (sum_list (length <$> (map_to_list m).*2)).
Proof.
  destruct (m !! code) as [l|] eqn:Hl; simpl.
  - rewrite <- insert_delete_eq.
    rewrite (map_to_list_insert (delete code m) code) by apply lookup_delete_eq.
    rewrite <- (map_to_list_delete m code l Hl). csimpl.
    rewrite length_app. simpl. lia.
  - rewrite (map_to_list_insert m code) by done. csimpl. done.
Qed.

Lemma add_layer_accounted (self : ITSCube) (r : layer_result) :
  accounted (add_layer self r) = S (accounted self) /\
  skipped_double_granules (add_layer self r) = skipped_double_granules self.
Proof.
  unfold accounted, sum_projs, add_layer. destruct (data r); simpl.
  - rewrite length_app. simpl. split; [simpl; lia|done].
  - destruct (is_empty r); simpl.
    + rewrite length_app. simpl. split; [simpl; lia|done].
    + rewrite sum_projs_setdefault_append. split; [simpl; lia|done].
Qed.

Lemma foldl_add_layer_accounted (results : list layer_result) (self : ITSCube) :
  accounted (foldl add_layer self results) = (accounted self + length results)%nat /\
  skipped_double_granules (foldl add_layer self results) = skipped_double_granules self.
Proof.
  revert self. induction results as [|r results IH]; intros self; simpl.
  - split; [simpl; lia|done].
  - destruct (IH (add_layer self r)) as [-> ->].
    destruct (add_layer_accounted self r) as [-> ->]. split; [simpl; lia|done].
Qed.

Lemma examined_nonempty (api_urls : list string) (num_granules : option nat) :
  api_urls ≠ [] -> examined api_urls num_granules ≠ [].
Proof.
  intros Hne. unfold examined. destruct num_granules as [[|n]|]; try done.
  by destruct api_urls.
Qed.

Section RunFurther.

Variable E : Environment.

Lemma combine_layers_accounted (self self' : ITSCube) (store store' : list store_op)
      (flag : bool) :
  run_combine_layers E self store flag = OK (self', store') ->
  (record_axis_length store' + accounted self' = record_axis_length store + accounted self)%nat /\
  skipped_double_granules self' = skipped_double_granules self /\
  num_urls_from_api self' = num_urls_from_api self /\
  ds self' = [].
Proof.
  intros H. apply combine_layers_effect in H
    as (_ & Hn & (He & Hd & Hp) & Hds & _ & _ & Hrec & _).
  unfold accounted, sum_projs. rewrite Hds, He, Hp, Hrec. simpl.
  split; [simpl; lia|done].
Qed.

Lemma create_loop_accounted (found_urls : list string) (self self' : ITSCube)
      (store store' : list store_op) (flag flag' : bool) :
  create_loop E found_urls (self, store, flag) = OK (self', store', flag') ->
  (record_axis_length store' + accounted self' =
   record_axis_length store + accounted self + length found_urls)%nat /\
  skipped_double_granules self' = skipped_double_granules self /\
  num_urls_from_api self' = num_urls_from_api self.
Proof.
  revert self store flag.
  induction found_urls as [|u found_urls IH]; intros self store flag H; simpl in H.
  - injection H as <- <- <-. split; [simpl; lia|done].
  - apply bind_OK in H as (r & Hr & H).
    apply bind_OK in H as ([[self1 store1] flag1] & Hstep & H).
    apply IH in H as (Hcount & Hd & Hn). rewrite Hcount, Hd, Hn. clear Hcount Hd Hn.
    destruct (add_layer_accounted self r) as [Hacc Hdbl].
    case_bool_decide.
    + apply bind_OK in Hstep as ([self2 store2] & Hc & [= <- <- <-]).
      apply combine_layers_accounted in Hc as (Hcount & Hd & Hn & _). simpl.
      rewrite Hd, Hn, Hdbl, add_layer_num_urls. split; [simpl; lia|done].
    + injection Hstep as <- <- <-. rewrite Hdbl, add_layer_num_urls.
      split; [simpl; lia|done].
Qed.

Lemma create_parallel_loop_accounted (found_urls : list string) (fuel : nat)
      (self self' : ITSCube) (store store' : list store_op) (flag : bool)
      (start num_to_process : nat) :
  create_parallel_loop E fuel found_urls self store flag start num_to_process
    = Some (OK (self', store')) ->
  (start + num_to_process = length found_urls)%nat -> ds self = [] ->
  (record_axis_length store' + accounted self' =
   record_axis_length store + accounted self + num_to_process)%nat /\
  skipped_double_granules self' = skipped_double_granules self /\
  num_urls_from_api self' = num_urls_from_api self /\
  ds self' = [].
Proof.
  revert self store flag start num_to_process.
  induction fuel as [|fuel IH]; intros self store flag start ntp H Hlen Hds.
  - simpl in H. case_bool_decide as Hz; [|discriminate]. injection H as <- <-.
    split; [lia|done].
  - simpl in H. case_bool_decide as Hz.
    { injection H as <- <-. split; [lia|done]. }
    set (num_tasks := if bool_decide (NUM_GRANULES_TO_WRITE E < ntp)%nat
                      then NUM_GRANULES_TO_WRITE E else ntp) in *.
    assert (num_tasks <= ntp)%nat as Hle.
    { unfold num_tasks.
      destruct (bool_decide (NUM_GRANULES_TO_WRITE E < ntp)%nat) eqn:Hb;
        [apply bool_decide_eq_true in Hb|]; lia. }
    destruct (for_each (read_dataset E self) (take num_tasks (drop start found_urls)))
      as [results1|e] eqn:Hres1; [|discriminate].
    apply for_each_length in Hres1. rewrite length_take, length_drop in Hres1.
    destruct (foldl_add_layer_accounted results1 self) as [Hacc Hdbl].
    destruct (foldl_add_layer results1 self) as (_ & Hn1 & _).
    set (self1 := foldl add_layer self results1) in *.
    destruct (run_combine_layers E self1 store flag) as [[self2 store2]|e] eqn:Hc;
      [|discriminate].
    destruct (format_stats self2) as [[]|e]; [|discriminate].
    apply combine_layers_accounted in Hc as (Hcount & Hd & Hn & Hds2).
    apply IH in H as (Hcount' & Hd' & Hn' & Hds'); [|lia|done].
    rewrite Hcount', Hd', Hn', Hd, Hn, Hdbl, Hn1. split; [lia|done].
Qed.

(** The state after [request_granules]. *)
Lemma request_granules_state (self self' : ITSCube) (api_urls found_urls : list string)
      (num_granules : option nat) :
  request_granules E (clear self) api_urls num_granules = OK (self', found_urls) ->
  api_urls ≠ [] ->
  found_urls ++ skipped_double_granules self' ≡ₚ examined api_urls num_granules /\
  num_urls_from_api self' = Some (length (examined api_urls num_granules)) /\
  accounted self' = 0%nat /\ aligned self' /\ ds self' = [].
Proof.
  unfold request_granules, skip_duplicate_granules_method. intros H Hne.
  rewrite bool_decide_eq_false_2 in H by (by destruct api_urls).
  fold (examined api_urls num_granules) in H.
  apply bind_OK in H as ([granules skipped] & Hrun & [= <- <-]). simpl.
  split; [by eapply skip_duplicate_granules_perm|]. by repeat split.
Qed.

Lemma run_accounted (self' : ITSCube) (store : list store_op)
      (examined found_urls : list string) (self1 : ITSCube) :
  found_urls ++ skipped_double_granules self1 ≡ₚ examined ->
  (record_axis_length store + accounted self' = length found_urls)%nat ->
  ds self' = [] ->
  skipped_double_granules self' = skipped_double_granules self1 ->
  length examined =
    (record_axis_length store + length (skipped_empty_granules self')
     + sum_projs self' + length (skipped_double_granules self'))%nat.
Proof.
  intros Hperm Hcount Hds Hdbl. rewrite <- Hperm, length_app, Hdbl.
  unfold accounted in Hcount. rewrite Hds in Hcount. simpl in Hcount. lia.
Qed.

(** X9. [add_layer] records every result in exactly one place: the
    accumulator, the list of granules without data, or the list of its
    projection among the rejected ones; it keeps the three sequences of the
    accumulator aligned and does not touch the duplicates or
    [num_urls_from_api]. *)
Theorem add_layer_records_once (self : ITSCube) (r : layer_result) :
  accounted (add_layer self r) = S (accounted self) /\
  (aligned self -> aligned (add_layer self r)) /\
  skipped_double_granules (add_layer self r) = skipped_double_granules self /\
  num_urls_from_api (add_layer self r) = num_urls_from_api self.
Proof.
  destruct (add_layer_accounted self r) as [Hacc Hdbl].
  split; [done|]. split; [apply add_layer_aligned|]. split; [done|].
  apply add_layer_num_urls.
Qed.





(** X14. With a positive batch size the parallel run terminates: its
    loop ends within as many iterations as there are URLs to process. *)
Theorem create_parallel_terminates (self : ITSCube) (api_urls : list string)
        (num_granules : option nat) :
  (0 < NUM_GRANULES_TO_WRITE E)%nat ->
  is_Some (create_parallel E self api_urls num_granules).
Proof.
  intros Hpos. unfold create_parallel.
  destruct (request_granules E (clear self) api_urls num_granules)
    as [[self1 found]|e]; [|by eexists].
  case_bool_decide; [by eexists|].
  destruct (create_parallel_loop_terminates E found (length found) self1 [] true 0
              (length found) Hpos (le_n _)) as [[[self2 store2]|e] ->]; by eexists.
Qed.

(** With batch size 0 an iteration of the parallel loop reads nothing and
    leaves everything to be processed. *)
Lemma create_parallel_loop_stuck (found_urls : list string) (fuel : nat)
      (self : ITSCube) (store : list store_op) (flag : bool)
      (start num_to_process n : nat) :
  NUM_GRANULES_TO_WRITE E = 0%nat -> (0 < num_to_process)%nat ->
  ds self = [] -> num_urls_from_api self = Some (S n) ->
  create_parallel_loop E fuel found_urls self store flag start num_to_process = None.
Proof.
  intros Hzero Hpos. revert self store flag start.
  induction fuel as [|fuel IH]; intros self store flag start Hds Hn; simpl.
  - by rewrite bool_decide_eq_false_2 by lia.
  - rewrite bool_decide_eq_false_2 by lia.
    rewrite Hzero, bool_decide_eq_true_2 by lia. simpl.
    unfold run_combine_layers, combine_layers. rewrite Hds. simpl.
    unfold format_stats. simpl. rewrite Hn.
    rewrite Nat.add_0_r, Nat.sub_0_r. by apply IH.
Qed.

(** X15. With batch size 0 the parallel run never ends once there is a
    URL to process: however many iterations are allowed, the loop does not
    return. *)
Theorem create_parallel_zero_batch_diverges (self self1 : ITSCube)
        (api_urls found_urls : list string) (num_granules : option nat) :
  NUM_GRANULES_TO_WRITE E = 0%nat ->
  request_granules E (clear self) api_urls num_granules = OK (self1, found_urls) ->
  found_urls ≠ [] ->
  (forall fuel,
     create_parallel_loop E fuel found_urls self1 [] true 0 (length found_urls) = None) /\
  create_parallel E self api_urls num_granules = None.
Proof.
  intros Hzero Hreq Hne.
  assert (api_urls ≠ []) as Hapi.
  { intros ->. unfold request_granules in Hreq. simpl in Hreq. by injection Hreq as <- <-. }
  pose proof Hreq as (_ & Hnum & _ & _ & Hds)%request_granules_state; [|done].
  pose proof (examined_nonempty api_urls num_granules Hapi) as Hex.
  destruct (examined api_urls num_granules) as [|x l] eqn:Hx; [done|].
  assert (forall fuel,
            create_parallel_loop E fuel found_urls self1 [] true 0 (length found_urls) = None)
    as Hstuck.
  { intros fuel.
    apply (create_parallel_loop_stuck _ _ _ _ _ _ _ (length l)); [done| |done|done].
    destruct found_urls; [done|simpl; lia]. }
  split; [done|]. unfold create_parallel. rewrite Hreq.
  rewrite bool_decide_eq_false_2 by (by destruct found_urls). by rewrite Hstuck.
Qed.

End RunFurther.

(** ** The normaliser: further properties *)

Lemma select_in_bounds (lo hi : Z) (l : list Z) :
  Forall (fun c => lo <= c <= hi) (select (in_bounds lo hi <$> l) l).
Proof.
  induction l as [|c l IH]; csimpl; [done|].
  destruct (in_bounds lo hi c) eqn:Hc; [|done].
  apply Forall_cons. split; [|done]. unfold in_bounds in Hc. lia.
Qed.

Lemma select_sublist {A} (mask : list bool) (l : list A) : select mask l `sublist_of` l.
Proof.
  revert mask. induction l as [|a l IH]; intros [|m mask]; simpl;
    try apply sublist_nil_l.
  destruct m; [by apply sublist_skip|by apply sublist_cons].
Qed.

Section NormalizerFurther.

Variable strptime : string -> string -> option Z.
Variable int_of_str : string -> option Z.
Variable CELL_SIZE : Z.

Local Abbreviation preprocess := (preprocess_dataset strptime int_of_str CELL_SIZE).

(** X16. What [preprocess_dataset] returns.  The URL is the one passed
    in.  Data are returned only for a granule of the target projection,
    together with a middle date and not flagged empty; they lie within the
    bounds of the cube in [x] and [y], keep the order of the granule's
    coordinates, and have at least two columns, the first two [CELL_SIZE]
    apart.  Without data there is no middle date, and the granule is flagged
    empty exactly when it is of the target projection. *)
Theorem preprocess_dataset_result (self : ITSCube) (d : Dataset) (ds_url : string)
        (r : layer_result) :
  preprocess self d ds_url = OK r ->
  url r = ds_url /\
  match data r with
  | Some cropped =>
      is_empty r = false /\ is_Some (mid_date r) /\
      pretty (layer_projection r) = projection self /\
      Forall (fun x => x_min self <= x <= x_max self) (ds_x cropped) /\
      Forall (fun y => y_min self <= y <= y_max self) (ds_y cropped) /\
      ds_x cropped `sublist_of` ds_x d /\ ds_y cropped `sublist_of` ds_y d /\
      exists x0 x1, ds_x cropped !! 0%nat = Some x0 /\ ds_x cropped !! 1%nat = Some x1 /\
                    Z.abs (x0 - x1) = CELL_SIZE
  | None =>
      mid_date r = None /\
      (is_empty r = true <-> pretty (layer_projection r) = projection self)
  end.
Proof.
  unfold preprocess_dataset. intros H.
  apply bind_OK in H as (ds_projection & _ & H).
  apply bind_OK in H as (epsg & _ & H).
  case_bool_decide as Hproj.
  - apply bind_OK in H as (info & _ & H).
    apply bind_OK in H as (date_center & _ & H).
    apply bind_OK in H as (date_center_str & _ & H).
    apply bind_OK in H as (center & _ & H).
    apply bind_OK in H as (date_dt & _ & H).
    apply bind_OK in H as (dt_ms & _ & H).
    case_bool_decide as Hmask.
    { injection H as <-. simpl. by repeat split. }
    apply bind_OK in H as (v & _ & H).
    destruct (any_notnull (da_values v)).
    + apply bind_OK in H as (x0 & Hx0%of_option_OK & H).
      apply bind_OK in H as (x1 & Hx1%of_option_OK & H).
      case_bool_decide as Hcell; [discriminate|]. injection H as <-. simpl.
      split; [done|]. split; [done|]. split; [by eexists|]. split; [done|].
      split; [apply select_in_bounds|]. split; [apply select_in_bounds|].
      split; [apply select_sublist|]. split; [apply select_sublist|].
      exists x0, x1. split; [done|]. split; [done|].
      destruct (decide (Z.abs (x0 - x1) = CELL_SIZE)); [done|]. by destruct Hcell.
    + injection H as <-. simpl. by repeat split.
  - injection H as <-. simpl. split; [done|]. split; [done|]. by split.
Qed.

End NormalizerFurther.

(** ** Runs on local granules *)

Section LocalRuns.

Variable E : Environment.


End LocalRuns.

Section LocalParallel.

Variable E : Environment.

(** [combine_layers] does not read [num_urls_from_api]. *)
Lemma run_combine_layers_num_urls (self : ITSCube) (k : nat) (store : list store_op)
      (flag : bool) :
  run_combine_layers E (set_num_urls_from_api self k) store flag =
  result_map (fun r => (set_num_urls_from_api r.1 k, r.2))
             (run_combine_layers E self store flag).
Proof.
  assert (forall w,
            unify (env_strptime E) (AUTORIFT_SOFTWARE_VERSION E)
                  (AUTORIFT_PARAMETER_FILE E) (ACQUISITION_DATE_IMG1 E)
                  (ACQUISITION_DATE_IMG2 E) (TIME_STANDARD_IMG1 E)
                  (TIME_STANDARD_IMG2 E) (set_num_urls_from_api self k) w =
            unify (env_strptime E) (AUTORIFT_SOFTWARE_VERSION E)
                  (AUTORIFT_PARAMETER_FILE E) (ACQUISITION_DATE_IMG1 E)
                  (ACQUISITION_DATE_IMG2 E) (TIME_STANDARD_IMG1 E)
                  (TIME_STANDARD_IMG2 E) self w) as Hunify by reflexivity.
  unfold run_combine_layers, combine_layers.
  change (ds (set_num_urls_from_api self k)) with (ds self).
  case_bool_decide; [reflexivity|].
  match goal with
  |- ?a ≫= ?f = result_map ?g (?b ≫= ?f') => change a with b; destruct b as [x|e]; [|reflexivity]
  end.
  cbn [mbind result_bind].
  match goal with
  |- context [(if flag then ?a else ?b) ≫= _] =>
      destruct (if flag then a else b) as [w|e]; [|reflexivity]
  end.
  cbn [mbind result_bind]. rewrite Hunify.
  match goal with
  |- context [unify ?a1 ?a2 ?a3 ?a4 ?a5 ?a6 ?a7 ?a8 ?w0] =>
      destruct (unify a1 a2 a3 a4 a5 a6 a7 a8 w0) as [w'|err]; [|reflexivity]
  end.
  cbn [mbind result_bind]. destruct flag; [|reflexivity].
  match goal with
  |- context [encoding_settings ?a1 ?a2 ?a3 ?w0] =>
      destruct (encoding_settings a1 a2 a3 w0) as [enc|err]; reflexivity
  end.
Qed.

Lemma add_layer_set_num_urls (self : ITSCube) (k : nat) (r : layer_result) :
  add_layer (set_num_urls_from_api self k) r = set_num_urls_from_api (add_layer self r) k.
Proof. unfold add_layer. destruct (data r); [done|]. by destruct (is_empty r). Qed.

Lemma foldl_add_layer_set_num_urls (results : list layer_result) (self : ITSCube) (k : nat) :
  foldl add_layer (set_num_urls_from_api self k) results =
  set_num_urls_from_api (foldl add_layer self results) k.
Proof.
  revert self. induction results as [|r results IH]; intros self; simpl; [done|].
  by rewrite add_layer_set_num_urls, IH.
Qed.

(** While [num_urls_from_api] is positive the loop of the local parallel
    run is that of [create_parallel]; its assertion never fails. *)
Lemma local_parallel_loop_as_create_parallel (found_urls : list string) (fuel : nat)
      (self : ITSCube) (store : list store_op) (flag : bool)
      (start num_to_process k j : nat) :
  num_urls_from_api self = Some (S j) ->
  (start + num_to_process = length found_urls)%nat ->
  local_parallel_loop E fuel found_urls (set_num_urls_from_api self k) store flag
                      start num_to_process =
  result_map (fun r => (set_num_urls_from_api r.1 k, r.2))
    <$> create_parallel_loop E fuel found_urls self store flag start num_to_process.
Proof.
  revert self store flag start num_to_process.
  induction fuel as [|fuel IH]; intros self store flag start ntp Hn Hlen; simpl.
  - by case_bool_decide.
  - case_bool_decide; [done|].
    set (num_tasks := if bool_decide (NUM_GRANULES_TO_WRITE E < ntp)%nat
                      then NUM_GRANULES_TO_WRITE E else ntp) in *.
    assert (num_tasks <= ntp)%nat as Hle.
    { unfold num_tasks.
      destruct (bool_decide (NUM_GRANULES_TO_WRITE E < ntp)%nat) eqn:Hb;
        [apply bool_decide_eq_true in Hb|]; lia. }
    rewrite bool_decide_eq_false_2 by (rewrite length_take, length_drop; lia).
    rewrite (for_each_ext (read_dataset E (set_num_urls_from_api self k))
                          (read_dataset E self)) by done.
    destruct (for_each (read_dataset E self) _) as [results|e]; [|done].
    rewrite foldl_add_layer_set_num_urls, run_combine_layers_num_urls.
    destruct (foldl_add_layer results self) as (_ & Hn1 & _).
    destruct (run_combine_layers E (foldl add_layer self results) store flag)
      as [[self2 store2]|e] eqn:Hc; [|done].
    apply combine_layers_effect in Hc as (_ & Hn2 & _). simpl.
    assert (num_urls_from_api self2 = Some (S j)) as Hn' by congruence.
    unfold format_stats at 1. rewrite Hn'. apply IH; [done|lia].
Qed.


End LocalParallel.

(** ** The records of the store *)

Section AssemblerRecords.

Variable strptime : string -> string -> option Z.
Variable ASV APF AD1 AD2 TS1 TS2 : string.
Variable self : ITSCube.

Local Abbreviation combine := (combine_layers strptime ASV APF AD1 AD2 TS1 TS2 self).
Local Abbreviation phases := (unify_phases strptime ASV APF AD1 AD2 TS1 TS2 self).

(** The batch written by [combine_layers]: its coordinates are the dates of
    the accumulator and the grid of the cube, its URL variable holds the
    URLs of the accumulator. *)
Lemma combine_layers_batch (store store' : list store_op) (is_first_write : bool)
      (self' : ITSCube) :
  ds self ≠ [] -> DataVars.URL ∉ [ASV; AD1; AD2] ->
  combine store is_first_write = OK (self', store') ->
  exists op,
    store' = store ++ [op] /\
    coord_mid_date (written_layers op) = dates self /\
    coord_x (written_layers op) = grid_x self /\
    coord_y (written_layers op) = grid_y self /\
    data_vars (written_layers op) !! DataVars.URL = Some (Series (VStr <$> urls self)).
Proof.
  intros Hne Hfree. unfold combine_layers.
  rewrite bool_decide_eq_false_2 by (by destruct (ds self)).
  intros H. apply bind_OK in H as (url_var & Hurl & H).
  apply bind_OK in H as (w0 & Hw0 & H).
  apply bind_OK in H as (w & Hw & H).
  apply bind_OK in H as (op & Hop & [= <- <-]).
  exists op. split; [done|].
  assert (url_var = Series (VStr <$> urls self)) as ->.
  { unfold series in Hurl. case_bool_decide; [|discriminate]. by injection Hurl as <-. }
  assert (w_layers w0 !! DataVars.URL = Some (Series (VStr <$> urls self))) as Hurl0.
  { destruct is_first_write.
    - apply set_projection_spec in Hw0 as (_ & attrs & ->). simpl.
      rewrite lookup_insert_ne by done. by rewrite lookup_singleton_eq.
    - injection Hw0 as <-. simpl. by rewrite lookup_singleton_eq. }
  rewrite unify_run_all in Hw.
  apply (run_all_spec self) in Hw as [[Hframe _] _]; [|apply unify_phases_ok].
  assert (w_layers w !! DataVars.URL = Some (Series (VStr <$> urls self))) as Hurlw.
  { rewrite Hframe; [done|]. intros Hin. cbv in Hin.
    repeat (apply elem_of_cons in Hin as [Hin|Hin];
            [first [discriminate Hin
                   | apply Hfree; rewrite <- Hin; cbv;
                     repeat first [apply list_elem_of_here | apply list_elem_of_further]]|]).
    by apply elem_of_nil in Hin. }
  assert (written_layers op = layers_dataset self w) as ->.
  { destruct is_first_write.
    - by apply bind_OK in Hop as (e & He & [= <-]).
    - by injection Hop as <-. }
  done.
Qed.

End AssemblerRecords.

Lemma add_layer_records (self : ITSCube) (r : layer_result) :
  urls (add_layer self r) = urls self ++ (url <$> filter accepted [r]) /\
  dates (add_layer self r) = dates self ++ (mid_date <$> filter accepted [r]).
Proof.
  unfold add_layer, accepted. destruct (data r) as [d|] eqn:Hd.
  - rewrite filter_cons_True by (by rewrite Hd). done.
  - rewrite filter_cons_False by (rewrite Hd; by intros [? ?]).
    destruct (is_empty r); simpl; by rewrite !app_nil_r.
Qed.

Lemma foldl_add_layer_records (results : list layer_result) (self : ITSCube) :
  urls (foldl add_layer self results) = urls self ++ (url <$> filter accepted results) /\
  dates (foldl add_layer self results) = dates self ++ (mid_date <$> filter accepted results).
Proof.
  revert self. induction results as [|r results IH]; intros self; simpl.
  - by rewrite !app_nil_r.
  - destruct (IH (add_layer self r)) as [-> ->].
    destruct (add_layer_records self r) as [-> ->].
    change (r :: results) with ([r] ++ results).
    by rewrite filter_app, !fmap_app, !app_assoc.
Qed.

Lemma store_urls_snoc (store : list store_op) (op : store_op) :
  store_urls (store ++ [op]) = store_urls store ++ written_urls op.
Proof. unfold store_urls. rewrite fmap_app, concat_app. simpl. by rewrite app_nil_r. Qed.

Lemma store_dates_snoc (store : list store_op) (op : store_op) :
  store_dates (store ++ [op]) = store_dates store ++ coord_mid_date (written_layers op).
Proof. unfold store_dates. rewrite fmap_app, concat_app. simpl. by rewrite app_nil_r. Qed.

Section RunRecords.

Variable E : Environment.
Hypothesis Hfree : url_name_free E.

(** Every result of the normaliser carries the URL it was asked for. *)
Lemma read_dataset_url (self : ITSCube) (u : string) (r : layer_result) :
  read_dataset E self u = OK r -> url r = u.
Proof.
  unfold read_dataset, preprocess_dataset. intros H.
  apply bind_OK in H as (d & _ & H).
  apply bind_OK in H as (ds_projection & _ & H).
  apply bind_OK in H as (epsg & _ & H).
  case_bool_decide; [|by injection H as <-].
  do 6 (let x := fresh in apply bind_OK in H as (x & _ & H)).
  case_bool_decide; [by injection H as <-|].
  apply bind_OK in H as (v & _ & H).
  destruct (any_notnull (da_values v)); [|by injection H as <-].
  do 2 (let x := fresh in apply bind_OK in H as (x & _ & H)).
  case_bool_decide; [discriminate|]. by injection H as <-.
Qed.

Lemma for_each_read_dataset_urls (self : ITSCube) (found_urls : list string)
      (results : list layer_result) :
  for_each (read_dataset E self) found_urls = OK results -> url <$> results = found_urls.
Proof.
  revert results. induction found_urls as [|u found_urls IH]; intros results H; simpl in H.
  - by injection H as <-.
  - apply bind_OK in H as (r & Hr & H). apply bind_OK in H as (rs & Hrs & [= <-]).
    csimpl. by rewrite (read_dataset_url _ _ _ Hr), (IH rs).
Qed.

(** A write moves the URLs and the dates of the accumulator to the store. *)
Lemma combine_layers_records (self self' : ITSCube) (store store' : list store_op)
      (flag : bool) :
  aligned self ->
  run_combine_layers E self store flag = OK (self', store') ->
  store_urls store' ++ (VStr <$> urls self') = store_urls store ++ (VStr <$> urls self) /\
  store_dates store' ++ dates self' = store_dates store ++ dates self /\
  (ds self ≠ [] -> exists op, store' = store ++ [op] /\ batch_length op = length (urls self)).
Proof.
  intros Hal H. destruct (decide (ds self = [])) as [Hemp|Hne].
  - unfold run_combine_layers, combine_layers in H. rewrite Hemp in H. simpl in H.
    by injection H as <- <-.
  - pose proof H as Heff. apply combine_layers_effect in Heff as (_ & _ & _ & _ & Hclr & _).
    destruct (Hclr Hal) as [-> ->].
    unfold run_combine_layers in H.
    apply combine_layers_batch in H as (op & -> & Hdates & _ & _ & Hurl);
      [|exact Hne|exact Hfree].
    rewrite store_urls_snoc, store_dates_snoc, Hdates, !app_nil_r.
    unfold written_urls. rewrite Hurl. split; [done|]. split; [done|].
    intros _. exists op. split; [done|]. unfold batch_length. rewrite Hdates.
    by destruct Hal as [_ ->].
Qed.

Lemma create_loop_records (found_urls : list string) (self self' : ITSCube)
      (store store' : list store_op) (flag flag' : bool) (results : list layer_result) :
  create_loop E found_urls (self, store, flag) = OK (self', store', flag') ->
  aligned self ->
  for_each (read_dataset E self) found_urls = OK results ->
  store_urls store' ++ (VStr <$> urls self') =
    store_urls store ++ (VStr <$> urls self) ++ (VStr <$> (url <$> filter accepted results)) /\
  store_dates store' ++ dates self' =
    store_dates store ++ dates self ++ (mid_date <$> filter accepted results).
Proof.
  revert self store flag results.
  induction found_urls as [|u found_urls IH]; intros self store flag results H Hal Hres;
    simpl in H, Hres.
  - injection H as <- <- <-. injection Hres as <-. simpl. by rewrite !app_nil_r.
  - apply bind_OK in H as (r & Hr & H).
    apply bind_OK in H as ([[self1 store1] flag1] & Hstep & H).
    rewrite Hr in Hres. simpl in Hres.
    apply bind_OK in Hres as (rs & Hrs & [= <-]).
    pose proof (add_layer_aligned self r Hal) as Hal'.
    destruct (add_layer_records self r) as [Hu Hd].
    assert (aligned self1 /\ target self1 = target self /\
            store_urls store1 ++ (VStr <$> urls self1) =
              store_urls store ++ (VStr <$> urls (add_layer self r)) /\
            store_dates store1 ++ dates self1 =
              store_dates store ++ dates (add_layer self r))
      as (Hal1 & Ht1 & Hu1 & Hd1).
    { case_bool_decide as Hfull.
      - apply bind_OK in Hstep as ([self2 store2] & Hc & [= <- <- <-]).
        pose proof Hc as (Ht & _ & _ & Hds & Hclr & _)%combine_layers_effect.
        destruct (Hclr Hal') as [Hdt Hurl].
        apply combine_layers_records in Hc as (? & ? & _); [|done]. simpl.
        split; [split; by rewrite ?Hds, ?Hdt, ?Hurl|].
        split; [by rewrite Ht, add_layer_target|done].
      - injection Hstep as <- <- <-. split; [done|]. split; [apply add_layer_target|done]. }
    rewrite (for_each_ext _ (read_dataset E self1)) in Hrs
      by (intros u'; symmetry; by apply read_dataset_target).
    destruct (IH _ _ _ _ H Hal1 Hrs) as [-> ->].
    rewrite !app_assoc, Hu1, Hd1, Hu, Hd.
    change (r :: rs) with ([r] ++ rs).
    by rewrite filter_app, !fmap_app, !app_assoc.
Qed.


End RunRecords.

Lemma for_each_app_inv {A B} (f : A -> result B) (l1 l2 : list A) (r : list B) :
  for_each f (l1 ++ l2) = OK r ->
  exists r1 r2, r = r1 ++ r2 /\ for_each f l1 = OK r1 /\ for_each f l2 = OK r2.
Proof.
  revert r. induction l1 as [|a l1 IH]; intros r H; simpl in H.
  - by exists [], r.
  - apply bind_OK in H as (b & Hb & H). apply bind_OK in H as (bs & Hbs & [= <-]).
    destruct (IH _ Hbs) as (r1 & r2 & -> & H1 & H2).
    exists (b :: r1), r2. simpl. by rewrite Hb, H1.
Qed.

Section RunBatches.

Variable E : Environment.

(** The batch written for a non-empty accumulator has one record per
    accumulated granule. *)
Lemma combine_layers_batch_length (self self' : ITSCube) (store store' : list store_op)
      (flag : bool) :
  ds self ≠ [] ->
  run_combine_layers E self store flag = OK (self', store') ->
  exists op, store' = store ++ [op] /\ batch_length op = length (ds self).
Proof.
  intros Hne H. unfold run_combine_layers in H.
  pose proof H as (w0 & w & op & _ & -> & Hop & _ & _ & Hds & _ & Hrun)%combine_layers_OK;
    [|exact Hne].
  exists op. split; [done|]. unfold batch_length. rewrite Hop. simpl.
  rewrite <- Hds. rewrite <- unify_run_all in Hrun. symmetry. by eapply unify_length.
Qed.

Lemma create_loop_batches (found_urls : list string) (self self' : ITSCube)
      (store store' : list store_op) (flag flag' : bool) :
  (0 < NUM_GRANULES_TO_WRITE E)%nat ->
  create_loop E found_urls (self, store, flag) = OK (self', store', flag') ->
  aligned self -> (length (urls self) < NUM_GRANULES_TO_WRITE E)%nat ->
  Forall (fun op => batch_length op = NUM_GRANULES_TO_WRITE E) store ->
  aligned self' /\ (length (urls self') < NUM_GRANULES_TO_WRITE E)%nat /\
  Forall (fun op => batch_length op = NUM_GRANULES_TO_WRITE E) store'.
Proof.
  intros Hpos. revert self store flag.
  induction found_urls as [|u found_urls IH]; intros self store flag H Hal Hlt Hall;
    simpl in H.
  - by injection H as <- <- <-.
  - apply bind_OK in H as (r & Hr & H).
    apply bind_OK in H as ([[self1 store1] flag1] & Hstep & H).
    pose proof (add_layer_aligned self r Hal) as Hal'.
    assert (length (urls (add_layer self r)) <= S (length (urls self)))%nat as Hle.
    { unfold add_layer. destruct (data r); simpl.
      - rewrite length_app. simpl. lia.
      - destruct (is_empty r); simpl; lia. }
    apply (IH _ _ _ H); clear IH H.
    + case_bool_decide as Hfull.
      * apply bind_OK in Hstep as ([self2 store2] & Hc & [= <- <- <-]).
        apply combine_layers_effect in Hc as (_ & _ & _ & Hds & Hclr & _).
        destruct (Hclr Hal') as [Hdt Hurl]. simpl.
        split; by rewrite ?Hds, ?Hdt, ?Hurl.
      * by injection Hstep as <- <- <-.
    + case_bool_decide as Hfull.
      * apply bind_OK in Hstep as ([self2 store2] & Hc & [= <- <- <-]).
        apply combine_layers_effect in Hc as (_ & _ & _ & _ & Hclr & _).
        destruct (Hclr Hal') as [_ Hurl]. simpl. rewrite Hurl. simpl. lia.
      * injection Hstep as <- <- <-. lia.
    + case_bool_decide as Hfull.
      * apply bind_OK in Hstep as ([self2 store2] & Hc & [= <- <- <-]).
        destruct Hal' as [Hl1 Hl2].
        apply combine_layers_batch_length in Hc as (op & -> & Hop).
        -- simpl. apply Forall_app. split; [done|]. apply Forall_singleton. lia.
        -- intros Hnil. rewrite Hnil in Hl1. simpl in Hl1. lia.
      * by injection Hstep as <- <- <-.
Qed.



Lemma create_parallel_loop_batches (found_urls : list string) (fuel : nat)
      (self self' : ITSCube) (store store' : list store_op) (flag : bool)
      (start num_to_process : nat) :
  create_parallel_loop E fuel found_urls self store flag start num_to_process
    = Some (OK (self', store')) ->
  aligned self -> ds self = [] ->
  Forall (fun op => 0 < batch_length op <= NUM_GRANULES_TO_WRITE E)%nat store ->
  Forall (fun op => 0 < batch_length op <= NUM_GRANULES_TO_WRITE E)%nat store'.
Proof.
  revert self store flag start num_to_process.
  induction fuel as [|fuel IH]; intros self store flag start ntp H Hal Hds Hall.
  - simpl in H. case_bool_decide as Hz; [|discriminate]. by injection H as <- <-.
  - simpl in H. case_bool_decide as Hz.
    { by injection H as <- <-. }
    set (num_tasks := if bool_decide (NUM_GRANULES_TO_WRITE E < ntp)%nat
                      then NUM_GRANULES_TO_WRITE E else ntp) in *.
    assert (num_tasks <= NUM_GRANULES_TO_WRITE E)%nat as Hle.
    { unfold num_tasks.
      destruct (bool_decide (NUM_GRANULES_TO_WRITE E < ntp)%nat) eqn:Hb;
        [|apply bool_decide_eq_false in Hb]; lia. }
    destruct (for_each (read_dataset E self) (take num_tasks (drop start found_urls)))
      as [results1|e] eqn:Hres1; [|discriminate].
    apply for_each_length in Hres1. rewrite length_take in Hres1.
    destruct (foldl_add_layer results1 self) as (_ & _ & Hal1 & Hl1 & _).
    specialize (Hal1 Hal).
    pose proof (length_filter accepted results1) as Hfil.
    set (self1 := foldl add_layer self results1) in *.
    destruct (run_combine_layers E self1 store flag) as [[self2 store2]|e] eqn:Hc;
      [|discriminate].
    destruct (format_stats self2) as [[]|e]; [|discriminate].
    pose proof Hc as (_ & _ & _ & Hds2 & Hclr2 & _ & _ & Hsame & _)%combine_layers_effect.
    destruct (Hclr2 Hal1) as [Hd2 Hurl2].
    apply (IH _ _ _ _ _ H); clear IH H.
    + split; by rewrite ?Hds2, ?Hd2, ?Hurl2.
    + done.
    + destruct (decide (ds self1 = [])) as [Hemp|Hne].
      * by rewrite (Hsame Hemp).
      * apply combine_layers_batch_length in Hc as (op & -> & Hop); [|done].
        apply Forall_app. split; [done|]. apply Forall_singleton.
        rewrite Hop, Hl1, Hds. simpl.
        assert (length (ds self1) ≠ 0%nat) by (by destruct (ds self1)).
        rewrite Hl1, Hds in H. simpl in H. lia.
Qed.


End RunBatches.

Section RunRecordsParallel.

Variable E : Environment.
Hypothesis Hfree : url_name_free E.

Lemma create_parallel_loop_records (found_urls : list string) (fuel : nat)
      (self self' : ITSCube) (store store' : list store_op) (flag : bool)
      (start num_to_process : nat) (results : list layer_result) :
  create_parallel_loop E fuel found_urls self store flag start num_to_process
    = Some (OK (self', store')) ->
  aligned self -> ds self = [] ->
  (start + num_to_process = length found_urls)%nat ->
  for_each (read_dataset E self) (drop start found_urls) = OK results ->
  store_urls store' = store_urls store ++ (VStr <$> (url <$> filter accepted results)) /\
  store_dates store' = store_dates store ++ (mid_date <$> filter accepted results).
Proof.
  revert self store flag start num_to_process results.
  induction fuel as [|fuel IH]; intros self store flag start ntp results H Hal Hds Hlen Hres.
  - simpl in H. case_bool_decide as Hz; [|discriminate]. injection H as <- <-.
    rewrite drop_ge in Hres by lia. injection Hres as <-. simpl. by rewrite !app_nil_r.
  - simpl in H. case_bool_decide as Hz.
    { injection H as <- <-.
      rewrite drop_ge in Hres by lia. injection Hres as <-. simpl. by rewrite !app_nil_r. }
    set (num_tasks := if bool_decide (NUM_GRANULES_TO_WRITE E < ntp)%nat
                      then NUM_GRANULES_TO_WRITE E else ntp) in *.
    assert (num_tasks <= ntp)%nat as Hle.
    { unfold num_tasks.
      destruct (bool_decide (NUM_GRANULES_TO_WRITE E < ntp)%nat) eqn:Hb;
        [apply bool_decide_eq_true in Hb|]; lia. }
    rewrite <- (take_drop num_tasks (drop start found_urls)), drop_drop in Hres.
    apply for_each_app_inv in Hres as (results1 & results2 & -> & Hres1 & Hres2).
    rewrite Hres1 in H.
    destruct (foldl_add_layer results1 self) as (Ht1 & _ & Hal1 & _).
    specialize (Hal1 Hal).
    destruct (foldl_add_layer_records results1 self) as [Hu1 Hd1].
    set (self1 := foldl add_layer self results1) in *.
    destruct (run_combine_layers E self1 store flag) as [[self2 store2]|e] eqn:Hc;
      [|discriminate].
    destruct (format_stats self2) as [[]|e]; [|discriminate].
    pose proof Hc as (Ht2 & _ & _ & Hds2 & Hclr2 & _)%combine_layers_effect.
    destruct (Hclr2 Hal1) as [Hd2 Hurl2].
    apply (combine_layers_records E Hfree) in Hc as (Hu & Hd & _); [|done].
    rewrite Hurl2, Hd2, !app_nil_r, Hu1, Hd1 in *.
    assert (urls self = [] /\ dates self = []) as [Hu0 Hd0].
    { destruct Hal as [Hl1 Hl2]. rewrite Hds in Hl1. simpl in Hl1.
      split; apply nil_length_inv; lia. }
    rewrite Hu0, Hd0 in *. simpl in Hu, Hd.
    apply (IH _ _ _ _ _ results2) in H as [-> ->].
    + rewrite Hu, Hd, filter_app, !fmap_app, !app_assoc. done.
    + split; by rewrite ?Hds2, ?Hd2, ?Hurl2.
    + done.
    + lia.
    + rewrite (for_each_ext _ (read_dataset E self)); [done|].
      intros u. apply read_dataset_target. by rewrite Ht2, Ht1.
Qed.


End RunRecordsParallel.

(** ** The assembler: further properties *)

Section AssemblerFurther.

Variable strptime : string -> string -> option Z.
Variable ASV APF AD1 AD2 TS1 TS2 : string.
Variable self : ITSCube.

Local Abbreviation combine := (combine_layers strptime ASV APF AD1 AD2 TS1 TS2 self).
Local Abbreviation phases := (unify_phases strptime ASV APF AD1 AD2 TS1 TS2 self).

(** A phase of the unification sees the granules as the phases before it
    have left them, and what it assigns is kept by the phases after it unless
    they assign to the same name. *)
Lemma run_all_at (pre post : list phase) (p : phase) (w0 w : work) :
  phases = pre ++ p :: post ->
  run_all phases w0 = OK w ->
  exists w1 w2,
    run p w1 = OK w2 /\
    Forall2 (same_except (List.concat (drops <$> pre))) (w_ds w0) (w_ds w1) /\
    forall k, k ∉ List.concat (assigns <$> post) -> w_layers w !! k = w_layers w2 !! k.
Proof.
  intros Hsplit Hrun.
  pose proof (unify_phases_ok strptime ASV APF AD1 AD2 TS1 TS2 self) as Hok.
  rewrite Hsplit in Hrun, Hok.
  apply Forall_app in Hok as [Hok_pre Hok_post].
  apply Forall_cons in Hok_post as [_ Hok_post].
  apply run_all_app in Hrun as (w1 & Hrun_pre & Hrun).
  simpl in Hrun. apply bind_OK in Hrun as (w2 & Hp & Hrun_post).
  apply (run_all_spec self) in Hrun_pre as [_ Hds]; [|done].
  apply (run_all_spec self) in Hrun_post as [[Hframe _] _]; [|done].
  by exists w1, w2.
Qed.

Lemma Forall2_same_except (D : list string) (x : string) (l l' : list Dataset)
      (arrays : list DataArray) :
  x ∉ D -> Forall2 (same_except D) l l' ->
  Forall2 (fun d a => ds_vars d !! x = Some a) l' arrays ->
  Forall2 (fun d a => ds_vars d !! x = Some a) l arrays.
Proof.
  intros Hx Hsame. revert arrays.
  induction Hsame as [|d d' l l' Hd _ IH]; intros arrays H.
  - by apply Forall2_nil_inv_l in H as ->.
  - apply Forall2_cons_inv_l in H as (a & arrays' & Ha & H & ->).
    apply Forall2_cons. split; [|by apply IH]. by rewrite <- (Hd x Hx).
Qed.

Lemma for_each_ds_getattr (x : string) (l : list Dataset) (arrays : list DataArray) :
  for_each (fun d => ds_getattr d x) l = OK arrays ->
  Forall2 (fun d a => ds_vars d !! x = Some a) l arrays.
Proof.
  intros H. apply for_each_Forall2 in H.
  eapply Forall2_impl; [exact H|]. intros d a Ha. by apply of_option_OK in Ha.
Qed.

Lemma process_required_at (x : string) (w w' : work) :
  process_required self x w = OK w' ->
  exists arrays, w_layers w' !! x = Some (Cube (da_values <$> arrays)) /\
                 Forall2 (fun d a => ds_vars d !! x = Some a) (w_ds w) arrays.
Proof.
  unfold process_required. intros H.
  apply bind_OK in H as (arrays & Harr & H).
  apply bind_OK in H as (v & Hv & H).
  apply bind_OK in H as (ds' & _ & [= <-]). simpl.
  apply concat_spec in Hv as [-> _]. exists arrays.
  split; [by rewrite lookup_insert_eq|by apply for_each_ds_getattr].
Qed.

Lemma process_required_v_at (x : string) (w w' : work) :
  x ∉ pva_names x ->
  process_required_v strptime self x w = OK w' ->
  exists arrays, w_layers w' !! x = Some (Cube (da_values <$> arrays)) /\
                 Forall2 (fun d a => ds_vars d !! x = Some a) (w_ds w) arrays.
Proof.
  unfold process_required_v. intros Hx H.
  apply bind_OK in H as (arrays & Harr & H).
  apply bind_OK in H as (v & Hv & H).
  apply bind_OK in H as ([w1 names] & Hattrs & H).
  apply bind_OK in H as (ds' & _ & [= <-]). simpl.
  apply concat_spec in Hv as [-> _].
  apply (process_v_attributes_spec _ _ []) in Hattrs as [[Hframe _] _].
  exists arrays. rewrite (Hframe x Hx). simpl.
  split; [by rewrite lookup_insert_eq|by apply for_each_ds_getattr].
Qed.

Lemma process_v_at (w w' : work) :
  process_v strptime self w = OK w' ->
  exists arrays, w_layers w' !! DataVars.V = Some (Cube (da_values <$> arrays)) /\
                 Forall2 (fun d a => ds_vars d !! DataVars.V = Some a) (w_ds w) arrays.
Proof.
  unfold process_v. intros H.
  apply bind_OK in H as (arrays & Harr & H).
  apply bind_OK in H as (v & Hv & H).
  apply bind_OK in H as (_ & _ & H).
  apply bind_OK in H as (has_msc & _ & H).
  apply bind_OK in H as (w1 & Hw1 & H).
  apply bind_OK in H as (ds' & _ & [= <-]). simpl.
  apply concat_spec in Hv as [-> _]. exists arrays.
  split; [|by apply for_each_ds_getattr].
  destruct has_msc.
  - apply bind_OK in Hw1 as (m & _ & [= <-]). simpl.
    rewrite lookup_insert_ne by done. by rewrite lookup_insert_eq.
  - injection Hw1 as <-. simpl. by rewrite lookup_insert_eq.
Qed.

Lemma process_chip_size_height_at (w w' : work) :
  process_chip_size_height self w = OK w' ->
  exists slices, w_layers w' !! DataVars.CHIP_SIZE_HEIGHT = Some (Cube slices) /\
                 Forall2 (fun d s => chip_size_height_of d = Some s) (w_ds w) slices.
Proof.
  unfold process_chip_size_height. intros H.
  apply bind_OK in H as (arrays & Harr & H).
  apply bind_OK in H as (v & Hv & H).
  apply bind_OK in H as (ds' & _ & [= <-]). simpl.
  apply concat_spec in Hv as [-> _]. exists (da_values <$> arrays).
  split; [by rewrite lookup_insert_eq|].
  apply for_each_Forall2 in Harr. apply Forall2_fmap_r.
  eapply Forall2_impl; [exact Harr|]. intros d a Ha. simpl in Ha.
  apply bind_OK in Ha as (h & Hh%of_option_OK & Ha).
  unfold chip_size_height_of. rewrite Hh. simpl.
  case_bool_decide.
  - by injection Ha as <-.
  - apply of_option_OK in Ha. by rewrite Ha.
Qed.

Ltac names_in :=
  cbv; repeat first [apply list_elem_of_here | apply list_elem_of_further].

Ltac names_not_in Hnames :=
  let Hin := fresh "Hin" in
  intros Hin; cbv in Hin;
  repeat (apply elem_of_cons in Hin as [Hin|Hin];
          [first [discriminate Hin | apply Hnames; rewrite <- Hin; names_in]|]);
  by apply elem_of_nil in Hin.

(** What remains when the run of a required phase is located among the
    phases. *)
Lemma required_kept (pre post : list phase) (p : phase) (x : string) (w0 w : work) :
  phases = pre ++ p :: post ->
  (forall w1 w2, run p w1 = OK w2 ->
     exists arrays, w_layers w2 !! x = Some (Cube (da_values <$> arrays)) /\
                    Forall2 (fun d a => ds_vars d !! x = Some a) (w_ds w1) arrays) ->
  x ∉ List.concat (drops <$> pre) ->
  x ∉ List.concat (assigns <$> post) ->
  run_all phases w0 = OK w ->
  exists arrays, w_layers w !! x = Some (Cube (da_values <$> arrays)) /\
                 Forall2 (fun d a => ds_vars d !! x = Some a) (w_ds w0) arrays.
Proof.
  intros Hsplit Heff Hpre Hpost Hrun.
  destruct (run_all_at pre post p w0 w Hsplit Hrun) as (w1 & w2 & Hp & Hsame & Hframe).
  destruct (Heff w1 w2 Hp) as (arrays & Hx & Harr).
  exists arrays. split; [by rewrite (Hframe x Hpost)|].
  exact (Forall2_same_except _ x _ _ _ Hpre Hsame Harr).
Qed.


Lemma Forall2_chip_size_height (D : list string) (l l' : list Dataset)
      (slices : list array2) :
  DataVars.CHIP_SIZE_HEIGHT ∉ D -> DataVars.CHIP_SIZE_WIDTH ∉ D ->
  Forall2 (same_except D) l l' ->
  Forall2 (fun d s => chip_size_height_of d = Some s) l' slices ->
  Forall2 (fun d s => chip_size_height_of d = Some s) l slices.
Proof.
  intros Hh Hw Hsame. revert slices.
  induction Hsame as [|d d' l l' Hd _ IH]; intros slices H.
  - by apply Forall2_nil_inv_l in H as ->.
  - apply Forall2_cons_inv_l in H as (s & slices' & Hs & H & ->).
    apply Forall2_cons. split; [|by apply IH].
    unfold chip_size_height_of in *. by rewrite <- (Hd _ Hh), <- (Hd _ Hw).
Qed.


Lemma error_variable_at (x : string) (w w' : work) :
  x ∈ [DataVars.VX; DataVars.VY] ->
  error_variable strptime self x DataVars.ERROR w = OK w' ->
  w_ds w' = w_ds w /\
  exists data, w_layers w' !! (x +:+ "_" +:+ DataVars.ERROR) = Some (Series data) /\
               length data = length (dates self) /\
               Forall2 (fun p v => error_of x p.1 = Some v) (ds_urls self w) data.
Proof.
  intros Hx. unfold error_variable.
  rewrite (bool_decide_eq_true_2 (x ∈ [DataVars.VX; DataVars.VY]) Hx). intros H.
  apply bind_OK in H as (data & Hdata & H).
  apply bind_OK in H as (has_desc & _ & H).
  apply bind_OK in H as (_ & _ & H).
  apply bind_OK in H as (v & Hv & [= <-]). simpl. split; [done|].
  unfold series in Hv. case_bool_decide as Hlen; [|discriminate]. injection Hv as <-.
  exists data. rewrite lookup_insert_eq. split; [done|]. split; [done|].
  apply for_each_Forall2 in Hdata.
  eapply Forall2_impl; [exact Hdata|]. intros [d u] v Hv. simpl in *.
  apply bind_OK in Hv as (a & Ha%of_option_OK & Hv).
  unfold error_of. rewrite Ha. simpl. f_equal.
  unfold get_data_var_attr in Hv. rewrite Ha in Hv. simpl in Hv.
  case_bool_decide as Hhas.
  - destruct Hhas as [e He]. rewrite He in *. by injection Hv as <-.
  - assert (da_attrs a !! (x +:+ "_" +:+ DataVars.ERROR) = None) as ->.
    { destruct (da_attrs a !! (x +:+ "_" +:+ DataVars.ERROR)); [|done].
      exfalso. apply Hhas. by eexists. }
    destruct (da_attrs a !! DataVars.STABLE_RMSE); by injection Hv as <-.
Qed.

(** The error variable survives the rest of [process_v_attributes]. *)
Lemma process_v_attributes_error (x : string) (w w' : work) (names : list string) :
  x ∈ [DataVars.VX; DataVars.VY] ->
  process_v_attributes strptime self x w = OK (w', names) ->
  exists data, w_layers w' !! (x +:+ "_" +:+ DataVars.ERROR) = Some (Series data) /\
               length data = length (dates self) /\
               Forall2 (fun p v => error_of x p.1 = Some v) (ds_urls self w) data.
Proof.
  intros Hx. unfold process_v_attributes. intros H.
  apply bind_OK in H as (_ & _ & H).
  apply bind_OK in H as (w1 & H1 & H).
  apply (error_variable_at x w w1 Hx) in H1 as (Hds1 & data & Hlayer & Hlen & Hdata).
  exists data. split; [|done].
  apply bind_OK in H as (w2 & H2 & H).
  apply bind_OK in H as (w3 & H3 & H).
  apply bind_OK in H as (w4 & H4 & H).
  apply bind_OK in H as (w5 & H5 & H).
  apply bind_OK in H as (w6 & H6 & H).
  apply bind_OK in H as (w7 & H7 & H).
  apply bind_OK in H as (w8 & H8 & H).
  apply bind_OK in H as (w9 & H9 & H).
  apply bind_OK in H as (w10 & H10 & H).
  apply bind_OK in H as (w11 & H11 & [= <- _]).
  apply (error_variable_spec _ _ []) in H2 as [[F2 _] _].
  apply (error_variable_spec _ _ []) in H3 as [[F3 _] _].
  apply (error_variable_spec _ _ []) in H4 as [[F4 _] _].
  apply (capture_once_spec _ _ []) in H5 as [[F5 _] _].
  apply (capture_once_spec _ _ []) in H6 as [[F6 _] _].
  apply (capture_once_spec _ _ []) in H7 as [[F7 _] _].
  apply (capture_flag_stable_shift_spec _ _ []) in H8 as [[F8 _] _].
  apply (shift_variable_spec _ _ []) in H9 as [[F9 _] _].
  apply (shift_variable_spec _ _ []) in H10 as [[F10 _] _].
  apply (shift_variable_spec _ _ []) in H11 as [[F11 _] _].
  rewrite <- Hlayer.
  repeat (apply elem_of_cons in Hx as [->|Hx]); [..|by apply elem_of_nil in Hx].
  all: rewrite F11, F10, F9, F8, F7, F6, F5, F4, F3, F2; first done.
  all: intros Hin; apply list_elem_of_singleton in Hin; cbv in Hin; discriminate Hin.
Qed.

Lemma process_required_v_error (x : string) (w w' : work) :
  x ∈ [DataVars.VX; DataVars.VY] ->
  process_required_v strptime self x w = OK w' ->
  exists data, w_layers w' !! (x +:+ "_" +:+ DataVars.ERROR) = Some (Series data) /\
               length data = length (dates self) /\
               Forall2 (fun p v => error_of x p.1 = Some v) (zip (w_ds w) (urls self)) data.
Proof.
  unfold process_required_v. intros Hx H.
  apply bind_OK in H as (arrays & Harr & H).
  apply bind_OK in H as (v & Hv & H).
  apply bind_OK in H as ([w1 names] & Hattrs & H).
  apply bind_OK in H as (ds' & _ & [= <-]). simpl.
  by apply process_v_attributes_error in Hattrs.
Qed.

Lemma Forall2_error_of (D : list string) (x : string) (l l' : list Dataset)
      (data : list value) :
  x ∉ D -> Forall2 (same_except D) l l' ->
  Forall2 (fun d v => error_of x d = Some v) l' data ->
  Forall2 (fun d v => error_of x d = Some v) l data.
Proof.
  intros Hx Hsame. revert data.
  induction Hsame as [|d d' l l' Hd _ IH]; intros data H.
  - by apply Forall2_nil_inv_l in H as ->.
  - apply Forall2_cons_inv_l in H as (v & data' & Hv & H & ->).
    apply Forall2_cons. split; [|by apply IH].
    unfold error_of in *. by rewrite <- (Hd x Hx).
Qed.

Lemma Forall2_zip_fst {A B C} (P : A -> C -> Prop) (l : list A) (k : list B) (m : list C) :
  length l = length m -> length k = length l ->
  Forall2 (fun p c => P p.1 c) (zip l k) m -> Forall2 P l m.
Proof.
  revert k m. induction l as [|a l IH]; intros [|b k] [|c m] Hl Hk H;
    simpl in *; try done; try lia.
  apply Forall2_cons_1 in H as [Ha H]. apply Forall2_cons. split; [done|].
  apply (IH k); [lia|lia|done].
Qed.


End AssemblerFurther.

(** ** Concrete runs for the further properties *)

Lemma skip_duplicate_granules_partition_witness :
  skip_duplicate_granules strptime_padded strftime_padded [granule_jan; granule_feb]
    = OK ([granule_feb], [granule_jan]) /\
  [granule_feb] ++ [granule_jan] ≡ₚ [granule_jan; granule_feb].
Proof.
  assert (skip_duplicate_granules strptime_padded strftime_padded [granule_jan; granule_feb]
          = OK ([granule_feb], [granule_jan])) as Hrun by (vm_compute; reflexivity).
  split; [exact Hrun|].
  exact (skip_duplicate_granules_partition strptime_padded strftime_padded
           [granule_jan; granule_feb] [granule_feb] [granule_jan] Hrun).
Defined.

Lemma kept_granules_share_dates_witness :
  exists ta tb,
    get_tokens_from_filename strptime_padded granule_jan = OK ta /\
    get_tokens_from_filename strptime_padded granule_jan_copy = OK tb /\
    (granule_id strftime_padded ta = granule_id strftime_padded tb ->
     proc_dates ta = proc_dates tb).
Proof.
  apply (kept_granules_share_dates strptime_padded strftime_padded
           [granule_jan; granule_jan_copy] [granule_jan; granule_jan_copy] []).
  - vm_compute. reflexivity.
  - by left.
  - right. by left.
Defined.

Lemma skipped_granule_superseded_witness :
  granule_jan ∈ [granule_jan; granule_feb] /\ (granule_jan ∉ [granule_feb]) /\
  exists t c tc,
    get_tokens_from_filename strptime_padded granule_jan = OK t /\
    c ∈ [granule_feb] /\ get_tokens_from_filename strptime_padded c = OK tc /\
    granule_id strftime_padded tc = granule_id strftime_padded t /\
    lex_lt (proc_dates t) (proc_dates tc).
Proof.
  apply (skipped_granule_superseded strptime_padded strftime_padded
           [granule_jan; granule_feb] [granule_feb] [granule_jan]).
  - vm_compute. reflexivity.
  - by left.
Defined.

Lemma skip_duplicate_granules_order_witness :
  exists granules' skipped',
    skip_duplicate_granules strptime_padded strftime_padded [granule_feb; granule_jan]
      = OK (granules', skipped') /\
    (forall u, u ∈ [granule_feb] <-> u ∈ granules') /\
    (forall u, u ∈ [granule_jan] <-> u ∈ skipped').
Proof.
  apply (skip_duplicate_granules_order strptime_padded strftime_padded
           [granule_jan; granule_feb]).
  - vm_compute. reflexivity.
  - apply perm_swap.
Defined.

Lemma get_tokens_from_filename_basename_witness :
  get_tokens_from_filename strptime_padded
    ("s3://its-live-data/velocity_image_pair/landsat/v00.0/32628" +:+ "/" +:+
     "LC08_L1TP_011002_20150821_20200101_01_T1_X_LC08_L1TP_011002_20150720_20200101_01_T1_G0240V01_P038.nc")
  = get_tokens_from_filename strptime_padded
      "LC08_L1TP_011002_20150821_20200101_01_T1_X_LC08_L1TP_011002_20150720_20200101_01_T1_G0240V01_P038.nc".
Proof.
  apply get_tokens_from_filename_basename. vm_compute. reflexivity.
Defined.

Lemma convert_to_date_malformed_witness :
  convert_to_date strptime_padded "url" "img_pair_info" "acquisition_date_img1"
                  (VStr ("20190215" +:+ "T" +:+ "205541" +:+ "T" +:+ "00:00:00")) =
  match strptime_padded ("20190215" +:+ "T" +:+ substring 0 2 "205541" +:+ ":"
                           +:+ substring 2 2 "205541" +:+ ":" +:+ substring 4 2 "205541")
                        "%Y%m%dT%H:%M:%S" with
  | Some d => OK (VDate d)
  | None => Raise (conversion_error "img_pair_info" "acquisition_date_img1" "url")
  end.
Proof. apply convert_to_date_malformed; reflexivity. Defined.

Lemma convert_to_date_result_witness :
  exists s, VStr "20200617T00:00:00" = VStr s /\
    ((exists d, VDate 1592352000000000 = VDate d) \/
     (VDate 1592352000000000 = VStr "20200617T00:00:00" /\
      (String.length s < 8)%nat /\ length (split "T" s) ≠ 3%nat)).
Proof.
  apply (convert_to_date_result strptime_padded "url" "img_pair_info" "date_center").
  vm_compute. reflexivity.
Defined.

Ltac run_OK run :=
  let Hok := fresh "Hok" in
  assert (is_OK run = true) as Hok by (vm_compute; reflexivity);
  destruct run as [[[found self'] store]|e] eqn:Hrun; [clear Hok|discriminate Hok].

Ltac parallel_run_OK run :=
  let Hok := fresh "Hok" in
  assert (match run with Some (OK _) => true | _ => false end = true) as Hok
      by (vm_compute; reflexivity);
  destruct run as [[[[found self'] store]|e]|] eqn:Hrun;
  [clear Hok|discriminate Hok|discriminate Hok].


Lemma preprocess_dataset_result_witness :
  exists r,
    preprocess_dataset strptime_padded int_of_digits 240 example_cube optical_granule
                       url_optical = OK r /\
    url r = url_optical /\
    match data r with
    | Some cropped =>
        is_empty r = false /\ is_Some (mid_date r) /\
        pretty (layer_projection r) = projection example_cube /\
        Forall (fun x => x_min example_cube <= x <= x_max example_cube) (ds_x cropped) /\
        Forall (fun y => y_min example_cube <= y <= y_max example_cube) (ds_y cropped) /\
        ds_x cropped `sublist_of` ds_x optical_granule /\
        ds_y cropped `sublist_of` ds_y optical_granule /\
        exists x0 x1, ds_x cropped !! 0%nat = Some x0 /\ ds_x cropped !! 1%nat = Some x1 /\
                      Z.abs (x0 - x1) = 240
    | None =>
        mid_date r = None /\
        (is_empty r = true <-> pretty (layer_projection r) = projection example_cube)
    end.
Proof.
  assert (is_OK (preprocess_dataset strptime_padded int_of_digits 240 example_cube
                   optical_granule url_optical) = true) as Hok by (vm_compute; reflexivity).
  destruct (preprocess_dataset strptime_padded int_of_digits 240 example_cube
              optical_granule url_optical) as [r|e] eqn:Hrun; [clear Hok|discriminate Hok].
  exists r. split; [reflexivity|].
  exact (preprocess_dataset_result strptime_padded int_of_digits 240 example_cube
           optical_granule url_optical r Hrun).
Defined.




Lemma example_names_free : url_name_free (example_env 1).
Proof.
  intros Hin. vm_compute in Hin.
  repeat (apply elem_of_cons in Hin as [Hin|Hin]; [discriminate Hin|]).
  by apply elem_of_nil in Hin.
Qed.






Lemma create_parallel_terminates_witness :
  is_Some (create_parallel (example_env 1) example_cube [url_optical; url_foreign; url_radar] None).
Proof. apply create_parallel_terminates. simpl. lia. Defined.

Lemma create_parallel_zero_batch_diverges_witness :
  (forall fuel,
     create_parallel_loop (example_env 0) fuel [url_optical]
       (set_run_logs (clear example_cube) (Some 1%nat) ∅ [] []) [] true 0
       (length [url_optical]) = None) /\
  create_parallel (example_env 0) example_cube [url_optical] None = None.
Proof.
  apply (create_parallel_zero_batch_diverges (example_env 0) example_cube).
  - reflexivity.
  - vm_compute. reflexivity.
  - done.
Defined.


Ltac combine_OK :=
  let Hok := fresh "Hok" in
  assert (is_OK (example_combine_layers cube_mixed [] true) = true) as Hok by (vm_compute; reflexivity);
  destruct (example_combine_layers cube_mixed [] true) as [[self' store']|e] eqn:Hrun; [clear Hok|discriminate Hok].

Ltac example_names :=
  let Hin := fresh "Hin" in
  intros Hin; vm_compute in Hin;
  repeat (apply elem_of_cons in Hin as [Hin|Hin]; [discriminate Hin|]);
  by apply elem_of_nil in Hin.

Ltac cube_mixed_nonempty :=
  let Hnil := fresh "Hnil" in
  intros Hnil; apply (f_equal length) in Hnil; vm_compute in Hnil; discriminate Hnil.



